(** * Convergence engine of the Atlas operator: cloud provider integrations
      and data federation private endpoints.

    A shallow embedding of
    - [pkg/controller/atlasproject] (cloud provider integration pass:
      ownership resolver, matching, per-item state machine, aggregation), and
    - [pkg/controller/atlasdatafederation/private_endpoint.go]
      (private endpoint diff-and-sync),
    followed by the properties stated about them.

    Go values are embedded as follows.
    - [string] is [string]; [s != ""] is [negb (s =? "")]; [<] on strings is
      the byte-wise lexicographic [String.ltb].
    - [error] is the text of [err.Error()]; a nil-able error is
      [option error].
    - A slice is a [list]; a slice of pointers whose targets are distinct
      variables (every [&newStatus], [&cpa] below is a fresh variable of its
      loop iteration) is a [list] of the pointed-to records, updated in place
      by position.
    - [map[string]*T] is a [gmap string T].
    - Remote calls and the bookkeeping of [workflow.Context] are threaded
      through a state monad [M]; every remote call is recorded in [calls].
    - The results of [set.Difference] are unordered: the order in which
      they are handed back is a parameter ([set.Order]) of every definition
      that calls it, and the properties hold for every such order. *)

From Stdlib Require Import String Ascii Bool List Arith Lia Permutation Sorted OrderedTypeEx.
From stdpp Require Import base option gmap strings.
Import ListNotations.

Local Open Scope string_scope.
Local Open Scope list_scope.

(** [err.Error()] *)
Definition error := string.

(** Go's [s != ""]. *)
Definition nonEmpty (s : string) : bool := negb (String.eqb s "").

(** ** internal/set *)
Module set.

(** [type Identifiable interface { Identifier() interface{} }]; every
    implementation in this development returns a string. *)
Class Identifiable (A : Type) := Identifier : A -> string.

(** Modelled from the spec: the order of a result of the diff engine, which
    [internal/set] fixes and which is not among the sources. "The result
    sets are unordered; callers must not depend on iteration order": a
    result is handed back in an order that its inputs do not fix. [arrange]
    stands for that order; it may be any rearrangement. *)
Class Order (A : Type) := {
  arrange : list A -> list A;
  arrange_Permutation : forall l : list A, Permutation l (arrange l)
}.

Section Difference.
Context {A B : Type} `{Identifiable A} `{Identifiable B} `{Order A}.

(** Modelled from the spec: the matching of the diff engine. "Equality
    is by identifier string equality only"; "Empty identifiers (not yet
    linked to a remote object) never match anything". *)
Definition matches (right : list B) (l : A) : bool :=
  nonEmpty (Identifier l)
  && existsb (fun r => String.eqb (Identifier r) (Identifier l)) right.

(** Modelled from the spec: [set.Difference] of [internal/set], which is
    not among the sources. "toCreate = desired \ remote (by identifier)",
    "toDelete = remote \ desired (by identifier)": the result holds the
    elements of [left] that match no element of [right], an element with an
    empty identifier among them ("always routed to the create path"), in
    the order [arrange]. *)
Definition Difference (left : list A) (right : list B) : list A :=
  arrange (List.filter (fun l => negb (matches right l)) left).

End Difference.

End set.

(** ** go.mongodb.org/atlas/mongodbatlas *)
Module mongodbatlas.

(** [FeatureID] is an [interface{}] that the code asserts to be a string
    ([feature.FeatureID.(string)]) when it is not nil; the model carries
    that string. *)
Record FeatureUsage := {
  FeatureType : string;
  FeatureID : option string
}.

Record CloudProviderAccessRole := {
  AtlasAWSAccountARN : string;
  AtlasAssumedRoleExternalID : string;
  AuthorizedDate : string;
  CreatedDate : string;
  FeatureUsages : list (option FeatureUsage);
  IAMAssumedRoleARN : string;
  ProviderName : string;
  RoleID : string
}.

Record CloudProviderAccessRoles := {
  AWSIAMRoles : list CloudProviderAccessRole
}.

End mongodbatlas.

(** ** pkg/api/v1/status *)
Module status.

Inductive CloudProviderIntegrationStatus :=
| CloudProviderIntegrationStatusNew
| CloudProviderIntegrationStatusCreated
| CloudProviderIntegrationStatusAuthorized
| CloudProviderIntegrationStatusFailedToCreate
| CloudProviderIntegrationStatusFailedToAuthorize
| CloudProviderIntegrationStatusDeAuthorize
| CloudProviderIntegrationStatusFailedToDeAuthorize.

Definition status_eqb (a b : CloudProviderIntegrationStatus) : bool :=
  match a, b with
  | CloudProviderIntegrationStatusNew, CloudProviderIntegrationStatusNew
  | CloudProviderIntegrationStatusCreated, CloudProviderIntegrationStatusCreated
  | CloudProviderIntegrationStatusAuthorized, CloudProviderIntegrationStatusAuthorized
  | CloudProviderIntegrationStatusFailedToCreate, CloudProviderIntegrationStatusFailedToCreate
  | CloudProviderIntegrationStatusFailedToAuthorize, CloudProviderIntegrationStatusFailedToAuthorize
  | CloudProviderIntegrationStatusDeAuthorize, CloudProviderIntegrationStatusDeAuthorize
  | CloudProviderIntegrationStatusFailedToDeAuthorize, CloudProviderIntegrationStatusFailedToDeAuthorize =>
      true
  | _, _ => false
  end.

Record FeatureUsage := {
  FeatureID : string;
  FeatureType : string
}.

Record CloudProviderIntegration := {
  AtlasAWSAccountArn : string;
  AtlasAssumedRoleExternalID : string;
  AuthorizedDate : string;
  CreatedDate : string;
  FeatureUsages : list FeatureUsage;
  IamAssumedRoleArn : string;
  ProviderName : string;
  RoleID : string;
  Status : CloudProviderIntegrationStatus;
  ErrorMessage : string
}.

(** Modelled from the spec: [status.NewCloudProviderIntegration], whose
    file is not among the sources. "ConvergenceStatus entries are created
    when a DesiredItem first appears": the entry carries the identity
    fields of the declared item, phase [New], and nothing else. *)
Definition NewCloudProviderIntegration (providerName assumedRoleArn : string)
  : CloudProviderIntegration :=
  {| AtlasAWSAccountArn := "";
     AtlasAssumedRoleExternalID := "";
     AuthorizedDate := "";
     CreatedDate := "";
     FeatureUsages := [];
     IamAssumedRoleArn := assumedRoleArn;
     ProviderName := providerName;
     RoleID := "";
     Status := CloudProviderIntegrationStatusNew;
     ErrorMessage := "" |}.

Inductive ConditionType :=
| CloudProviderIntegrationReadyType
| DataFederationPEReadyType.

End status.

(** ** pkg/api/v1 *)
Module mdbv1.

(** [CloudProviderIntegration]; the deprecated [CloudProviderAccessRole]
    has the same fields (the code converts one into the other). *)
Record CloudProviderIntegration := {
  ProviderName : string;
  IamAssumedRoleArn : string
}.

Record AtlasProjectSpec := {
  CloudProviderAccessRoles : list CloudProviderIntegration;
  CloudProviderIntegrations : list CloudProviderIntegration
}.

(** [&mdbv1.AtlasProjectSpec{}] *)
Definition emptySpec : AtlasProjectSpec :=
  {| CloudProviderAccessRoles := []; CloudProviderIntegrations := [] |}.

(** The text stored under [customresource.AnnotationLastAppliedConfiguration]
    enters the pass only through [json.Unmarshal]; the model stores what
    [json.Unmarshal] makes of that text: an error, or the decoded spec. *)
Inductive LastAppliedConfiguration :=
| Malformed (err : error)
| Decoded (latestConfig : AtlasProjectSpec).

Record AtlasProjectStatus := {
  StatusCloudProviderIntegrations : list status.CloudProviderIntegration
}.

(** [AtlasProject]: [ID()], the last-applied annotation ([None] when the
    annotation is absent), [Spec] and [Status]. *)
Record AtlasProject := {
  ID : string;
  AnnotationLastAppliedConfiguration : option LastAppliedConfiguration;
  Spec : AtlasProjectSpec;
  Status : AtlasProjectStatus
}.

Record DataFederationPE := {
  EndpointID : string;
  Provider : string;
  Type_ : string
}.

(** Modelled from the spec: [DataFederationPE.Identifier], declared with
    the type outside the sources. The natural key of a private endpoint is
    its "endpoint identifier". *)
#[global] Instance DataFederationPE_Identifiable : set.Identifiable DataFederationPE :=
  EndpointID.

End mdbv1.

(** ** pkg/controller/workflow *)
Module workflow.

Inductive ConditionReason :=
| Internal
| AtlasDeletionProtection
| ProjectCloudIntegrationsIsNotReadyInAtlas.

(** Modelled from the spec: [workflow.Result], declared outside the
    sources. "The outcome of one reconciliation pass: one of [Ok],
    [InProgress(reason, message)], [Terminate(reason, message)]"; the
    constructors are the calls [OK()], [InProgress(reason, message)] and
    [Terminate(reason, message)] of the code. *)
Inductive Result :=
| OK
| InProgress (reason : ConditionReason) (message : string)
| Terminate (reason : ConditionReason) (message : string).

(** Modelled from the spec: [Result.IsOk], true of [Ok] only. *)
Definition IsOk (r : Result) : bool :=
  match r with OK => true | _ => false end.

(** What the controllers ask of the remote API, in the order asked. *)
Inductive RemoteCall :=
| ListRoles (projectID : string)
| CreateRole (projectID providerName : string)
| AuthorizeRole (projectID roleID providerName iamAssumedRoleARN : string)
| DeauthorizeRole (providerName groupID roleID : string)
| GetAllPrivateEndpoints (projectID : string)
| CreateOnePrivateEndpoint (projectID : string) (endpoint : mdbv1.DataFederationPE)
| DeleteOnePrivateEndpoint (projectID endpointID : string).

(** The calls that change remote state. *)
Definition isMutation (c : RemoteCall) : bool :=
  match c with
  | ListRoles _ | GetAllPrivateEndpoints _ => false
  | _ => true
  end.

(** Updates of the published condition, in the order made. *)
Inductive ConditionUpdate :=
| SetConditionFromResult (t : status.ConditionType) (r : Result)
| SetConditionFalse (t : status.ConditionType)
| SetConditionTrueMsg (t : status.ConditionType) (msg : string)
| UnsetCondition (t : status.ConditionType).

(** [workflow.Context] as far as the passes use it: the remote side
    reached through [Client], the calls made to it, the condition updates,
    and the status option registered by [EnsureStatusOption]. *)
Record Context (Atlas : Type) := {
  atlas : Atlas;
  calls : list RemoteCall;
  conditions : list ConditionUpdate;
  cloudIntegrationsOption : option (list status.CloudProviderIntegration)
}.
Arguments atlas {Atlas} _.
Arguments calls {Atlas} _.
Arguments conditions {Atlas} _.
Arguments cloudIntegrationsOption {Atlas} _.

Section Monad.
Context {Atlas : Type}.

(** A computation over the workflow context. *)
Definition M (A : Type) : Type := Context Atlas -> A * Context Atlas.

Definition ret {A} (a : A) : M A := fun ctx => (a, ctx).

Definition bind {A B} (m : M A) (k : A -> M B) : M B :=
  fun ctx => let (a, ctx') := m ctx in k a ctx'.

(** Perform a remote operation [op] and record it as [c]. *)
Definition call {A} (c : RemoteCall) (op : Atlas -> A * Atlas) : M A :=
  fun ctx =>
    let (a, atlas') := op (atlas ctx) in
    (a, {| atlas := atlas';
           calls := calls ctx ++ [c];
           conditions := conditions ctx;
           cloudIntegrationsOption := cloudIntegrationsOption ctx |}).

Definition setCondition (u : ConditionUpdate) : M unit :=
  fun ctx =>
    (tt, {| atlas := atlas ctx;
            calls := calls ctx;
            conditions := conditions ctx ++ [u];
            cloudIntegrationsOption := cloudIntegrationsOption ctx |}).

(** [EnsureStatusOption(status.AtlasProjectCloudIntegrationsOption(l))] *)
Definition EnsureStatusOption (l : list status.CloudProviderIntegration) : M unit :=
  fun ctx =>
    (tt, {| atlas := atlas ctx;
            calls := calls ctx;
            conditions := conditions ctx;
            cloudIntegrationsOption := Some l |}).

End Monad.

(** The context a pass starts from: the remote side as it is, no call
    made, no condition updated, no status registered. *)
Definition start {Atlas : Type} (a : Atlas) : Context Atlas :=
  {| atlas := a; calls := []; conditions := []; cloudIntegrationsOption := None |}.

(** The create, authorize, deauthorize and delete calls among [l]. *)
Definition mutations (l : list RemoteCall) : list RemoteCall :=
  List.filter isMutation l.

End workflow.

Declare Scope workflow_scope.
Delimit Scope workflow_scope with workflow.
Notation "'let*' x ':=' m 'in' k" := (workflow.bind m (fun x => k))
  (at level 10, x name, m at level 100, k at level 200) : workflow_scope.
Notation "'let*' ' p ':=' m 'in' k" :=
  (workflow.bind m (fun x => match x with p => k end))
  (at level 10, p pattern, m at level 100, k at level 200) : workflow_scope.
Notation "m ';;' k" := (workflow.bind m (fun _ => k))
  (at level 100, k at level 200, right associativity) : workflow_scope.

(** ** pkg/controller/atlasproject *)
Module atlasproject.
Import workflow.
Local Open Scope workflow_scope.

(** [type CloudProviderIntegrationIdentifiable mdbv1.CloudProviderIntegration] *)
Definition CloudProviderIntegrationIdentifiable := mdbv1.CloudProviderIntegration.

(** [fmt.Sprintf("%s.%s", cpa.ProviderName, cpa.IamAssumedRoleArn)] *)
#[global] Instance CloudProviderIntegrationIdentifiable_Identifiable
  : set.Identifiable CloudProviderIntegrationIdentifiable :=
  fun cpa => (mdbv1.ProviderName cpa ++ "." ++ mdbv1.IamAssumedRoleArn cpa)%string.

Definition getCloudProviderIntegrations (projectSpec : mdbv1.AtlasProjectSpec)
  : list mdbv1.CloudProviderIntegration :=
  if Nat.ltb 0 (length (mdbv1.CloudProviderAccessRoles projectSpec))
  then mdbv1.CloudProviderAccessRoles projectSpec
  else mdbv1.CloudProviderIntegrations projectSpec.

(** The first block of [canCloudProviderIntegrationReconcile]:
    [latestConfig] starts as the empty spec and, when the annotation is
    present, is filled by [json.Unmarshal], whose error is returned. *)
Definition unmarshalLastApplied (akoProject : mdbv1.AtlasProject)
  : error + mdbv1.AtlasProjectSpec :=
  match mdbv1.AnnotationLastAppliedConfiguration akoProject with
  | None => inr mdbv1.emptySpec
  | Some (mdbv1.Malformed err) => inl err
  | Some (mdbv1.Decoded latestConfig) => inr latestConfig
  end.

(** The loop of [canCloudProviderIntegrationReconcile] that builds
    [atlasList]: the listed roles with a non-empty assumed-role ARN, as
    identifiables. *)
Definition atlasListOf (roles : list mongodbatlas.CloudProviderAccessRole)
  : list CloudProviderIntegrationIdentifiable :=
  List.map
    (fun r => {| mdbv1.ProviderName := mongodbatlas.ProviderName r;
                 mdbv1.IamAssumedRoleArn := mongodbatlas.IAMAssumedRoleARN r |})
    (List.filter (fun r => nonEmpty (mongodbatlas.IAMAssumedRoleARN r)) roles).

(** [sort.Slice(s, less)]: on slices of at most twelve elements Go's
    [sort.Slice] (Go 1.19 and later) runs the insertion sort below; on
    longer slices it yields some permutation ordered by [less], which is the
    same list whenever no two elements are equal under [less].
    [insertByLess] places the new element before the first element it is
    [less] than, which is where the inner loop of the insertion sort stops
    moving it left. *)
Section SortSlice.
Context {A : Type} (less : A -> A -> bool).

Fixpoint insertByLess (x : A) (sorted : list A) : list A :=
  match sorted with
  | [] => [x]
  | y :: rest => if less x y then x :: y :: rest else y :: insertByLess x rest
  end.

Definition sortSlice (s : list A) : list A :=
  fold_left (fun sorted x => insertByLess x sorted) s [].
End SortSlice.

Definition sortAtlasCPAsByRoleID (atlasCPAs : list mongodbatlas.CloudProviderAccessRole)
  : list mongodbatlas.CloudProviderAccessRole :=
  sortSlice
    (fun i j => String.ltb (mongodbatlas.RoleID i) (mongodbatlas.RoleID j))
    atlasCPAs.

(** [a] comes no later than [b] in the order of [sortAtlasCPAsByRoleID]:
    [b]'s role id is not less than [a]'s. *)
Definition roleIDLe (a b : mongodbatlas.CloudProviderAccessRole) : Prop :=
  String.ltb (mongodbatlas.RoleID b) (mongodbatlas.RoleID a) = false.

Definition isMatch (cpaSpec : status.CloudProviderIntegration)
    (atlasCPA : mongodbatlas.CloudProviderAccessRole) : bool :=
  nonEmpty (mongodbatlas.IAMAssumedRoleARN atlasCPA)
  && nonEmpty (status.IamAssumedRoleArn cpaSpec)
  && String.eqb (mongodbatlas.ProviderName atlasCPA) (status.ProviderName cpaSpec)
  && String.eqb (mongodbatlas.IAMAssumedRoleARN atlasCPA) (status.IamAssumedRoleArn cpaSpec).

(** The feature usages copied by [copyCloudProviderAccessData]: nil
    entries are skipped, a nil [FeatureID] becomes the empty string. *)
Fixpoint copyFeatureUsages (l : list (option mongodbatlas.FeatureUsage))
  : list status.FeatureUsage :=
  match l with
  | [] => []
  | None :: rest => copyFeatureUsages rest
  | Some feature :: rest =>
      {| status.FeatureID :=
           match mongodbatlas.FeatureID feature with
           | Some id => id
           | None => ""
           end;
         status.FeatureType := mongodbatlas.FeatureType feature |}
      :: copyFeatureUsages rest
  end.

Definition copyCloudProviderAccessData (cpiStatus : status.CloudProviderIntegration)
    (atlasCPA : mongodbatlas.CloudProviderAccessRole) : status.CloudProviderIntegration :=
  {| status.AtlasAWSAccountArn := mongodbatlas.AtlasAWSAccountARN atlasCPA;
     status.AtlasAssumedRoleExternalID := mongodbatlas.AtlasAssumedRoleExternalID atlasCPA;
     status.AuthorizedDate := mongodbatlas.AuthorizedDate atlasCPA;
     status.CreatedDate := mongodbatlas.CreatedDate atlasCPA;
     status.FeatureUsages :=
       if Nat.ltb 0 (length (mongodbatlas.FeatureUsages atlasCPA))
       then copyFeatureUsages (mongodbatlas.FeatureUsages atlasCPA)
       else status.FeatureUsages cpiStatus;
     status.IamAssumedRoleArn := status.IamAssumedRoleArn cpiStatus;
     status.ProviderName := status.ProviderName cpiStatus;
     status.RoleID := mongodbatlas.RoleID atlasCPA;
     status.Status :=
       if nonEmpty (mongodbatlas.AuthorizedDate atlasCPA)
       then status.CloudProviderIntegrationStatusAuthorized
       else status.CloudProviderIntegrationStatusCreated;
     status.ErrorMessage := status.ErrorMessage cpiStatus |}.

(** [cpiStatus.Status = st] *)
Definition withStatus (cpiStatus : status.CloudProviderIntegration)
    (st : status.CloudProviderIntegrationStatus) : status.CloudProviderIntegration :=
  {| status.AtlasAWSAccountArn := status.AtlasAWSAccountArn cpiStatus;
     status.AtlasAssumedRoleExternalID := status.AtlasAssumedRoleExternalID cpiStatus;
     status.AuthorizedDate := status.AuthorizedDate cpiStatus;
     status.CreatedDate := status.CreatedDate cpiStatus;
     status.FeatureUsages := status.FeatureUsages cpiStatus;
     status.IamAssumedRoleArn := status.IamAssumedRoleArn cpiStatus;
     status.ProviderName := status.ProviderName cpiStatus;
     status.RoleID := status.RoleID cpiStatus;
     status.Status := st;
     status.ErrorMessage := status.ErrorMessage cpiStatus |}.

(** [cpiStatus.Status = st; cpiStatus.ErrorMessage = err.Error()] *)
Definition withFailure (cpiStatus : status.CloudProviderIntegration)
    (st : status.CloudProviderIntegrationStatus) (err : error)
  : status.CloudProviderIntegration :=
  {| status.AtlasAWSAccountArn := status.AtlasAWSAccountArn cpiStatus;
     status.AtlasAssumedRoleExternalID := status.AtlasAssumedRoleExternalID cpiStatus;
     status.AuthorizedDate := status.AuthorizedDate cpiStatus;
     status.CreatedDate := status.CreatedDate cpiStatus;
     status.FeatureUsages := status.FeatureUsages cpiStatus;
     status.IamAssumedRoleArn := status.IamAssumedRoleArn cpiStatus;
     status.ProviderName := status.ProviderName cpiStatus;
     status.RoleID := status.RoleID cpiStatus;
     status.Status := st;
     status.ErrorMessage := err |}.

Definition initiateStatuses (cpiSpecs : list mdbv1.CloudProviderIntegration)
  : list status.CloudProviderIntegration :=
  List.map
    (fun cpiSpec =>
       status.NewCloudProviderIntegration
         (mdbv1.ProviderName cpiSpec) (mdbv1.IamAssumedRoleArn cpiSpec))
    cpiSpecs.

(** ** The steps of [enrichStatuses] *)

(** First loop, for one status: every matching role is copied in turn, so
    the last match stays. *)
Definition copyMatches (atlasCPAs : list mongodbatlas.CloudProviderAccessRole)
    (cpiStatus : status.CloudProviderIntegration) : status.CloudProviderIntegration :=
  fold_left
    (fun cpiStatus cpa =>
       if isMatch cpiStatus cpa then copyCloudProviderAccessData cpiStatus cpa
       else cpiStatus)
    atlasCPAs cpiStatus.

(** Second loop: the roles with an empty assumed-role ARN. *)
Definition unauthorizedRoles (atlasCPAs : list mongodbatlas.CloudProviderAccessRole)
  : list mongodbatlas.CloudProviderAccessRole :=
  List.filter (fun cpa => String.eqb (mongodbatlas.IAMAssumedRoleARN cpa) "") atlasCPAs.

(** The guard of the third loop: the status is skipped when it has both
    an ARN and a role id. *)
Definition isConfigured (cpiStatus : status.CloudProviderIntegration) : bool :=
  nonEmpty (status.IamAssumedRoleArn cpiStatus) && nonEmpty (status.RoleID cpiStatus).

(** Third loop: every status that is not configured takes [noMatch[0]];
    the loop breaks at the first such status once [noMatch] is empty.
    Returns the statuses and what is left of [noMatch]. *)
Fixpoint claimUnauthorized (cpiStatuses : list status.CloudProviderIntegration)
    (noMatch : list mongodbatlas.CloudProviderAccessRole)
  : list status.CloudProviderIntegration * list mongodbatlas.CloudProviderAccessRole :=
  match cpiStatuses with
  | [] => ([], noMatch)
  | cpiStatus :: rest =>
      if isConfigured cpiStatus then
        let (rest', noMatch') := claimUnauthorized rest noMatch in
        (cpiStatus :: rest', noMatch')
      else
        match noMatch with
        | [] => (cpiStatus :: rest, [])
        | cpa :: noMatch' =>
            let (rest', noMatch'') := claimUnauthorized rest noMatch' in
            (copyCloudProviderAccessData cpiStatus cpa :: rest', noMatch'')
        end
  end.

(** [fmt.Sprintf("%s.%s", providerName, arn)] *)
Definition cpiKey (providerName arn : string) : string :=
  (providerName ++ "." ++ arn)%string.

Definition cpiStatusesMapOf (cpiStatuses : list status.CloudProviderIntegration)
  : gmap string status.CloudProviderIntegration :=
  fold_left
    (fun m cpiStatus =>
       if nonEmpty (status.IamAssumedRoleArn cpiStatus)
       then <[cpiKey (status.ProviderName cpiStatus) (status.IamAssumedRoleArn cpiStatus) := cpiStatus]> m
       else m)
    cpiStatuses ∅.

(** The status synthesized for a role that is to be removed. *)
Definition deleteStatusOf (cpa : mongodbatlas.CloudProviderAccessRole)
  : status.CloudProviderIntegration :=
  withStatus
    (copyCloudProviderAccessData
       (status.NewCloudProviderIntegration
          (mongodbatlas.ProviderName cpa) (mongodbatlas.IAMAssumedRoleARN cpa))
       cpa)
    status.CloudProviderIntegrationStatusDeAuthorize.

(** Fourth loop: the roles with an ARN whose key is not in the map. *)
Definition removals (cpiStatusesMap : gmap string status.CloudProviderIntegration)
    (atlasCPAs : list mongodbatlas.CloudProviderAccessRole)
  : list status.CloudProviderIntegration :=
  List.map deleteStatusOf
    (List.filter
       (fun cpa =>
          nonEmpty (mongodbatlas.IAMAssumedRoleARN cpa)
          && match cpiStatusesMap !! cpiKey (mongodbatlas.ProviderName cpa)
                                             (mongodbatlas.IAMAssumedRoleARN cpa) with
             | Some _ => false
             | None => true
             end)
       atlasCPAs).

Definition enrichStatuses (cpiStatuses : list status.CloudProviderIntegration)
    (atlasCPAs : list mongodbatlas.CloudProviderAccessRole)
  : list status.CloudProviderIntegration :=
  let cpiStatuses := List.map (copyMatches atlasCPAs) cpiStatuses in
  let noMatch := unauthorizedRoles atlasCPAs in
  let (cpiStatuses, noMatch) := claimUnauthorized cpiStatuses noMatch in
  let cpiStatusesMap := cpiStatusesMapOf cpiStatuses in
  cpiStatuses ++ removals cpiStatusesMap atlasCPAs ++ List.map deleteStatusOf noMatch.

Section Engine.
Context {Atlas : Type}.
Context {order : set.Order CloudProviderIntegrationIdentifiable}.

(** [workflowCtx.Client.CloudProviderAccess]: each operation answers from
    the remote state and may change it. A call that returns no error
    returns its value (the Go client returns a non-nil value with a nil
    error). *)
Record CloudProviderAccessService := {
  doListRoles : string -> Atlas -> (error + mongodbatlas.CloudProviderAccessRoles) * Atlas;
  doCreateRole : string -> string -> Atlas -> (error + mongodbatlas.CloudProviderAccessRole) * Atlas;
  doAuthorizeRole : string -> string -> string -> string -> Atlas ->
                    (error + mongodbatlas.CloudProviderAccessRole) * Atlas;
  doDeauthorizeRole : string -> string -> string -> Atlas -> option error * Atlas
}.

Variable Client : CloudProviderAccessService.

Definition canCloudProviderIntegrationReconcile (protected : bool)
    (akoProject : mdbv1.AtlasProject) : M (bool * option error) :=
  if negb protected then ret (true, None) else
  match unmarshalLastApplied akoProject with
  | inl err => ret (false, Some err)
  | inr latestConfig =>
    let* list_ := call (ListRoles (mdbv1.ID akoProject))
                      (doListRoles Client (mdbv1.ID akoProject)) in
    match list_ with
    | inl err => ret (false, Some err)
    | inr list_ =>
      let atlasList := atlasListOf (mongodbatlas.AWSIAMRoles list_) in
      if Nat.eqb (length atlasList) 0 then ret (true, None) else
      let akoLastList : list CloudProviderIntegrationIdentifiable :=
        getCloudProviderIntegrations latestConfig in
      let diff := set.Difference atlasList akoLastList in
      if Nat.eqb (length diff) 0 then ret (true, None) else
      let akoCurrentList : list CloudProviderIntegrationIdentifiable :=
        getCloudProviderIntegrations (mdbv1.Spec akoProject) in
      let diff := set.Difference akoCurrentList atlasList in
      ret (Nat.eqb (length diff) 0, None)
    end
  end.

Definition createCloudProviderAccess (projectID : string)
    (cpiStatus : status.CloudProviderIntegration) : M status.CloudProviderIntegration :=
  let* cpa := call (CreateRole projectID (status.ProviderName cpiStatus))
                   (doCreateRole Client projectID (status.ProviderName cpiStatus)) in
  match cpa with
  | inl err =>
      ret (withFailure cpiStatus status.CloudProviderIntegrationStatusFailedToCreate err)
  | inr cpa => ret (copyCloudProviderAccessData cpiStatus cpa)
  end.

Definition authorizeCloudProviderAccess (projectID : string)
    (cpiStatus : status.CloudProviderIntegration) : M status.CloudProviderIntegration :=
  let* cpa := call (AuthorizeRole projectID (status.RoleID cpiStatus)
                      (status.ProviderName cpiStatus) (status.IamAssumedRoleArn cpiStatus))
                   (doAuthorizeRole Client projectID (status.RoleID cpiStatus)
                      (status.ProviderName cpiStatus) (status.IamAssumedRoleArn cpiStatus)) in
  match cpa with
  | inl err =>
      ret (withFailure cpiStatus status.CloudProviderIntegrationStatusFailedToAuthorize err)
  | inr cpa => ret (copyCloudProviderAccessData cpiStatus cpa)
  end.

Definition deleteCloudProviderAccess (projectID : string)
    (cpiStatus : status.CloudProviderIntegration) : M status.CloudProviderIntegration :=
  let* err := call (DeauthorizeRole (status.ProviderName cpiStatus) projectID
                      (status.RoleID cpiStatus))
                   (doDeauthorizeRole Client (status.ProviderName cpiStatus) projectID
                      (status.RoleID cpiStatus)) in
  match err with
  | Some err =>
      ret (withFailure cpiStatus status.CloudProviderIntegrationStatusFailedToDeAuthorize err)
  | None => ret cpiStatus
  end.

(** The [switch] in the loop of [syncCloudProviderIntegration], for one
    [cpiStatus]: the status as the branch leaves it, and whether the
    branch appends it to [cpiStatusesToUpdate]. *)
Definition syncItem (projectID : string) (cpiStatus : status.CloudProviderIntegration)
  : M (status.CloudProviderIntegration * bool) :=
  match status.Status cpiStatus with
  | status.CloudProviderIntegrationStatusNew
  | status.CloudProviderIntegrationStatusFailedToCreate =>
      let* cpiStatus := createCloudProviderAccess projectID cpiStatus in
      ret (cpiStatus, true)
  | status.CloudProviderIntegrationStatusCreated
  | status.CloudProviderIntegrationStatusFailedToAuthorize =>
      let* cpiStatus :=
        (if nonEmpty (status.IamAssumedRoleArn cpiStatus)
         then authorizeCloudProviderAccess projectID cpiStatus
         else ret cpiStatus) in
      ret (cpiStatus, true)
  | status.CloudProviderIntegrationStatusDeAuthorize
  | status.CloudProviderIntegrationStatusFailedToDeAuthorize =>
      let* cpiStatus := deleteCloudProviderAccess projectID cpiStatus in
      ret (cpiStatus, false)
  | status.CloudProviderIntegrationStatusAuthorized =>
      ret (cpiStatus, true)
  end.

(** The loop of [syncCloudProviderIntegration] over [cpiStatuses]. It
    returns [cpiStatuses] as the loop leaves them (they are updated in
    place), [cpiStatusesToUpdate] and [withError]. *)
Fixpoint syncLoop (projectID : string)
    (cpiStatuses cpiStatusesToUpdate : list status.CloudProviderIntegration)
    (withError : bool)
  : M (list status.CloudProviderIntegration
       * list status.CloudProviderIntegration * bool) :=
  match cpiStatuses with
  | [] => ret ([], cpiStatusesToUpdate, withError)
  | cpiStatus :: rest =>
      let* '(cpiStatus, appended) := syncItem projectID cpiStatus in
      let cpiStatusesToUpdate :=
        if appended then cpiStatusesToUpdate ++ [cpiStatus] else cpiStatusesToUpdate in
      let withError :=
        if nonEmpty (status.ErrorMessage cpiStatus) then true else withError in
      let* '(rest, cpiStatusesToUpdate, withError) :=
        syncLoop projectID rest cpiStatusesToUpdate withError in
      ret (cpiStatus :: rest, cpiStatusesToUpdate, withError)
  end.

(** The last loop of [syncCloudProviderIntegration]. *)
Definition allAuthorized (cpiStatusesToUpdate : list status.CloudProviderIntegration) : bool :=
  forallb
    (fun cpiStatus =>
       status.status_eqb (status.Status cpiStatus)
         status.CloudProviderIntegrationStatusAuthorized)
    cpiStatusesToUpdate.

Definition syncCloudProviderIntegration (projectID : string)
    (cpaSpecs : list mdbv1.CloudProviderIntegration) : M (bool * option error) :=
  let* atlasCPAs := call (ListRoles projectID) (doListRoles Client projectID) in
  match atlasCPAs with
  | inl err =>
      ret (false, Some ("unable to fetch cloud provider access from Atlas: " ++ err)%string)
  | inr atlasCPAs =>
      let AWSRoles := sortAtlasCPAsByRoleID (mongodbatlas.AWSIAMRoles atlasCPAs) in
      let cpiStatuses := enrichStatuses (initiateStatuses cpaSpecs) AWSRoles in
      let* '(_, cpiStatusesToUpdate, withError) :=
        syncLoop projectID cpiStatuses [] false in
      EnsureStatusOption cpiStatusesToUpdate ;;
      if withError
      then ret (false, Some "not all items were synchronized successfully")
      else ret (allAuthorized cpiStatusesToUpdate, None)
  end.

Definition deletionProtectionMessage : string :=
  "unable to reconcile Cloud Provider Integrations due to deletion protection being enabled. see https://dochub.mongodb.org/core/ako-deletion-protection for further information".

Definition ensureCloudProviderIntegration (project : mdbv1.AtlasProject)
    (protected : bool) : M Result :=
  let* '(canReconcile, err) := canCloudProviderIntegrationReconcile protected project in
  match err with
  | Some err =>
      let result :=
        Terminate Internal
          ("unable to resolve ownership for deletion protection: " ++ err)%string in
      setCondition (SetConditionFromResult status.CloudProviderIntegrationReadyType result) ;;
      ret result
  | None =>
    if negb canReconcile then
      let result := Terminate AtlasDeletionProtection deletionProtectionMessage in
      setCondition (SetConditionFromResult status.CloudProviderIntegrationReadyType result) ;;
      ret result
    else
    let roleStatuses := mdbv1.StatusCloudProviderIntegrations (mdbv1.Status project) in
    let roleSpecs := getCloudProviderIntegrations (mdbv1.Spec project) in
    if Nat.eqb (length roleSpecs) 0 && Nat.eqb (length roleStatuses) 0 then
      setCondition (UnsetCondition status.CloudProviderIntegrationReadyType) ;;
      ret OK
    else
    let* '(allAuthorized, err) := syncCloudProviderIntegration (mdbv1.ID project) roleSpecs in
    match err with
    | Some err =>
        let result := Terminate ProjectCloudIntegrationsIsNotReadyInAtlas err in
        setCondition (SetConditionFromResult status.CloudProviderIntegrationReadyType result) ;;
        ret result
    | None =>
      if negb allAuthorized then
        setCondition (SetConditionFalse status.CloudProviderIntegrationReadyType) ;;
        ret (InProgress ProjectCloudIntegrationsIsNotReadyInAtlas
               "not all entries are authorized")
      else
      let warnDeprecationMsg :=
        if Nat.ltb 0 (length (mdbv1.CloudProviderAccessRoles (mdbv1.Spec project)))
        then "The CloudProviderAccessRole has been deprecated, please move your configuration under CloudProviderIntegration."
        else "" in
      setCondition (SetConditionTrueMsg status.CloudProviderIntegrationReadyType
                      warnDeprecationMsg) ;;
      ret OK
    end
  end.

(** Modelled from the spec: the caller of the pass, which is not among the
    sources. "ConvergenceStatus ... is mutated exclusively by the State
    Machine and persisted by the caller after each pass": the statuses
    registered by [EnsureStatusOption] replace those of the project; a pass
    that registers none leaves them as they are. *)
Definition persistStatus (project : mdbv1.AtlasProject) (ctx : Context Atlas)
  : mdbv1.AtlasProject :=
  {| mdbv1.ID := mdbv1.ID project;
     mdbv1.AnnotationLastAppliedConfiguration :=
       mdbv1.AnnotationLastAppliedConfiguration project;
     mdbv1.Spec := mdbv1.Spec project;
     mdbv1.Status :=
       {| mdbv1.StatusCloudProviderIntegrations :=
            match cloudIntegrationsOption ctx with
            | Some cpiStatuses => cpiStatuses
            | None => mdbv1.StatusCloudProviderIntegrations (mdbv1.Status project)
            end |} |}.

(** One full convergence pass on the remote [a]: the result, the project
    with its status persisted, and the context the pass ends in (the remote
    as the pass leaves it, and the calls made). *)
Definition reconcile (protected : bool) (project : mdbv1.AtlasProject) (a : Atlas)
  : Result * mdbv1.AtlasProject * Context Atlas :=
  let (result, ctx) := ensureCloudProviderIntegration project protected (start a) in
  (result, persistStatus project ctx, ctx).

End Engine.

End atlasproject.

(** ** pkg/controller/atlasdatafederation *)
Module atlasdatafederation.
Import workflow.
Local Open Scope workflow_scope.

Section Engine.
Context {Atlas : Type}.
Context {order : set.Order mdbv1.DataFederationPE}.

(** [DataFederationServiceOp], declared outside the sources, as far as
    [private_endpoint.go] uses it. [GetAllPrivateEndpoints] returns a
    slice ([None] for nil) together with its error. *)
Record DataFederationServiceOp := {
  doGetAllPrivateEndpoints :
    string -> Atlas -> (option (list mdbv1.DataFederationPE) * option error) * Atlas;
  doCreateOnePrivateEndpoint :
    string -> mdbv1.DataFederationPE -> Atlas -> option error * Atlas;
  doDeleteOnePrivateEndpoint : string -> string -> Atlas -> option error * Atlas
}.

Variable clientDF : DataFederationServiceOp.

Definition getAllDataFederationPEs (projectID : string)
  : M (list mdbv1.DataFederationPE * option error) :=
  let* '(endpoints, err) :=
    call (GetAllPrivateEndpoints projectID) (doGetAllPrivateEndpoints clientDF projectID) in
  ret (match endpoints with
       | None => []
       | Some endpoints => endpoints
       end, err).

(** First loop of [syncPrivateEndpointsWithAtlas]; the error of the
    first failing call ends it. *)
Fixpoint createEndpoints (projectID : string)
    (endpointsToCreate : list mdbv1.DataFederationPE) : M (option error) :=
  match endpointsToCreate with
  | [] => ret None
  | endpoint :: rest =>
      let* err := call (CreateOnePrivateEndpoint projectID endpoint)
                       (doCreateOnePrivateEndpoint clientDF projectID endpoint) in
      match err with
      | Some err => ret (Some err)
      | None => createEndpoints projectID rest
      end
  end.

(** Second loop of [syncPrivateEndpointsWithAtlas]. *)
Fixpoint deleteEndpoints (projectID : string)
    (endpointsToDelete : list mdbv1.DataFederationPE) : M (option error) :=
  match endpointsToDelete with
  | [] => ret None
  | endpoint :: rest =>
      let* err := call (DeleteOnePrivateEndpoint projectID (mdbv1.EndpointID endpoint))
                       (doDeleteOnePrivateEndpoint clientDF projectID
                          (mdbv1.EndpointID endpoint)) in
      match err with
      | Some err => ret (Some err)
      | None => deleteEndpoints projectID rest
      end
  end.

Definition syncPrivateEndpointsWithAtlas (projectID : string)
    (specPEs atlasPEs : list mdbv1.DataFederationPE) : M Result :=
  let endpointsToCreate := set.Difference specPEs atlasPEs in
  let* err := createEndpoints projectID endpointsToCreate in
  match err with
  | Some err => ret (Terminate Internal err)
  | None =>
      let endpointsToDelete := set.Difference atlasPEs specPEs in
      let* err := deleteEndpoints projectID endpointsToDelete in
      match err with
      | Some err => ret (Terminate Internal err)
      | None => ret OK
      end
  end.

(** [ensurePrivateEndpoints], given [project.ID()] and
    [dataFederation.Spec.PrivateEndpoints]; the error of the listing is
    only logged. *)
Definition ensurePrivateEndpoints (projectID : string)
    (specPEs : list mdbv1.DataFederationPE) : M Result :=
  let* '(atlasPEs, _) := getAllDataFederationPEs projectID in
  let* result := syncPrivateEndpointsWithAtlas projectID specPEs atlasPEs in
  if negb (IsOk result) then
    setCondition (SetConditionFromResult status.DataFederationPEReadyType result) ;;
    ret result
  else ret OK.

End Engine.

End atlasdatafederation.

(** ** The specification's wording of the operations *)
Module spec.

(** The identifier set of a list of identifiable items. *)
Definition identifiers {A : Type} `{set.Identifiable A} (l : list A) : gset string :=
  list_to_set (set.Identifier <$> l).

(** The identifier set of the roles as the remote API lists them, every
    role counted, with the identifier the resolver uses
    ([provider.assumedRoleArn]). *)
Definition roleIdentifiers (roles : list mongodbatlas.CloudProviderAccessRole)
  : gset string :=
  list_to_set
    ((fun r => atlasproject.cpiKey (mongodbatlas.ProviderName r)
                 (mongodbatlas.IAMAssumedRoleARN r)) <$> roles).

(** Section 4.4, steps 1 to 4: permitted when deletion protection is
    disabled; else when the remote list is empty; else when
    [remote \ lastAppliedDesired] is empty; else exactly when
    [currentDesired \ remote] is empty. *)
Definition permitted (protected : bool)
    (remote lastAppliedDesired currentDesired : gset string) : Prop :=
  protected = false
  ∨ remote = ∅
  ∨ remote ∖ lastAppliedDesired = ∅
  ∨ currentDesired ∖ remote = ∅.

(** The identifier of an integration: its provider name and the ARN of its
    assumed role, joined by a dot. *)
Definition key (providerName arn : string) : string :=
  (providerName ++ "." ++ arn)%string.

(** The remote set of the resolver as the code has it: the identifiers of
    the listed roles that have an assumed-role ARN. *)
Definition authorizedRoleIdentifiers (roles : list mongodbatlas.CloudProviderAccessRole)
  : gset string :=
  list_to_set
    ((fun r => key (mongodbatlas.ProviderName r) (mongodbatlas.IAMAssumedRoleARN r))
       <$> List.filter
             (fun r => negb (String.eqb (mongodbatlas.IAMAssumedRoleARN r) "")) roles).

(** The items that a project spec declares: the deprecated access roles
    when there are any, the integrations otherwise. *)
Definition desired (projectSpec : mdbv1.AtlasProjectSpec)
  : list mdbv1.CloudProviderIntegration :=
  match mdbv1.CloudProviderAccessRoles projectSpec with
  | [] => mdbv1.CloudProviderIntegrations projectSpec
  | roles => roles
  end.

(** The identifier set of the declared items. *)
Definition desiredIdentifiers (projectSpec : mdbv1.AtlasProjectSpec) : gset string :=
  list_to_set
    ((fun d => key (mdbv1.ProviderName d) (mdbv1.IamAssumedRoleArn d))
       <$> desired projectSpec).

(** [latestConfig] is the last-applied configuration of the project: the
    empty one when the project has no snapshot, the decoded one when its
    snapshot decodes. *)
Definition lastApplied (akoProject : mdbv1.AtlasProject)
    (latestConfig : mdbv1.AtlasProjectSpec) : Prop :=
  (mdbv1.AnnotationLastAppliedConfiguration akoProject = None
   /\ latestConfig = mdbv1.emptySpec)
  \/ mdbv1.AnnotationLastAppliedConfiguration akoProject = Some (mdbv1.Decoded latestConfig).


(** The identifier set of a list of private endpoints. *)
Definition endpointIdentifiers (l : list mdbv1.DataFederationPE) : gset string :=
  list_to_set (mdbv1.EndpointID <$> l).

(** There is nothing to synchronize: the project declares no item and has
    no status persisted. *)
Definition nothingToSynchronize (project : mdbv1.AtlasProject) : Prop :=
  desired (mdbv1.Spec project) = []
  /\ mdbv1.StatusCloudProviderIntegrations (mdbv1.Status project) = [].

(** "[DeAuthorize]/[FailedToDeAuthorize] implies the item has no
    corresponding DesiredItem (it is remote-only, slated for removal)". *)
Definition pendingRemoval (cpiStatus : status.CloudProviderIntegration) : bool :=
  match status.Status cpiStatus with
  | status.CloudProviderIntegrationStatusDeAuthorize
  | status.CloudProviderIntegrationStatusFailedToDeAuthorize => true
  | _ => false
  end.

(** An item carries an error message. *)
Definition hasError (cpiStatus : status.CloudProviderIntegration) : bool :=
  nonEmpty (status.ErrorMessage cpiStatus).

End spec.

(** ** Deterministic remotes for the examples *)
Module fake.
Import workflow.

(** A diff engine that hands back its results in the order of its left
    argument, and one that hands them back in the reverse order. *)
#[global] Instance asListed {A : Type} : set.Order A | 100 :=
  {| set.arrange := fun l => l;
     set.arrange_Permutation := fun l => Permutation_refl l |}.

Definition reversed {A : Type} : set.Order A :=
  {| set.arrange := @rev A;
     set.arrange_Permutation := @Permutation_rev A |}.

(** A remote that holds roles and answers every operation on them; each
    kind of operation can be set to fail with a given error. *)
Record Atlas := {
  roles : list mongodbatlas.CloudProviderAccessRole;
  listError : option error;
  createError : option error;
  authorizeError : option error;
  deauthorizeError : option error
}.

Definition withRoles (a : Atlas) (l : list mongodbatlas.CloudProviderAccessRole) : Atlas :=
  {| roles := l;
     listError := listError a;
     createError := createError a;
     authorizeError := authorizeError a;
     deauthorizeError := deauthorizeError a |}.

(** A remote holding [l] on which no operation fails. *)
Definition holding (l : list mongodbatlas.CloudProviderAccessRole) : Atlas :=
  {| roles := l; listError := None; createError := None;
     authorizeError := None; deauthorizeError := None |}.

Definition digit (n : nat) : string :=
  String (ascii_of_nat (48 + n mod 10)) EmptyString.

(** The role a create call adds: unauthorized, with the next role id. *)
Definition newRole (providerName : string) (n : nat) : mongodbatlas.CloudProviderAccessRole :=
  {| mongodbatlas.AtlasAWSAccountARN := "arn:aws:iam::atlas:root";
     mongodbatlas.AtlasAssumedRoleExternalID := "external-id";
     mongodbatlas.AuthorizedDate := "";
     mongodbatlas.CreatedDate := "2024-01-01T00:00:00Z";
     mongodbatlas.FeatureUsages := [];
     mongodbatlas.IAMAssumedRoleARN := "";
     mongodbatlas.ProviderName := providerName;
     mongodbatlas.RoleID := ("role-" ++ digit n)%string |}.

Definition authorized (r : mongodbatlas.CloudProviderAccessRole) (arn : string)
  : mongodbatlas.CloudProviderAccessRole :=
  {| mongodbatlas.AtlasAWSAccountARN := mongodbatlas.AtlasAWSAccountARN r;
     mongodbatlas.AtlasAssumedRoleExternalID := mongodbatlas.AtlasAssumedRoleExternalID r;
     mongodbatlas.AuthorizedDate := "2024-01-02T00:00:00Z";
     mongodbatlas.CreatedDate := mongodbatlas.CreatedDate r;
     mongodbatlas.FeatureUsages := mongodbatlas.FeatureUsages r;
     mongodbatlas.IAMAssumedRoleARN := arn;
     mongodbatlas.ProviderName := mongodbatlas.ProviderName r;
     mongodbatlas.RoleID := mongodbatlas.RoleID r |}.

Definition Client : atlasproject.CloudProviderAccessService (Atlas := Atlas) :=
  {| atlasproject.doListRoles := fun _ a =>
       match listError a with
       | Some err => (inl err, a)
       | None => (inr {| mongodbatlas.AWSIAMRoles := roles a |}, a)
       end;
     atlasproject.doCreateRole := fun _ providerName a =>
       match createError a with
       | Some err => (inl err, a)
       | None =>
           let r := newRole providerName (S (length (roles a))) in
           (inr r, withRoles a (roles a ++ [r]))
       end;
     atlasproject.doAuthorizeRole := fun _ roleID _ arn a =>
       match authorizeError a with
       | Some err => (inl err, a)
       | None =>
           match List.find (fun r => String.eqb (mongodbatlas.RoleID r) roleID) (roles a) with
           | None => (inl "role not found", a)
           | Some r =>
               (inr (authorized r arn),
                withRoles a
                  (List.map
                     (fun r' => if String.eqb (mongodbatlas.RoleID r') roleID
                                then authorized r' arn else r')
                     (roles a)))
           end
       end;
     atlasproject.doDeauthorizeRole := fun _ _ roleID a =>
       match deauthorizeError a with
       | Some err => (Some err, a)
       | None =>
           (None,
            withRoles a
              (List.filter
                 (fun r => negb (String.eqb (mongodbatlas.RoleID r) roleID))
                 (roles a)))
       end |}.

(** An authorized AWS role. *)
Definition awsRole (roleID arn : string) : mongodbatlas.CloudProviderAccessRole :=
  {| mongodbatlas.AtlasAWSAccountARN := "arn:aws:iam::atlas:root";
     mongodbatlas.AtlasAssumedRoleExternalID := "external-id";
     mongodbatlas.AuthorizedDate := "2024-01-02T00:00:00Z";
     mongodbatlas.CreatedDate := "2024-01-01T00:00:00Z";
     mongodbatlas.FeatureUsages := [];
     mongodbatlas.IAMAssumedRoleARN := arn;
     mongodbatlas.ProviderName := "AWS";
     mongodbatlas.RoleID := roleID |}.

(** An AWS role that is created and not yet authorized. *)
Definition createdRole (roleID createdDate : string) : mongodbatlas.CloudProviderAccessRole :=
  {| mongodbatlas.AtlasAWSAccountARN := "arn:aws:iam::atlas:root";
     mongodbatlas.AtlasAssumedRoleExternalID := "external-id";
     mongodbatlas.AuthorizedDate := "";
     mongodbatlas.CreatedDate := createdDate;
     mongodbatlas.FeatureUsages := [];
     mongodbatlas.IAMAssumedRoleARN := "";
     mongodbatlas.ProviderName := "AWS";
     mongodbatlas.RoleID := roleID |}.

Definition aws (arn : string) : mdbv1.CloudProviderIntegration :=
  {| mdbv1.ProviderName := "AWS"; mdbv1.IamAssumedRoleArn := arn |}.

(** A project declaring [current], last applied with [lastApplied], with
    no status yet. *)
Definition project (lastApplied : option mdbv1.LastAppliedConfiguration)
    (current : list mdbv1.CloudProviderIntegration) : mdbv1.AtlasProject :=
  {| mdbv1.ID := "project-1";
     mdbv1.AnnotationLastAppliedConfiguration := lastApplied;
     mdbv1.Spec := {| mdbv1.CloudProviderAccessRoles := [];
                      mdbv1.CloudProviderIntegrations := current |};
     mdbv1.Status := {| mdbv1.StatusCloudProviderIntegrations := [] |} |}.

Definition applied (l : list mdbv1.CloudProviderIntegration)
  : option mdbv1.LastAppliedConfiguration :=
  Some (mdbv1.Decoded {| mdbv1.CloudProviderAccessRoles := [];
                         mdbv1.CloudProviderIntegrations := l |}).

(** A remote that holds private endpoints; the listing can be set to
    fail. *)
Record DataFederation := {
  endpoints : list mdbv1.DataFederationPE;
  getAllError : option error
}.

Definition withEndpoints (a : DataFederation) (l : list mdbv1.DataFederationPE)
  : DataFederation :=
  {| endpoints := l; getAllError := getAllError a |}.

(** The client of that remote; the creation of the endpoints named in
    [rejected] fails. *)
Definition clientDF (rejected : list string)
  : atlasdatafederation.DataFederationServiceOp (Atlas := DataFederation) :=
  {| atlasdatafederation.doGetAllPrivateEndpoints := fun _ a =>
       match getAllError a with
       | Some err => ((None, Some err), a)
       | None => ((Some (endpoints a), None), a)
       end;
     atlasdatafederation.doCreateOnePrivateEndpoint := fun _ endpoint a =>
       if existsb (String.eqb (mdbv1.EndpointID endpoint)) rejected
       then (Some "endpoint rejected", a)
       else (None, withEndpoints a (endpoints a ++ [endpoint]));
     atlasdatafederation.doDeleteOnePrivateEndpoint := fun _ endpointID a =>
       (None,
        withEndpoints a
          (List.filter (fun e => negb (String.eqb (mdbv1.EndpointID e) endpointID))
             (endpoints a))) |}.

Definition pe (endpointID : string) : mdbv1.DataFederationPE :=
  {| mdbv1.EndpointID := endpointID; mdbv1.Provider := "AWS"; mdbv1.Type_ := "DATA_LAKE" |}.

End fake.

(** ** Concrete projects and remotes used in the examples *)
Module examples.

Definition arn1 : string := "arn:aws:iam::1".
Definition arn2 : string := "arn:aws:iam::2".
Definition arn3 : string := "arn:aws:iam::3".

(** Scenario B of the specification: the remote holds the roles of
    [arn1] and [arn2], both authorized; [arn1] was last applied. *)
Definition remoteB : fake.Atlas :=
  fake.holding [fake.awsRole "r1" arn1; fake.awsRole "r2" arn2].

Definition projectB (current : list mdbv1.CloudProviderIntegration) : mdbv1.AtlasProject :=
  fake.project (fake.applied [fake.aws arn1]) current.

(** A remote holding one role that is created and not yet authorized. *)
Definition remoteUnauthorized : fake.Atlas :=
  fake.holding [fake.createdRole "r1" "2024-01-01T00:00:00Z"].

(** A project that declares [arn1] and has no last-applied snapshot. *)
Definition projectFresh : mdbv1.AtlasProject :=
  fake.project None [fake.aws arn1].

(** A project whose last-applied annotation holds the text [{], which
    [json.Unmarshal] rejects. *)
Definition projectMalformed : mdbv1.AtlasProject :=
  fake.project (Some (mdbv1.Malformed "unexpected end of JSON input")) [fake.aws arn1].

(** A remote holding no role. *)
Definition remoteEmpty : fake.Atlas := fake.holding [].

Definition arn9 : string := "arn:aws:iam::9".

(** Scenario C of the specification with a failing removal: nothing is
    declared, the remote holds the role of [arn9], and every deauthorize
    call fails. *)
Definition remoteFailingDeauthorize : fake.Atlas :=
  {| fake.roles := [fake.awsRole "r9" arn9];
     fake.listError := None;
     fake.createError := None;
     fake.authorizeError := None;
     fake.deauthorizeError := Some "service unavailable" |}.

(** The status synthesized for the removal of that role. *)
Definition removal9 : status.CloudProviderIntegration :=
  atlasproject.deleteStatusOf (fake.awsRole "r9" arn9).

(** Two roles created and not yet authorized: ["a"] has the smaller role
    id, ["b"] was created first. *)
Definition roleA : mongodbatlas.CloudProviderAccessRole :=
  fake.createdRole "a" "2024-02-01T00:00:00Z".

Definition roleB : mongodbatlas.CloudProviderAccessRole :=
  fake.createdRole "b" "2023-01-01T00:00:00Z".

(** A declared AWS integration whose assumed-role ARN is not known yet. *)
Definition awsPending : mdbv1.CloudProviderIntegration := fake.aws "".

(** A remote holding one private endpoint, whose listing fails. *)
Definition remoteListingFails : fake.DataFederation :=
  {| fake.endpoints := [fake.pe "vpce-0"];
     fake.getAllError := Some "service unavailable" |}.

(** Two declared private endpoints. *)
Definition declaredPEs : list mdbv1.DataFederationPE :=
  [fake.pe "vpce-1"; fake.pe "vpce-2"].

(** A project that declares [arn1] and [arn2], both authorized in
    [remoteB]. *)
Definition projectConverged : mdbv1.AtlasProject :=
  fake.project (fake.applied [fake.aws arn1]) [fake.aws arn1; fake.aws arn2].

End examples.

(** ** pkg/controller/atlasfederatedauth *)
Module atlasfederatedauth.

(** The condition reasons that [Reconcile] names, and any other reason that
    [ensureFederatedAuth] may return. *)
Inductive ConditionReason :=
| Internal
| AtlasGovUnsupported
| AtlasAPIAccessNotConfigured
| AtlasDeletionProtection
| OtherReason (name : string).

(** Modelled from the spec: [workflow.Result], declared outside the
    sources, with the flags this controller uses. "One of [Ok],
    [InProgress(reason, message)], [Terminate(reason, message, retryable)],
    optionally flagged [Warning]". [Terminate(reason, message)] builds a
    retryable result without warning; [WithoutRetry] clears [retryable]. *)
Inductive Outcome :=
| OK
| InProgress (reason : ConditionReason) (message : string)
| Terminate (reason : ConditionReason) (message : string) (retryable : bool).

Record Result := {
  outcome : Outcome;
  warning : bool
}.

Definition ok : Result := {| outcome := OK; warning := false |}.

Definition terminate (reason : ConditionReason) (message : string) : Result :=
  {| outcome := Terminate reason message true; warning := false |}.

Definition WithoutRetry (r : Result) : Result :=
  {| outcome :=
       match outcome r with
       | Terminate reason message _ => Terminate reason message false
       | o => o
       end;
     warning := warning r |}.

Definition IsOk (r : Result) : bool :=
  match outcome r with OK => true | _ => false end.

Definition IsWarning (r : Result) : bool := warning r.

Definition GetMessage (r : Result) : string :=
  match outcome r with
  | OK => ""
  | InProgress _ message | Terminate _ message _ => message
  end.

Inductive ConditionType :=
| FederatedAuthReadyType
| ReadyType.

(** What a run of [Reconcile] does besides returning, in the order done. *)
Inductive Step :=
| PrepareResource
| ManageFinalizerUnset
| MarkReconciliationStarted
| ValidateResourceVersion
| IsResourceSupported
| SdkClient
| IsOwner
| EnsureFederatedAuth
| SetConditionFromResult (condition : ConditionType) (result : Result)
| LogWarning (message : string)
| StatusUpdate.

(** The answers of the collaborators of [Reconcile] in one run. Each is
    asked at most once in a run, so one value stands for each. *)
Record Answers := {
  prepareResource : Result;
  reconciliationShouldBeSkipped : bool;
  deletionTimestampIsZero : bool;
  manageFinalizer : option error;
  validateResourceVersion : Result;
  isResourceSupported : bool;
  sdkClient : option error;
  isOwner : bool * option error;
  ensureFederatedAuth : Result
}.

Definition logIfWarning (result : Result) : list Step :=
  if IsWarning result then [LogWarning (GetMessage result)] else [].

Definition setCondition (condition : ConditionType) (result : Result) : list Step :=
  SetConditionFromResult condition result :: logIfWarning result.

Definition deletionProtectionMessage : string :=
  "unable to reconcile FederatedAuthConfig due to deletion protection being enabled. see https://dochub.mongodb.org/core/ako-deletion-protection for further information".

(** [Reconcile]: the result whose [ReconcileResult()] is returned (the
    returned error is always nil), and the steps of the run. The deferred
    [statushandler.Update] is the last step of every run that reaches the
    [defer]. *)
Definition Reconcile (a : Answers) : Result * list Step :=
  let result := prepareResource a in
  if negb (IsOk result) then (result, [PrepareResource]) else
  if reconciliationShouldBeSkipped a then
    if negb (deletionTimestampIsZero a) then
      match manageFinalizer a with
      | Some err =>
          (terminate Internal err, [PrepareResource; ManageFinalizerUnset])
      | None => (ok, [PrepareResource; ManageFinalizerUnset])
      end
    else (ok, [PrepareResource])
  else
  let started := [PrepareResource; MarkReconciliationStarted] in
  let resourceVersionIsValid := validateResourceVersion a in
  if negb (IsOk resourceVersionIsValid) then
    (resourceVersionIsValid, started ++ [ValidateResourceVersion; StatusUpdate])
  else
  if negb (isResourceSupported a) then
    let result :=
      WithoutRetry
        (terminate AtlasGovUnsupported
           "the AtlasFederatedAuth is not supported by Atlas for government") in
    (result,
     started ++ [ValidateResourceVersion; IsResourceSupported]
     ++ setCondition FederatedAuthReadyType result ++ [StatusUpdate])
  else
  match sdkClient a with
  | Some err =>
      let result := terminate AtlasAPIAccessNotConfigured err in
      (result,
       started ++ [ValidateResourceVersion; IsResourceSupported; SdkClient]
       ++ setCondition FederatedAuthReadyType result ++ [StatusUpdate])
  | None =>
      let checked :=
        started ++ [ValidateResourceVersion; IsResourceSupported; SdkClient; IsOwner] in
      match isOwner a with
      | (_, Some err) =>
          let result :=
            terminate Internal
              ("unable to resolve ownership for deletion protection: " ++ err)%string in
          (result,
           checked ++ [SetConditionFromResult FederatedAuthReadyType result; StatusUpdate])
      | (false, None) =>
          let result := terminate AtlasDeletionProtection deletionProtectionMessage in
          (result,
           checked ++ [SetConditionFromResult FederatedAuthReadyType result; StatusUpdate])
      | (true, None) =>
          let result := ensureFederatedAuth a in
          (result,
           checked
           ++ [EnsureFederatedAuth;
               SetConditionFromResult FederatedAuthReadyType result;
               SetConditionFromResult ReadyType result;
               StatusUpdate])
      end
  end.

(** *** [managedByAtlas] *)

(** The lookups that the checker makes, in the order made. *)
Inductive Lookup :=
| GetFederationSettings (orgID : string)
| GetConnectedOrgConfig (federationSettingsID orgID : string)
| PrepareProjectList.

Section ManagedByAtlas.
(** The types of the SDK and of the resource, and the functions of this
    package and of [pkg/api/v1] that are declared outside the sources. *)
Context {Atlas FederationSettings ConnectedOrgConfig ProjectList FederatedAuthSpec : Type}.
Variable GetId : FederationSettings -> string.
Variable GetIdentityProviderId : ConnectedOrgConfig -> string.
Variable ToAtlas :
  FederatedAuthSpec -> string -> string -> ProjectList -> error + ConnectedOrgConfig.
Variable federatedSettingsAreEqual : ConnectedOrgConfig -> ConnectedOrgConfig -> bool.

(** [atlasClient.FederatedAuthenticationApi] and [prepareProjectList], each
    answering from the remote state. *)
Record FederatedAuthenticationApi := {
  doGetFederationSettings : string -> Atlas -> (error + FederationSettings) * Atlas;
  doGetConnectedOrgConfig : string -> string -> Atlas -> (error + ConnectedOrgConfig) * Atlas;
  doPrepareProjectList : Atlas -> (error + ProjectList) * Atlas
}.

Variable atlasClient : FederatedAuthenticationApi.

(** [mdbv1.AtlasCustomResource]: an [*AtlasFederatedAuth], of which the
    checker reads the spec, or a resource of another type. *)
Inductive AtlasCustomResource :=
| AtlasFederatedAuth (fedauthSpec : FederatedAuthSpec)
| OtherResource.

(** The checker returned by [managedByAtlas(ctx, atlasClient, orgID)],
    applied to [resource] on the remote [a]: its two results, the remote
    after, and the lookups made. *)
Definition managedByAtlas (orgID : string) (resource : AtlasCustomResource) (a : Atlas)
  : (bool * option error) * Atlas * list Lookup :=
  match resource with
  | OtherResource =>
      ((false, Some "failed to match resource type as AtlasFederatedAuth"), a, [])
  | AtlasFederatedAuth fedauthSpec =>
      let (atlasFedSettings, a1) := doGetFederationSettings atlasClient orgID a in
      let made := [GetFederationSettings orgID] in
      match atlasFedSettings with
      | inl err => ((false, Some err), a1, made)
      | inr atlasFedSettings =>
          let (atlasFedAuth, a2) :=
            doGetConnectedOrgConfig atlasClient (GetId atlasFedSettings) orgID a1 in
          let made := made ++ [GetConnectedOrgConfig (GetId atlasFedSettings) orgID] in
          match atlasFedAuth with
          | inl err => ((false, Some err), a2, made)
          | inr atlasFedAuth =>
              let (projectlist, a3) := doPrepareProjectList atlasClient a2 in
              let made := made ++ [PrepareProjectList] in
              match projectlist with
              | inl err => ((false, Some err), a3, made)
              | inr projectlist =>
                  match ToAtlas fedauthSpec orgID (GetIdentityProviderId atlasFedAuth)
                          projectlist with
                  | inl err => ((false, Some err), a3, made)
                  | inr convertedAuth =>
                      ((negb (federatedSettingsAreEqual convertedAuth atlasFedAuth), None),
                       a3, made)
                  end
              end
          end
      end
  end.

End ManagedByAtlas.

End atlasfederatedauth.

(** ** Vocabulary for the statements about the passes *)
Module observed.
Import workflow.

(** The remote call that the loop of [syncCloudProviderIntegration] makes
    for a status, read off the [switch]: it is decided by the phase the
    status enters the loop with. *)
Definition callsFor (projectID : string) (cpiStatus : status.CloudProviderIntegration)
  : list RemoteCall :=
  match status.Status cpiStatus with
  | status.CloudProviderIntegrationStatusNew
  | status.CloudProviderIntegrationStatusFailedToCreate =>
      [CreateRole projectID (status.ProviderName cpiStatus)]
  | status.CloudProviderIntegrationStatusCreated
  | status.CloudProviderIntegrationStatusFailedToAuthorize =>
      if nonEmpty (status.IamAssumedRoleArn cpiStatus)
      then [AuthorizeRole projectID (status.RoleID cpiStatus)
              (status.ProviderName cpiStatus) (status.IamAssumedRoleArn cpiStatus)]
      else []
  | status.CloudProviderIntegrationStatusDeAuthorize
  | status.CloudProviderIntegrationStatusFailedToDeAuthorize =>
      [DeauthorizeRole (status.ProviderName cpiStatus) projectID (status.RoleID cpiStatus)]
  | status.CloudProviderIntegrationStatusAuthorized => []
  end.

(** A status carries the identity of a declared item. *)
Definition declares (cpiSpec : mdbv1.CloudProviderIntegration)
    (cpiStatus : status.CloudProviderIntegration) : Prop :=
  status.ProviderName cpiStatus = mdbv1.ProviderName cpiSpec
  /\ status.IamAssumedRoleArn cpiStatus = mdbv1.IamAssumedRoleArn cpiSpec.

(** A role has an ARN and no declared item with an ARN has its key. *)
Definition undeclared (cpiSpecs : list mdbv1.CloudProviderIntegration)
    (cpa : mongodbatlas.CloudProviderAccessRole) : bool :=
  nonEmpty (mongodbatlas.IAMAssumedRoleARN cpa)
  && negb (existsb
             (fun cpiSpec =>
                nonEmpty (mdbv1.IamAssumedRoleArn cpiSpec)
                && String.eqb
                     (atlasproject.cpiKey (mdbv1.ProviderName cpiSpec)
                        (mdbv1.IamAssumedRoleArn cpiSpec))
                     (atlasproject.cpiKey (mongodbatlas.ProviderName cpa)
                        (mongodbatlas.IAMAssumedRoleARN cpa)))
             cpiSpecs).

(** The condition update that goes with a result of
    [ensureCloudProviderIntegration] on [project]: a [Terminate] is published
    as it is, an [InProgress] sets the condition to false, and [OK] removes
    the condition when there was nothing to synchronize and otherwise sets
    it to true, with the deprecation warning when the project declares its
    items under the deprecated field. *)
Definition mirrors (project : mdbv1.AtlasProject) (result : Result) (u : ConditionUpdate)
  : Prop :=
  match result with
  | Terminate _ _ =>
      u = SetConditionFromResult status.CloudProviderIntegrationReadyType result
  | InProgress _ _ => u = SetConditionFalse status.CloudProviderIntegrationReadyType
  | OK =>
      (spec.nothingToSynchronize project
       /\ u = UnsetCondition status.CloudProviderIntegrationReadyType)
      \/ (~ spec.nothingToSynchronize project
          /\ u = SetConditionTrueMsg status.CloudProviderIntegrationReadyType
                 match mdbv1.CloudProviderAccessRoles (mdbv1.Spec project) with
                 | [] => ""
                 | _ => "The CloudProviderAccessRole has been deprecated, please move your configuration under CloudProviderIntegration."
                 end)
  end.

Section Replay.
Context {Atlas E : Type}.

(** The answers of the remote to the operation [op] asked for each element
    of [l] in turn, starting from the remote state [a], and the state after
    the last of them. *)
Fixpoint replay (op : E -> Atlas -> option error * Atlas) (l : list E) (a : Atlas)
  : list (option error) * Atlas :=
  match l with
  | [] => ([], a)
  | e :: rest =>
      let (err, a') := op e a in
      let (errs, a'') := replay op rest a' in
      (err :: errs, a'')
  end.

End Replay.

(** The first of the answers that is an error, with its position. *)
Fixpoint firstFailure (answers : list (option error)) : option (nat * error) :=
  match answers with
  | [] => None
  | Some err :: _ => Some (0, err)
  | None :: rest =>
      match firstFailure rest with
      | Some (i, err) => Some (S i, err)
      | None => None
      end
  end.

End observed.

(** ** Further projects and remotes used in the examples *)
Module scenarios.

(** A remote on which every create call fails. *)
Definition remoteFailingCreate : fake.Atlas :=
  {| fake.roles := [];
     fake.listError := None;
     fake.createError := Some "service unavailable";
     fake.authorizeError := None;
     fake.deauthorizeError := None |}.

(** A remote holding one role that is created and not yet authorized, on
    which every authorize call fails. *)
Definition remoteFailingAuthorize : fake.Atlas :=
  {| fake.roles := [fake.createdRole "r1" "2024-01-01T00:00:00Z"];
     fake.listError := None;
     fake.createError := None;
     fake.authorizeError := Some "service unavailable";
     fake.deauthorizeError := None |}.

(** A remote whose listing of the roles fails. *)
Definition remoteFailingList : fake.Atlas :=
  {| fake.roles := [];
     fake.listError := Some "service unavailable";
     fake.createError := None;
     fake.authorizeError := None;
     fake.deauthorizeError := None |}.

(** The status of a declared item that has its ARN and is new. *)
Definition newItem : status.CloudProviderIntegration :=
  status.NewCloudProviderIntegration "AWS" examples.arn1.

(** The status of a declared item that took the role ["r1"], created and
    not yet authorized. *)
Definition createdItem : status.CloudProviderIntegration :=
  atlasproject.copyCloudProviderAccessData newItem
    (fake.createdRole "r1" "2024-01-01T00:00:00Z").

(** A project that declares nothing and has no status. *)
Definition projectEmpty : mdbv1.AtlasProject := fake.project None [].

(** A project whose last-applied configuration holds [arn1] and [arn2] and
    which now declares [arn3]. *)
Definition projectRedeclared : mdbv1.AtlasProject :=
  fake.project (fake.applied [fake.aws examples.arn1; fake.aws examples.arn2])
    [fake.aws examples.arn3].

(** A project that declares [arn1] under the deprecated
    [CloudProviderAccessRoles] and, beside it, [arn2]. *)
Definition projectDeprecated : mdbv1.AtlasProject :=
  {| mdbv1.ID := "project-1";
     mdbv1.AnnotationLastAppliedConfiguration := None;
     mdbv1.Spec := {| mdbv1.CloudProviderAccessRoles := [fake.aws examples.arn1];
                      mdbv1.CloudProviderIntegrations := [fake.aws examples.arn2] |};
     mdbv1.Status := {| mdbv1.StatusCloudProviderIntegrations := [] |} |}.

(** A run of [Reconcile] on a resource that is marked to be skipped and is
    being deleted, whose finalizer cannot be removed. *)
Definition skippedRun : atlasfederatedauth.Answers :=
  {| atlasfederatedauth.prepareResource := atlasfederatedauth.ok;
     atlasfederatedauth.reconciliationShouldBeSkipped := true;
     atlasfederatedauth.deletionTimestampIsZero := false;
     atlasfederatedauth.manageFinalizer := Some "conflict";
     atlasfederatedauth.validateResourceVersion := atlasfederatedauth.ok;
     atlasfederatedauth.isResourceSupported := true;
     atlasfederatedauth.sdkClient := None;
     atlasfederatedauth.isOwner := (true, None);
     atlasfederatedauth.ensureFederatedAuth := atlasfederatedauth.ok |}.

(** A project that declares nothing any more and still has the status of
    an item persisted. *)
Definition projectUndeclared : mdbv1.AtlasProject :=
  {| mdbv1.ID := "project-1";
     mdbv1.AnnotationLastAppliedConfiguration := None;
     mdbv1.Spec := mdbv1.emptySpec;
     mdbv1.Status := {| mdbv1.StatusCloudProviderIntegrations := [newItem] |} |}.

(** A project that declared the role of [arn9], which was authorized and
    persisted as such, and declares it no more. *)
Definition projectRemoved : mdbv1.AtlasProject :=
  {| mdbv1.ID := "project-1";
     mdbv1.AnnotationLastAppliedConfiguration := None;
     mdbv1.Spec := mdbv1.emptySpec;
     mdbv1.Status :=
       {| mdbv1.StatusCloudProviderIntegrations :=
            [atlasproject.copyCloudProviderAccessData
               (status.NewCloudProviderIntegration "AWS" examples.arn9)
               (fake.awsRole "r9" examples.arn9)] |} |}.



End scenarios.

(** * Properties *)

Import workflow.

Lemma nonEmpty_false (s : string) : nonEmpty s = false <-> s = "".
Proof.
  unfold nonEmpty. rewrite negb_false_iff. apply String.eqb_eq.
Qed.

Lemma nonEmpty_true (s : string) : nonEmpty s = true <-> s <> "".
Proof.
  unfold nonEmpty. rewrite negb_true_iff. apply String.eqb_neq.
Qed.

Lemma length_eqb_0 {A : Type} (l : list A) : Nat.eqb (length l) 0 = true <-> l = [].
Proof.
  destruct l; simpl; split; intros; congruence.
Qed.

(** ** The difference of [internal/set] *)
Section DifferenceFacts.
Context {A B : Type} `{set.Identifiable A} `{set.Identifiable B} `{set.Order A}.

Lemma In_arrange (l : list A) (a : A) : In a (set.arrange l) <-> In a l.
Proof.
  split; apply Permutation_in; [symmetry |]; apply set.arrange_Permutation.
Qed.

Lemma arrange_nil (l : list A) : set.arrange l = [] <-> l = [].
Proof.
  split.
  - intros E. apply Permutation_nil. rewrite <- E. symmetry. apply set.arrange_Permutation.
  - intros ->. apply Permutation_nil. apply set.arrange_Permutation.
Qed.

Lemma matches_true (right : list B) (a : A) :
  set.matches right a = true <->
  set.Identifier a <> "" /\ exists r, In r right /\ set.Identifier r = set.Identifier a.
Proof.
  unfold set.matches. rewrite andb_true_iff, nonEmpty_true, existsb_exists.
  split; intros [Hne [r [Hr Heq]]]; (split; [exact Hne |]); exists r; (split; [exact Hr |]);
    now apply String.eqb_eq.
Qed.

Lemma In_Difference (left : list A) (right : list B) (a : A) :
  In a (set.Difference left right) <->
  In a left
  /\ (set.Identifier a = "" \/ forall r, In r right -> set.Identifier r <> set.Identifier a).
Proof.
  unfold set.Difference. rewrite In_arrange, filter_In, negb_true_iff.
  split; intros [Ha Hn]; (split; [exact Ha |]).
  - destruct (string_dec (set.Identifier a) "") as [He | Hne]; [now left | right].
    intros r Hr Heq.
    assert (E : set.matches right a = true) by (apply matches_true; eauto).
    congruence.
  - apply not_true_iff_false. intros E. apply matches_true in E as [Hne [r [Hr Heq]]].
    destruct Hn as [He | Hn]; [contradiction | exact (Hn r Hr Heq)].
Qed.

Lemma Difference_nil (left : list A) (right : list B) :
  set.Difference left right = [] <->
  forall a, In a left ->
            set.Identifier a <> ""
            /\ exists r, In r right /\ set.Identifier r = set.Identifier a.
Proof.
  split.
  - intros E a Ha. apply matches_true.
    destruct (set.matches right a) eqn:X; [reflexivity |].
    assert (Hin : In a (set.Difference left right)).
    { unfold set.Difference. apply In_arrange, filter_In. split; [assumption |]. now rewrite X. }
    rewrite E in Hin. contradiction.
  - intros Hall. destruct (set.Difference left right) as [| a rest] eqn:E; [reflexivity |].
    assert (Ha : In a (set.Difference left right)) by (rewrite E; now left).
    apply In_Difference in Ha as [Ha Hn].
    destruct (Hall a Ha) as [Hne [r [Hr Heq]]].
    destruct Hn as [He | Hn]; [contradiction | exfalso; exact (Hn r Hr Heq)].
Qed.

Lemma elem_of_identifiers {C : Type} `{set.Identifiable C} (l : list C) (x : string) :
  x ∈ spec.identifiers l <-> exists c, In c l /\ set.Identifier c = x.
Proof.
  unfold spec.identifiers. rewrite elem_of_list_to_set, list_elem_of_fmap.
  split; intros [c [H3 H4]]; exists c.
  - apply list_elem_of_In in H4. auto.
  - split; [auto | now apply list_elem_of_In].
Qed.

(** On items that all have an identifier, the difference is empty exactly
    when the difference of the identifier sets is. *)
Lemma Difference_empty (left : list A) (right : list B) :
  (forall a, In a left -> set.Identifier a <> "") ->
  Nat.eqb (length (set.Difference left right)) 0 = true <->
  spec.identifiers left ∖ spec.identifiers right = ∅.
Proof.
  intros Hids. rewrite length_eqb_0, Difference_nil, elem_of_equiv_empty_L.
  split.
  - intros Hall x Hx. apply elem_of_difference in Hx as [Hl Hr].
    apply elem_of_identifiers in Hl as [a [Ha Hid]].
    destruct (Hall a Ha) as [_ [r [Hr' Heq]]].
    apply Hr. apply elem_of_identifiers. exists r. split; congruence.
  - intros Hempty a Ha. split; [now apply Hids |].
    destruct (decide (set.Identifier a ∈ spec.identifiers right)) as [Hin | Hout].
    + apply elem_of_identifiers in Hin as [r [Hr Heq]]. eauto.
    + exfalso. apply (Hempty (set.Identifier a)). apply elem_of_difference. split; [| assumption].
      apply elem_of_identifiers. eauto.
Qed.

Lemma identifiers_empty {C : Type} `{set.Identifiable C} (l : list C) :
  Nat.eqb (length l) 0 = true <-> spec.identifiers l = ∅.
Proof.
  rewrite length_eqb_0, elem_of_equiv_empty_L. split.
  - intros ->. intros x Hx. apply elem_of_identifiers in Hx as [c [[] _]].
  - intros Hempty. destruct l as [| c rest]; [reflexivity |].
    exfalso. apply (Hempty (set.Identifier c)). apply elem_of_identifiers.
    exists c. split; [now left | reflexivity].
Qed.

End DifferenceFacts.

(** The identifier of an integration is never empty: it holds the dot. *)
Lemma Identifier_nonEmpty (cpa : atlasproject.CloudProviderIntegrationIdentifiable) :
  set.Identifier cpa <> "".
Proof.
  unfold set.Identifier, atlasproject.CloudProviderIntegrationIdentifiable_Identifiable.
  destruct (mdbv1.ProviderName cpa); discriminate.
Qed.

(** The sets of the specification's wording are the identifier sets of the
    lists that the resolver builds. *)
Lemma identifiers_atlasListOf (roles : list mongodbatlas.CloudProviderAccessRole) :
  spec.identifiers (atlasproject.atlasListOf roles) = spec.authorizedRoleIdentifiers roles.
Proof.
  unfold spec.identifiers, spec.authorizedRoleIdentifiers, atlasproject.atlasListOf.
  induction roles as [| r rest IH]; [reflexivity |].
  simpl. unfold nonEmpty at 1.
  destruct (negb (String.eqb (mongodbatlas.IAMAssumedRoleARN r) "")); simpl;
    [f_equal; first [exact IH | reflexivity] | exact IH].
Qed.

Lemma getCloudProviderIntegrations_desired (projectSpec : mdbv1.AtlasProjectSpec) :
  atlasproject.getCloudProviderIntegrations projectSpec = spec.desired projectSpec.
Proof.
  unfold atlasproject.getCloudProviderIntegrations, spec.desired.
  now destruct (mdbv1.CloudProviderAccessRoles projectSpec).
Qed.

Lemma identifiers_desired (projectSpec : mdbv1.AtlasProjectSpec) :
  spec.identifiers (atlasproject.getCloudProviderIntegrations projectSpec)
  = spec.desiredIdentifiers projectSpec.
Proof.
  rewrite getCloudProviderIntegrations_desired.
  unfold spec.identifiers, spec.desiredIdentifiers.
  induction (spec.desired projectSpec) as [| d rest IH]; [reflexivity |].
  simpl. f_equal; first [exact IH | reflexivity].
Qed.

Lemma lastApplied_unmarshal (akoProject : mdbv1.AtlasProject)
    (latestConfig : mdbv1.AtlasProjectSpec) :
  spec.lastApplied akoProject latestConfig <->
  atlasproject.unmarshalLastApplied akoProject = inr latestConfig.
Proof.
  unfold spec.lastApplied, atlasproject.unmarshalLastApplied.
  destruct (mdbv1.AnnotationLastAppliedConfiguration akoProject) as [[err | c] |]; split.
  - intros [[H _] | H]; discriminate.
  - discriminate.
  - intros [[H _] | H]; [discriminate | now injection H as ->].
  - intros [= ->]. now right.
  - intros [[_ ->] | H]; [reflexivity | discriminate].
  - intros [= <-]. now left.
Qed.

(** ** The ownership resolver *)
Section Resolver.
Context {Atlas : Type}.
Context {order : set.Order atlasproject.CloudProviderIntegrationIdentifiable}.
Variable Client : atlasproject.CloudProviderAccessService (Atlas := Atlas).

Lemma canReconcile_unprotected (akoProject : mdbv1.AtlasProject) (ctx : Context Atlas) :
  atlasproject.canCloudProviderIntegrationReconcile Client false akoProject ctx
  = ((true, None), ctx).
Proof. reflexivity. Qed.

(** What the resolver answers for a protected resource once the snapshot
    is decoded and the roles are listed. *)
Lemma canReconcile_listed (akoProject : mdbv1.AtlasProject) (ctx : Context Atlas)
    (latestConfig : mdbv1.AtlasProjectSpec) (list_ : mongodbatlas.CloudProviderAccessRoles) :
  atlasproject.unmarshalLastApplied akoProject = inr latestConfig ->
  fst (atlasproject.doListRoles Client (mdbv1.ID akoProject) (atlas ctx)) = inr list_ ->
  fst (atlasproject.canCloudProviderIntegrationReconcile Client true akoProject ctx)
  = (let atlasList := atlasproject.atlasListOf (mongodbatlas.AWSIAMRoles list_) in
     if Nat.eqb (length atlasList) 0 then true
     else if Nat.eqb
               (length (set.Difference atlasList
                          (atlasproject.getCloudProviderIntegrations latestConfig))) 0
          then true
          else Nat.eqb
                 (length (set.Difference
                            (atlasproject.getCloudProviderIntegrations (mdbv1.Spec akoProject))
                            atlasList)) 0,
     None).
Proof.
  intros Hdec Hlist.
  unfold atlasproject.canCloudProviderIntegrationReconcile. simpl.
  rewrite Hdec. unfold bind, call.
  destruct (atlasproject.doListRoles Client (mdbv1.ID akoProject) (atlas ctx)) as [res a'].
  simpl in Hlist. subst res. simpl.
  unfold atlasproject.CloudProviderIntegrationIdentifiable.
  repeat match goal with
         | |- context [if Nat.eqb ?n 0 then _ else _] => destruct (Nat.eqb n 0)
         end; reflexivity.
Qed.

(** C1 (amended). When the last-applied snapshot is absent or decodes and
    the roles are listed without error, the resolver answers without error
    and permits exactly per the four steps of the specification, in which
    the remote set is the set of the identifiers [provider.arn] of the
    listed roles that have a non-empty assumed-role ARN, and the last-applied
    and current desired sets are the identifier sets of the items declared
    there; with deletion protection disabled it permits at once, without
    asking the remote. *)
Theorem resolver_follows_four_steps (protected : bool) (akoProject : mdbv1.AtlasProject)
    (ctx : Context Atlas) (latestConfig : mdbv1.AtlasProjectSpec)
    (list_ : mongodbatlas.CloudProviderAccessRoles) :
  spec.lastApplied akoProject latestConfig ->
  fst (atlasproject.doListRoles Client (mdbv1.ID akoProject) (atlas ctx)) = inr list_ ->
  let run :=
    atlasproject.canCloudProviderIntegrationReconcile Client protected akoProject ctx in
  (exists permitted : bool,
     fst run = (permitted, None)
     /\ (permitted = true <->
         spec.permitted protected
           (spec.authorizedRoleIdentifiers (mongodbatlas.AWSIAMRoles list_))
           (spec.desiredIdentifiers latestConfig)
           (spec.desiredIdentifiers (mdbv1.Spec akoProject))))
  /\ (protected = false -> snd run = ctx).
Proof.
  intros Hdec Hlist. apply lastApplied_unmarshal in Hdec. cbv zeta.
  split; [| intros ->; reflexivity].
  rewrite <- identifiers_atlasListOf, <- !identifiers_desired.
  assert (Hids : forall a : atlasproject.CloudProviderIntegrationIdentifiable,
             In a (atlasproject.atlasListOf (mongodbatlas.AWSIAMRoles list_)) ->
             set.Identifier a <> "") by (intros; apply Identifier_nonEmpty).
  assert (Hids' : forall a : atlasproject.CloudProviderIntegrationIdentifiable,
             In a (atlasproject.getCloudProviderIntegrations (mdbv1.Spec akoProject)) ->
             set.Identifier a <> "") by (intros; apply Identifier_nonEmpty).
  destruct protected.
  - rewrite (canReconcile_listed _ _ _ _ Hdec Hlist). cbv zeta.
    eexists. split; [reflexivity |].
    unfold spec.permitted.
    destruct (Nat.eqb (length (atlasproject.atlasListOf (mongodbatlas.AWSIAMRoles list_))) 0) eqn:E1.
    { split; [| reflexivity]. intros _. right. left. now apply identifiers_empty. }
    destruct (Nat.eqb (length (set.Difference
                 (atlasproject.atlasListOf (mongodbatlas.AWSIAMRoles list_))
                 (atlasproject.getCloudProviderIntegrations latestConfig))) 0) eqn:E2.
    { split; [| reflexivity]. intros _. right. right. left.
      now apply (Difference_empty _ _ Hids). }
    rewrite (Difference_empty _ _ Hids'). split.
    + intros Hd. right. right. right. exact Hd.
    + intros [Hp | [He | [Hd | Hd]]].
      * discriminate.
      * apply identifiers_empty in He. congruence.
      * apply (Difference_empty _ _ Hids) in Hd. congruence.
      * exact Hd.
  - exists true. split; [reflexivity |]. split; [| reflexivity].
    intros _. now left.
Qed.

(** C7 (amended). When the last-applied snapshot is absent or decodes and
    the listing succeeds with no role, the resolver permits, whatever the
    desired and the last-applied configurations hold. *)
Theorem resolver_permits_empty_remote (protected : bool) (akoProject : mdbv1.AtlasProject)
    (ctx : Context Atlas) (latestConfig : mdbv1.AtlasProjectSpec) :
  atlasproject.unmarshalLastApplied akoProject = inr latestConfig ->
  fst (atlasproject.doListRoles Client (mdbv1.ID akoProject) (atlas ctx))
  = inr {| mongodbatlas.AWSIAMRoles := [] |} ->
  fst (atlasproject.canCloudProviderIntegrationReconcile Client protected akoProject ctx)
  = (true, None).
Proof.
  intros Hdec Hlist. destruct protected; [| reflexivity].
  rewrite (canReconcile_listed _ _ _ _ Hdec Hlist). reflexivity.
Qed.

Lemma canReconcile_malformed (akoProject : mdbv1.AtlasProject) (ctx : Context Atlas)
    (err : error) :
  atlasproject.unmarshalLastApplied akoProject = inl err ->
  atlasproject.canCloudProviderIntegrationReconcile Client true akoProject ctx
  = ((false, Some err), ctx).
Proof.
  intros Hdec. unfold atlasproject.canCloudProviderIntegrationReconcile. simpl.
  now rewrite Hdec.
Qed.

Lemma atlasListOf_unauthorized (roles : list mongodbatlas.CloudProviderAccessRole) :
  Forall (fun r => mongodbatlas.IAMAssumedRoleARN r = "") roles ->
  atlasproject.atlasListOf roles = [].
Proof.
  unfold atlasproject.atlasListOf. induction 1 as [| r rest Hr _ IH]; [reflexivity |].
  simpl. apply nonEmpty_false in Hr. rewrite Hr. exact IH.
Qed.

(** C9. The resolver looks at the listed roles only through those with a
    non-empty assumed-role ARN: two listings with the same such roles get
    the same answer; and when every listed role has an empty ARN (and the
    last-applied snapshot is absent or decodes), the resolver permits,
    whatever the last-applied and the current desired configurations hold. *)
Theorem resolver_ignores_unauthorized_roles (protected : bool)
    (akoProject : mdbv1.AtlasProject) (ctx : Context Atlas)
    (list_ : mongodbatlas.CloudProviderAccessRoles) :
  fst (atlasproject.doListRoles Client (mdbv1.ID akoProject) (atlas ctx)) = inr list_ ->
  (forall (ctx' : Context Atlas) (list_' : mongodbatlas.CloudProviderAccessRoles),
      fst (atlasproject.doListRoles Client (mdbv1.ID akoProject) (atlas ctx')) = inr list_' ->
      List.filter (fun r => nonEmpty (mongodbatlas.IAMAssumedRoleARN r))
        (mongodbatlas.AWSIAMRoles list_')
      = List.filter (fun r => nonEmpty (mongodbatlas.IAMAssumedRoleARN r))
          (mongodbatlas.AWSIAMRoles list_) ->
      fst (atlasproject.canCloudProviderIntegrationReconcile Client protected akoProject ctx')
      = fst (atlasproject.canCloudProviderIntegrationReconcile Client protected akoProject ctx))
  /\ (forall latestConfig : mdbv1.AtlasProjectSpec,
         atlasproject.unmarshalLastApplied akoProject = inr latestConfig ->
         Forall (fun r => mongodbatlas.IAMAssumedRoleARN r = "")
           (mongodbatlas.AWSIAMRoles list_) ->
         fst (atlasproject.canCloudProviderIntegrationReconcile Client protected akoProject ctx)
         = (true, None)).
Proof.
  intros Hlist. split.
  - intros ctx' list_' Hlist' Hsame. destruct protected; [| reflexivity].
    destruct (atlasproject.unmarshalLastApplied akoProject) as [err | latestConfig] eqn:Hdec.
    + now rewrite !(canReconcile_malformed _ _ _ Hdec).
    + rewrite (canReconcile_listed _ _ _ _ Hdec Hlist),
        (canReconcile_listed _ _ _ _ Hdec Hlist').
      unfold atlasproject.atlasListOf. now rewrite Hsame.
  - intros latestConfig Hdec Hall. destruct protected; [| reflexivity].
    rewrite (canReconcile_listed _ _ _ _ Hdec Hlist).
    now rewrite (atlasListOf_unauthorized _ Hall).
Qed.

End Resolver.

(** *** Examples for the resolver *)

Lemma resolver_follows_four_steps_witness :
  (exists permitted : bool,
     fst (atlasproject.canCloudProviderIntegrationReconcile fake.Client true
            (examples.projectB [fake.aws examples.arn1]) (workflow.start examples.remoteB))
     = (permitted, None)
     /\ (permitted = true <->
         spec.permitted true
           (spec.authorizedRoleIdentifiers (fake.roles examples.remoteB))
           (spec.desiredIdentifiers
              {| mdbv1.CloudProviderAccessRoles := [];
                 mdbv1.CloudProviderIntegrations := [fake.aws examples.arn1] |})
           (spec.desiredIdentifiers (mdbv1.Spec (examples.projectB [fake.aws examples.arn1])))))
  /\ (true = false ->
      snd (atlasproject.canCloudProviderIntegrationReconcile fake.Client true
             (examples.projectB [fake.aws examples.arn1]) (workflow.start examples.remoteB))
      = workflow.start examples.remoteB).
Proof.
  apply (resolver_follows_four_steps fake.Client true
           (examples.projectB [fake.aws examples.arn1]) (workflow.start examples.remoteB)
           {| mdbv1.CloudProviderAccessRoles := [];
              mdbv1.CloudProviderIntegrations := [fake.aws examples.arn1] |}
           {| mongodbatlas.AWSIAMRoles := fake.roles examples.remoteB |}).
  - right. reflexivity.
  - reflexivity.
Defined.

(** C1 (as stated). With "the remote role list" read as the roles the
    remote API lists, the four steps deny a project that declares [arn1]
    while the remote holds one role that is not yet authorized; the resolver
    permits it. *)
Lemma resolver_four_steps_on_listed_roles_counterexample :
  fst (atlasproject.canCloudProviderIntegrationReconcile fake.Client true
         examples.projectFresh (workflow.start examples.remoteUnauthorized))
  = (true, None)
  /\ ~ spec.permitted true
         (spec.roleIdentifiers (fake.roles examples.remoteUnauthorized))
         (spec.identifiers (atlasproject.getCloudProviderIntegrations mdbv1.emptySpec))
         (spec.identifiers
            (atlasproject.getCloudProviderIntegrations (mdbv1.Spec examples.projectFresh))).
Proof.
  split; [reflexivity |].
  unfold spec.permitted. intros [H | [H | [H | H]]].
  - discriminate.
  - apply elem_of_equiv_empty_L with (x := "AWS.") in H. apply H.
    unfold spec.roleIdentifiers. apply elem_of_list_to_set. simpl. left.
  - apply elem_of_equiv_empty_L with (x := "AWS.") in H. apply H.
    apply elem_of_difference. split.
    + unfold spec.roleIdentifiers. apply elem_of_list_to_set. simpl. left.
    + unfold spec.identifiers. rewrite elem_of_list_to_set. simpl. inversion 1.
  - apply elem_of_equiv_empty_L with (x := "AWS.arn:aws:iam::1") in H. apply H.
    apply elem_of_difference. split.
    + unfold spec.identifiers. apply elem_of_list_to_set. simpl. left.
    + unfold spec.roleIdentifiers. rewrite elem_of_list_to_set. simpl.
      intros Hin. apply list_elem_of_In in Hin. simpl in Hin.
      destruct Hin as [Heq | []]. discriminate.
Qed.

Lemma resolver_permits_empty_remote_witness :
  fst (atlasproject.canCloudProviderIntegrationReconcile fake.Client true
         (examples.projectB [fake.aws examples.arn3]) (workflow.start examples.remoteEmpty))
  = (true, None).
Proof.
  apply (resolver_permits_empty_remote fake.Client true
           (examples.projectB [fake.aws examples.arn3]) (workflow.start examples.remoteEmpty)
           {| mdbv1.CloudProviderAccessRoles := [];
              mdbv1.CloudProviderIntegrations := [fake.aws examples.arn1] |});
    reflexivity.
Defined.

Lemma resolver_ignores_unauthorized_roles_witness :
  fst (atlasproject.canCloudProviderIntegrationReconcile fake.Client true
         examples.projectFresh (workflow.start examples.remoteUnauthorized))
  = (true, None).
Proof.
  apply (proj2 (resolver_ignores_unauthorized_roles fake.Client true
                  examples.projectFresh (workflow.start examples.remoteUnauthorized)
                  {| mongodbatlas.AWSIAMRoles := fake.roles examples.remoteUnauthorized |}
                  eq_refl)
           mdbv1.emptySpec eq_refl).
  repeat constructor.
Defined.

(** C7 (as stated). With a last-applied annotation that does not decode and
    a remote that holds no role, the resolver does not permit: it returns
    the decoding error, before the remote is asked. *)
Lemma resolver_malformed_snapshot_counterexample :
  fake.roles (atlas (workflow.start examples.remoteEmpty)) = []
  /\ atlasproject.canCloudProviderIntegrationReconcile fake.Client true
       examples.projectMalformed (workflow.start examples.remoteEmpty)
     = ((false, Some "unexpected end of JSON input"), workflow.start examples.remoteEmpty)
  /\ fst (atlasproject.canCloudProviderIntegrationReconcile fake.Client true
            examples.projectMalformed (workflow.start examples.remoteEmpty))
     <> (true, None).
Proof. repeat split. discriminate. Qed.

(** ** The pass over the cloud provider integrations *)

Lemma mutations_app (l l' : list RemoteCall) :
  mutations (l ++ l') = mutations l ++ mutations l'.
Proof. unfold mutations. apply List.filter_app. Qed.

Lemma mutations_ListRoles (l : list RemoteCall) (projectID : string) :
  mutations (l ++ [ListRoles projectID]) = mutations l.
Proof. rewrite mutations_app. simpl. apply app_nil_r. Qed.

Ltac run :=
  unfold bind, ret, call, setCondition, EnsureStatusOption in *; simpl in *.

Section Pass.
Context {Atlas : Type}.
Context {order : set.Order atlasproject.CloudProviderIntegrationIdentifiable}.
Variable Client : atlasproject.CloudProviderAccessService (Atlas := Atlas).

(** The resolver asks the remote at most for the list of roles, and a
    denial always comes after that list. *)
Lemma canReconcile_effects (protected : bool) (akoProject : mdbv1.AtlasProject)
    (ctx ctx1 : Context Atlas) (r : bool * option error) :
  atlasproject.canCloudProviderIntegrationReconcile Client protected akoProject ctx = (r, ctx1) ->
  conditions ctx1 = conditions ctx
  /\ cloudIntegrationsOption ctx1 = cloudIntegrationsOption ctx
  /\ (calls ctx1 = calls ctx ++ [ListRoles (mdbv1.ID akoProject)]
      \/ (ctx1 = ctx /\ r <> (false, None))).
Proof.
  unfold atlasproject.canCloudProviderIntegrationReconcile.
  destruct protected; simpl.
  - destruct (atlasproject.unmarshalLastApplied akoProject) as [err | latestConfig].
    + intros [= <- <-]. repeat split. right. split; [reflexivity | discriminate].
    + run.
      destruct (atlasproject.doListRoles Client (mdbv1.ID akoProject) (atlas ctx))
        as [[err | list_] a'].
      * intros [= <- <-]. simpl. auto.
      * repeat match goal with
               | |- context [if Nat.eqb ?n 0 then _ else _] => destruct (Nat.eqb n 0)
               end; intros [= <- <-]; simpl; auto.
  - intros [= <- <-]. repeat split. right. split; [reflexivity | discriminate].
Qed.

(** C4. When the resolver denies, the pass ends with a [Terminate] whose
    reason is deletion protection; the only remote call of the pass is the
    resolver's listing of the roles, so it makes no create, authorize or
    deauthorize call, and it registers no status to persist. *)
Theorem denied_pass_mutates_nothing (protected : bool) (project : mdbv1.AtlasProject)
    (ctx ctx1 : Context Atlas) :
  atlasproject.canCloudProviderIntegrationReconcile Client protected project ctx
  = ((false, None), ctx1) ->
  exists ctx' : Context Atlas,
    atlasproject.ensureCloudProviderIntegration Client project protected ctx
    = (Terminate AtlasDeletionProtection atlasproject.deletionProtectionMessage, ctx')
    /\ calls ctx' = calls ctx ++ [ListRoles (mdbv1.ID project)]
    /\ mutations (calls ctx') = mutations (calls ctx)
    /\ cloudIntegrationsOption ctx' = cloudIntegrationsOption ctx.
Proof.
  intros Hcan.
  destruct (canReconcile_effects _ _ _ _ _ Hcan) as [Hcond [Hopt Hcalls]].
  destruct Hcalls as [Hcalls | [_ Hne]]; [| congruence].
  unfold atlasproject.ensureCloudProviderIntegration, bind. rewrite Hcan. simpl.
  eexists. split; [reflexivity |]. simpl.
  rewrite Hcalls, Hopt, mutations_ListRoles. auto.
Qed.

(** *** The per-item loop *)

(** A branch appends the status exactly when it leaves it outside the
    removal phases. *)
Lemma syncItem_appended (projectID : string) (cpiStatus cpiStatus' : status.CloudProviderIntegration)
    (appended : bool) (ctx ctx' : Context Atlas) :
  atlasproject.syncItem Client projectID cpiStatus ctx = ((cpiStatus', appended), ctx') ->
  appended = negb (spec.pendingRemoval cpiStatus').
Proof.
  unfold atlasproject.syncItem, atlasproject.createCloudProviderAccess,
    atlasproject.authorizeCloudProviderAccess, atlasproject.deleteCloudProviderAccess,
    spec.pendingRemoval.
  destruct (status.Status cpiStatus) eqn:Hst; run.
  - destruct (atlasproject.doCreateRole _ _ _ _) as [[err | cpa] a']; intros [= <- <- <-]; simpl;
      [| destruct (nonEmpty _)]; reflexivity.
  - destruct (nonEmpty (status.IamAssumedRoleArn cpiStatus)); run.
    + destruct (atlasproject.doAuthorizeRole _ _ _ _ _ _) as [[err | cpa] a'];
        intros [= <- <- <-]; simpl; [| destruct (nonEmpty _)]; reflexivity.
    + intros [= <- <- <-]. now rewrite Hst.
  - intros [= <- <- <-]. now rewrite Hst.
  - destruct (atlasproject.doCreateRole _ _ _ _) as [[err | cpa] a']; intros [= <- <- <-]; simpl;
      [| destruct (nonEmpty _)]; reflexivity.
  - destruct (nonEmpty (status.IamAssumedRoleArn cpiStatus)); run.
    + destruct (atlasproject.doAuthorizeRole _ _ _ _ _ _) as [[err | cpa] a'];
        intros [= <- <- <-]; simpl; [| destruct (nonEmpty _)]; reflexivity.
    + intros [= <- <- <-]. now rewrite Hst.
  - destruct (atlasproject.doDeauthorizeRole _ _ _ _ _) as [[err |] a'];
      intros [= <- <- <-]; simpl; [| rewrite Hst]; reflexivity.
  - destruct (atlasproject.doDeauthorizeRole _ _ _ _ _) as [[err |] a'];
      intros [= <- <- <-]; simpl; [| rewrite Hst]; reflexivity.
Qed.

(** One turn of the loop. *)
Lemma syncLoop_cons (projectID : string) (cpiStatus : status.CloudProviderIntegration)
    (rest toUpdate : list status.CloudProviderIntegration) (withError : bool)
    (ctx : Context Atlas) :
  atlasproject.syncLoop Client projectID (cpiStatus :: rest) toUpdate withError ctx
  = (let '((cpiStatus', appended), ctx1) := atlasproject.syncItem Client projectID cpiStatus ctx in
     let '((rest', toUpdate', withError'), ctx2) :=
       atlasproject.syncLoop Client projectID rest
         (if appended then toUpdate ++ [cpiStatus'] else toUpdate)
         (if nonEmpty (status.ErrorMessage cpiStatus') then true else withError) ctx1 in
     ((cpiStatus' :: rest', toUpdate', withError'), ctx2)).
Proof.
  simpl. unfold bind.
  destruct (atlasproject.syncItem Client projectID cpiStatus ctx) as [[cpiStatus' appended] ctx1].
  destruct (atlasproject.syncLoop _ _ _ _ _ _) as [[[rest' toUpdate'] withError'] ctx2].
  reflexivity.
Qed.

(** What the loop hands back: the statuses appended are those it leaves
    outside the removal phases, and [withError] records whether a status
    carries an error message. *)
Lemma syncLoop_outcome (projectID : string) (cpiStatuses : list status.CloudProviderIntegration) :
  forall (toUpdate : list status.CloudProviderIntegration) (withError : bool)
         (ctx ctx' : Context Atlas)
         (items toUpdate' : list status.CloudProviderIntegration) (withError' : bool),
    atlasproject.syncLoop Client projectID cpiStatuses toUpdate withError ctx
    = ((items, toUpdate', withError'), ctx') ->
    toUpdate' = toUpdate ++ List.filter (fun s => negb (spec.pendingRemoval s)) items
    /\ withError' = withError || existsb spec.hasError items
    /\ length items = length cpiStatuses.
Proof.
  induction cpiStatuses as [| cpiStatus rest IH]; intros toUpdate withError ctx ctx' items
    toUpdate' withError'.
  - simpl. intros [= <- <- <- <-]. simpl. now rewrite app_nil_r, orb_false_r.
  - rewrite syncLoop_cons.
    destruct (atlasproject.syncItem Client projectID cpiStatus ctx)
      as [[cpiStatus' appended] ctx1] eqn:Hitem.
    destruct (atlasproject.syncLoop _ _ _ _ _ _)
      as [[[rest' toUpdate1] withError1] ctx2] eqn:Hrest.
    intros [= <- <- <- <-].
    apply IH in Hrest as [Hu [He Hl]].
    apply syncItem_appended in Hitem. subst appended.
    simpl. unfold spec.hasError at 1.
    split; [| split].
    + rewrite Hu. destruct (spec.pendingRemoval cpiStatus'); simpl;
        [reflexivity | now rewrite <- app_assoc].
    + rewrite He. destruct (nonEmpty (status.ErrorMessage cpiStatus')); simpl;
        [now rewrite orb_true_r | reflexivity].
    + now rewrite Hl.
Qed.

(** The removal branch of the loop, when the deauthorize call fails: the
    item's phase is set to [FailedToDeAuthorize] and the error message is
    stored in it, and a non-empty message sets [withError]; the branch does
    not append the item to the statuses to persist, and whatever the loop
    appends is outside the removal phases. *)
Lemma failed_deauthorize_in_the_loop (projectID : string)
    (cpiStatus : status.CloudProviderIntegration)
    (rest toUpdate : list status.CloudProviderIntegration) (withError : bool)
    (ctx : Context Atlas) (err : error) :
  spec.pendingRemoval cpiStatus = true ->
  fst (atlasproject.doDeauthorizeRole Client (status.ProviderName cpiStatus) projectID
         (status.RoleID cpiStatus) (atlas ctx)) = Some err ->
  let failed :=
    atlasproject.withFailure cpiStatus
      status.CloudProviderIntegrationStatusFailedToDeAuthorize err in
  fst (atlasproject.syncItem Client projectID cpiStatus ctx) = (failed, false)
  /\ forall (items toUpdate' : list status.CloudProviderIntegration) (withError' : bool)
            (ctx' : Context Atlas),
       atlasproject.syncLoop Client projectID (cpiStatus :: rest) toUpdate withError ctx
       = ((items, toUpdate', withError'), ctx') ->
       hd_error items = Some failed
       /\ (err <> "" -> withError' = true)
       /\ (forall s, In s toUpdate' -> In s toUpdate \/ spec.pendingRemoval s = false).
Proof.
  intros Hphase Hcall failed.
  assert (Hitem : fst (atlasproject.syncItem Client projectID cpiStatus ctx) = (failed, false)).
  { unfold atlasproject.syncItem, atlasproject.deleteCloudProviderAccess.
    unfold spec.pendingRemoval in Hphase.
    destruct (status.Status cpiStatus); try discriminate; run;
      destruct (atlasproject.doDeauthorizeRole _ _ _ _ _) as [e a']; simpl in Hcall;
      subst e; reflexivity. }
  split; [exact Hitem |].
  intros items toUpdate' withError' ctx' Hloop.
  destruct (syncLoop_outcome _ _ _ _ _ _ _ _ _ Hloop) as [Hu [He _]].
  rewrite syncLoop_cons in Hloop.
  destruct (atlasproject.syncItem Client projectID cpiStatus ctx)
    as [[cpiStatus' appended] ctx1].
  simpl in Hitem. injection Hitem as -> ->.
  destruct (atlasproject.syncLoop _ _ _ _ _ _) as [[[rest' toUpdate1] withError1] ctx2].
  injection Hloop as <- <- <- <-.
  split; [reflexivity |]. split.
  - intros Hne. rewrite He. simpl. unfold spec.hasError at 1. simpl.
    apply nonEmpty_true in Hne. rewrite Hne. now rewrite orb_true_r.
  - intros s Hin. rewrite Hu in Hin. apply in_app_or in Hin as [Hin | Hin]; [now left |].
    right. apply filter_In in Hin as [_ Hin]. now apply negb_true_iff in Hin.
Qed.

(** *** Aggregation *)

(** [syncCloudProviderIntegration] once the roles are listed. *)
Lemma sync_listed (projectID : string) (cpaSpecs : list mdbv1.CloudProviderIntegration)
    (ctx : Context Atlas) (atlasCPAs : mongodbatlas.CloudProviderAccessRoles)
    (items toUpdate : list status.CloudProviderIntegration) (withError : bool)
    (ctx3 : Context Atlas) :
  fst (call (ListRoles projectID) (atlasproject.doListRoles Client projectID) ctx)
  = inr atlasCPAs ->
  atlasproject.syncLoop Client projectID
    (atlasproject.enrichStatuses (atlasproject.initiateStatuses cpaSpecs)
       (atlasproject.sortAtlasCPAsByRoleID (mongodbatlas.AWSIAMRoles atlasCPAs)))
    [] false
    (snd (call (ListRoles projectID) (atlasproject.doListRoles Client projectID) ctx))
  = ((items, toUpdate, withError), ctx3) ->
  atlasproject.syncCloudProviderIntegration Client projectID cpaSpecs ctx
  = ((if withError
      then (false, Some "not all items were synchronized successfully")
      else (atlasproject.allAuthorized toUpdate, None)),
     {| atlas := atlas ctx3;
        calls := calls ctx3;
        conditions := conditions ctx3;
        cloudIntegrationsOption := Some toUpdate |}).
Proof.
  intros Hlist Hloop.
  unfold atlasproject.syncCloudProviderIntegration, bind.
  destruct (call (ListRoles projectID) (atlasproject.doListRoles Client projectID) ctx)
    as [res ctx2].
  simpl in Hlist, Hloop. subst res. rewrite Hloop.
  unfold EnsureStatusOption, ret. now destruct withError.
Qed.

Lemma status_eqb_eq (a b : status.CloudProviderIntegrationStatus) :
  status.status_eqb a b = true <-> a = b.
Proof.
  destruct a, b; simpl; split; intros; congruence.
Qed.

Lemma allAuthorized_true (cpiStatuses : list status.CloudProviderIntegration) :
  atlasproject.allAuthorized cpiStatuses = true <->
  forall s, In s cpiStatuses ->
            status.Status s = status.CloudProviderIntegrationStatusAuthorized.
Proof.
  unfold atlasproject.allAuthorized. rewrite forallb_forall.
  split; intros Hall s Hs; apply status_eqb_eq; now apply Hall.
Qed.

Lemma existsb_hasError (items : list status.CloudProviderIntegration) :
  existsb spec.hasError items = true <->
  exists s, In s items /\ status.ErrorMessage s <> "".
Proof.
  rewrite existsb_exists. unfold spec.hasError.
  split; intros [s [Hs He]]; exists s; (split; [exact Hs |]); now apply nonEmpty_true.
Qed.

(** The guard of the pass is open exactly when there is something to
    synchronize. *)
Lemma nothingToSynchronize_guard (project : mdbv1.AtlasProject) :
  Nat.eqb (length (atlasproject.getCloudProviderIntegrations (mdbv1.Spec project))) 0
  && Nat.eqb (length (mdbv1.StatusCloudProviderIntegrations (mdbv1.Status project))) 0
  = true <->
  spec.nothingToSynchronize project.
Proof.
  unfold spec.nothingToSynchronize.
  now rewrite andb_true_iff, !length_eqb_0, getCloudProviderIntegrations_desired.
Qed.

(** C3. Once the resolver has permitted, there is something to
    synchronize, and the roles are listed, the result of the pass is
    decided by the items as the per-item loop leaves them: [Terminate] with
    the message "not all items were synchronized successfully" if any item
    carries an error message; otherwise [OK] if every retained item (every
    item outside the removal phases) is [Authorized]; otherwise [InProgress]
    with "not all entries are authorized". The retained items are
    registered for persisting in each case. *)
Theorem pass_result_aggregates_items (protected : bool) (project : mdbv1.AtlasProject)
    (ctx ctx1 : Context Atlas) (atlasCPAs : mongodbatlas.CloudProviderAccessRoles) :
  let roleSpecs := atlasproject.getCloudProviderIntegrations (mdbv1.Spec project) in
  let listing := call (ListRoles (mdbv1.ID project))
                   (atlasproject.doListRoles Client (mdbv1.ID project)) ctx1 in
  atlasproject.canCloudProviderIntegrationReconcile Client protected project ctx
  = ((true, None), ctx1) ->
  ~ spec.nothingToSynchronize project ->
  fst listing = inr atlasCPAs ->
  exists (items toUpdate : list status.CloudProviderIntegration) (withError : bool)
         (ctx3 : Context Atlas),
    atlasproject.syncLoop Client (mdbv1.ID project)
      (atlasproject.enrichStatuses (atlasproject.initiateStatuses roleSpecs)
         (atlasproject.sortAtlasCPAsByRoleID (mongodbatlas.AWSIAMRoles atlasCPAs)))
      [] false (snd listing)
    = ((items, toUpdate, withError), ctx3)
    /\ let run := atlasproject.ensureCloudProviderIntegration Client project protected ctx in
       let retained := List.filter (fun s => negb (spec.pendingRemoval s)) items in
       cloudIntegrationsOption (snd run) = Some retained
       /\ ((exists s, In s items /\ status.ErrorMessage s <> "") ->
           fst run
           = Terminate ProjectCloudIntegrationsIsNotReadyInAtlas
               "not all items were synchronized successfully")
       /\ ((forall s, In s items -> status.ErrorMessage s = "") ->
           ((forall s, In s retained ->
                       status.Status s = status.CloudProviderIntegrationStatusAuthorized) ->
            fst run = OK)
           /\ ((exists s, In s retained
                          /\ status.Status s
                             <> status.CloudProviderIntegrationStatusAuthorized) ->
               fst run
               = InProgress ProjectCloudIntegrationsIsNotReadyInAtlas
                   "not all entries are authorized")).
Proof.
  intros roleSpecs listing Hcan Hsome Hlist.
  destruct (atlasproject.syncLoop Client (mdbv1.ID project)
              (atlasproject.enrichStatuses (atlasproject.initiateStatuses roleSpecs)
                 (atlasproject.sortAtlasCPAsByRoleID (mongodbatlas.AWSIAMRoles atlasCPAs)))
              [] false (snd listing))
    as [[[items toUpdate] withError] ctx3] eqn:Hloop.
  exists items, toUpdate, withError, ctx3. split; [reflexivity |].
  destruct (syncLoop_outcome _ _ _ _ _ _ _ _ _ Hloop) as [Hu [He _]]. simpl in Hu, He.
  cbv zeta.
  unfold atlasproject.ensureCloudProviderIntegration, bind. rewrite Hcan. simpl.
  fold roleSpecs.
  assert (Hguard : Nat.eqb (length roleSpecs) 0
                   && Nat.eqb (length (mdbv1.StatusCloudProviderIntegrations
                                         (mdbv1.Status project))) 0 = false).
  { apply not_true_iff_false. intros E. apply Hsome. now apply nothingToSynchronize_guard. }
  rewrite Hguard.
  rewrite (sync_listed _ _ _ _ _ _ _ _ Hlist Hloop).
  subst toUpdate withError.
  split; [| split].
  - destruct (existsb spec.hasError items); simpl; [reflexivity |].
    destruct (atlasproject.allAuthorized _); reflexivity.
  - intros Herr. apply existsb_hasError in Herr. rewrite Herr. reflexivity.
  - intros Hclean.
    assert (Hno : existsb spec.hasError items = false).
    { apply not_true_iff_false. intros E. apply existsb_hasError in E as [s [Hs He]].
      apply He. now apply Hclean. }
    rewrite Hno. simpl. split.
    + intros Hall. apply allAuthorized_true in Hall. now rewrite Hall.
    + intros [s [Hs Hne]].
      assert (Hnot : atlasproject.allAuthorized
                       (List.filter (fun s => negb (spec.pendingRemoval s)) items) = false).
      { apply not_true_iff_false. intros E. apply Hne.
        exact (proj1 (allAuthorized_true _) E s Hs). }
      now rewrite Hnot.
Qed.

End Pass.

(** *** Examples for the pass *)

Lemma denied_pass_mutates_nothing_witness :
  exists ctx' : Context fake.Atlas,
    atlasproject.ensureCloudProviderIntegration fake.Client
      (examples.projectB [fake.aws examples.arn3]) true (workflow.start examples.remoteB)
    = (Terminate AtlasDeletionProtection atlasproject.deletionProtectionMessage, ctx')
    /\ calls ctx' = [] ++ [ListRoles "project-1"]
    /\ mutations (calls ctx') = mutations []
    /\ cloudIntegrationsOption ctx' = None.
Proof.
  eapply (denied_pass_mutates_nothing fake.Client true
            (examples.projectB [fake.aws examples.arn3]) (workflow.start examples.remoteB)).
  vm_compute. reflexivity.
Defined.

(** C2. At the failing input (the project declares nothing any more, the
    remote still holds the authorized role ["r9"], and the deauthorize call
    fails) the removal branch sets the item to [FailedToDeAuthorize] and
    stores the error message, as the create and authorize branches do for
    their failures, but it does not keep the item: the pass, which reports
    the failure, registers no status, and the next pass, finding nothing
    declared and no status, returns [OK] without a call while the remote
    still holds the role. A failing create, in the sibling branch, is kept
    for persisting. *)
Theorem failed_deauthorize_is_dropped :
  let first := atlasproject.reconcile fake.Client false scenarios.projectRemoved
                 examples.remoteFailingDeauthorize in
  let second :=
    atlasproject.reconcile fake.Client false (snd (fst first)) (atlas (snd first)) in
  fst (atlasproject.syncItem fake.Client "project-1" examples.removal9
         (workflow.start examples.remoteFailingDeauthorize))
  = (atlasproject.withFailure examples.removal9
       status.CloudProviderIntegrationStatusFailedToDeAuthorize "service unavailable",
     false)
  /\ calls (snd first) = [ListRoles "project-1"; DeauthorizeRole "AWS" "project-1" "r9"]
  /\ fst (fst first)
     = Terminate ProjectCloudIntegrationsIsNotReadyInAtlas
         "not all items were synchronized successfully"
  /\ cloudIntegrationsOption (snd first) = Some []
  /\ mdbv1.StatusCloudProviderIntegrations (mdbv1.Status (snd (fst first))) = []
  /\ fst (fst second) = OK
  /\ calls (snd second) = []
  /\ fake.roles (atlas (snd second)) = [fake.awsRole "r9" examples.arn9]
  /\ snd (fst (fst (atlasproject.syncLoop fake.Client "project-1" [scenarios.newItem] []
                      false (workflow.start scenarios.remoteFailingCreate))))
     = [atlasproject.withFailure scenarios.newItem
          status.CloudProviderIntegrationStatusFailedToCreate "service unavailable"].
Proof.
  cbv zeta. repeat (split; [vm_compute; reflexivity |]). vm_compute. reflexivity.
Qed.

Lemma pass_result_aggregates_items_witness :
  fst (atlasproject.ensureCloudProviderIntegration fake.Client
         (examples.projectB [fake.aws examples.arn1]) true (workflow.start examples.remoteB))
  = OK
  /\ fst (atlasproject.ensureCloudProviderIntegration fake.Client
            examples.projectFresh true (workflow.start examples.remoteEmpty))
     = InProgress ProjectCloudIntegrationsIsNotReadyInAtlas "not all entries are authorized"
  /\ fst (atlasproject.ensureCloudProviderIntegration fake.Client
            examples.projectFresh true (workflow.start scenarios.remoteFailingCreate))
     = Terminate ProjectCloudIntegrationsIsNotReadyInAtlas
         "not all items were synchronized successfully".
Proof.
  split; [| split].
  - edestruct (pass_result_aggregates_items fake.Client true
                 (examples.projectB [fake.aws examples.arn1]) (workflow.start examples.remoteB))
      as (items & toUpdate & withError & ctx3 & Hloop & _ & _ & Hclean).
    + vm_compute. reflexivity.
    + intros [H _]. vm_compute in H. discriminate.
    + vm_compute. reflexivity.
    + vm_compute in Hloop. injection Hloop as <- <- <- <-.
      apply Hclean.
      * intros s [<- | [<- | []]]; reflexivity.
      * intros s Hs. vm_compute in Hs. destruct Hs as [<- | []]. reflexivity.
  - edestruct (pass_result_aggregates_items fake.Client true
                 examples.projectFresh (workflow.start examples.remoteEmpty))
      as (items & toUpdate & withError & ctx3 & Hloop & _ & _ & Hclean).
    + vm_compute. reflexivity.
    + intros [H _]. vm_compute in H. discriminate.
    + vm_compute. reflexivity.
    + vm_compute in Hloop. injection Hloop as <- <- <- <-.
      apply Hclean.
      * intros s [<- | []]; reflexivity.
      * eexists. split; [vm_compute; left; reflexivity | discriminate].
  - edestruct (pass_result_aggregates_items fake.Client true
                 examples.projectFresh (workflow.start scenarios.remoteFailingCreate))
      as (items & toUpdate & withError & ctx3 & Hloop & _ & Hfailed & _).
    + vm_compute. reflexivity.
    + intros [H _]. vm_compute in H. discriminate.
    + vm_compute. reflexivity.
    + vm_compute in Hloop. injection Hloop as <- <- <- <-.
      apply Hfailed. eexists. split; [left; reflexivity | discriminate].
Defined.

(** ** Matching *)

Lemma ltb_lt (a b : string) : String.ltb a b = true <-> String_as_OT.lt a b.
Proof.
  unfold String.ltb. rewrite <- String_as_OT.cmp_lt. unfold String_as_OT.cmp.
  destruct (String.compare a b); split; intros; congruence.
Qed.

Lemma ltb_asym (a b : string) : String.ltb a b = true -> String.ltb b a = false.
Proof.
  intros Hab. apply not_true_iff_false. intros Hba.
  apply ltb_lt in Hab, Hba.
  apply (String_as_OT.lt_not_eq _ _ (String_as_OT.lt_trans _ _ _ Hab Hba)). reflexivity.
Qed.

Lemma ltb_le_trans (x y z : string) :
  String.ltb x y = true -> String.ltb z y = false -> String.ltb z x = false.
Proof.
  intros Hxy Hzy. apply not_true_iff_false. intros Hzx.
  apply not_true_iff_false in Hzy. apply Hzy.
  apply ltb_lt. apply ltb_lt in Hxy, Hzx. exact (String_as_OT.lt_trans _ _ _ Hzx Hxy).
Qed.

Section Sorting.
Context {A : Type} (less : A -> A -> bool).

Lemma insertByLess_Permutation (x : A) (l : list A) :
  Permutation (x :: l) (atlasproject.insertByLess less x l).
Proof.
  induction l as [| y rest IH]; simpl; [reflexivity |].
  destruct (less x y); [reflexivity |].
  rewrite perm_swap. now apply perm_skip.
Qed.

Lemma sortSlice_Permutation_acc (l acc : list A) :
  Permutation (l ++ acc) (fold_left (fun sorted x => atlasproject.insertByLess less x sorted) l acc).
Proof.
  revert acc. induction l as [| x rest IH]; intros acc; simpl; [reflexivity |].
  rewrite <- IH. rewrite <- insertByLess_Permutation.
  apply Permutation_middle.
Qed.

Lemma sortSlice_Permutation (l : list A) :
  Permutation l (atlasproject.sortSlice less l).
Proof.
  unfold atlasproject.sortSlice. rewrite <- sortSlice_Permutation_acc.
  now rewrite app_nil_r.
Qed.

End Sorting.

Lemma insertByLess_sorted (x : mongodbatlas.CloudProviderAccessRole)
    (l : list mongodbatlas.CloudProviderAccessRole) :
  StronglySorted atlasproject.roleIDLe l ->
  StronglySorted atlasproject.roleIDLe
    (atlasproject.insertByLess
       (fun i j => String.ltb (mongodbatlas.RoleID i) (mongodbatlas.RoleID j)) x l).
Proof.
  induction 1 as [| y rest Hs IH Hy]; simpl.
  - constructor; constructor.
  - destruct (String.ltb (mongodbatlas.RoleID x) (mongodbatlas.RoleID y)) eqn:Hxy.
    + constructor; [now constructor |].
      constructor; [now apply ltb_asym |].
      rewrite Forall_forall in *. intros z Hz.
      exact (ltb_le_trans _ _ _ Hxy (Hy z Hz)).
    + constructor; [exact IH |].
      eapply Permutation_Forall; [apply insertByLess_Permutation |].
      constructor; assumption.
Qed.

Lemma sortAtlasCPAsByRoleID_sorted (atlasCPAs : list mongodbatlas.CloudProviderAccessRole) :
  StronglySorted atlasproject.roleIDLe (atlasproject.sortAtlasCPAsByRoleID atlasCPAs).
Proof.
  unfold atlasproject.sortAtlasCPAsByRoleID, atlasproject.sortSlice.
  assert (G : forall l acc, StronglySorted atlasproject.roleIDLe acc ->
            StronglySorted atlasproject.roleIDLe
              (fold_left
                 (fun sorted x =>
                    atlasproject.insertByLess
                      (fun i j => String.ltb (mongodbatlas.RoleID i) (mongodbatlas.RoleID j))
                      x sorted) l acc)).
  { induction l as [| x rest IH]; intros acc Hacc; simpl; [exact Hacc |].
    apply IH. now apply insertByLess_sorted. }
  apply G. constructor.
Qed.

Lemma filter_StronglySorted {A : Type} (R : A -> A -> Prop) (f : A -> bool) (l : list A) :
  StronglySorted R l -> StronglySorted R (List.filter f l).
Proof.
  induction 1 as [| a rest Hs IH Ha]; simpl; [constructor |].
  destruct (f a); [| exact IH].
  constructor; [exact IH |].
  apply List.Forall_forall. intros x Hx. apply filter_In in Hx as [Hx _].
  rewrite List.Forall_forall in Ha. now apply Ha.
Qed.

(** The third loop, position by position: a status that is configured is
    left as it is; the [k]-th status that is not takes the [k]-th role of
    [noMatch], and is left as it is once [noMatch] is used up. *)
Lemma claimUnauthorized_nth (cpiStatuses : list status.CloudProviderIntegration) :
  forall (noMatch : list mongodbatlas.CloudProviderAccessRole) (i : nat)
         (s : status.CloudProviderIntegration),
    nth_error cpiStatuses i = Some s ->
    nth_error (fst (atlasproject.claimUnauthorized cpiStatuses noMatch)) i
    = Some (if atlasproject.isConfigured s then s
            else match nth_error noMatch
                         (length (List.filter (fun s => negb (atlasproject.isConfigured s))
                                    (firstn i cpiStatuses))) with
                 | Some cpa => atlasproject.copyCloudProviderAccessData s cpa
                 | None => s
                 end).
Proof.
  induction cpiStatuses as [| s0 rest IH]; intros noMatch i s Hi.
  - destruct i; discriminate.
  - simpl. destruct (atlasproject.isConfigured s0) eqn:Hc.
    + destruct (atlasproject.claimUnauthorized rest noMatch) as [rest' noMatch'] eqn:Hrest.
      destruct i as [| j]; simpl in *.
      * injection Hi as <-. now rewrite Hc.
      * rewrite Hc. simpl. specialize (IH noMatch j s Hi). now rewrite Hrest in IH.
    + destruct noMatch as [| cpa noMatch'].
      * simpl. rewrite Hi. f_equal.
        destruct (atlasproject.isConfigured s); [reflexivity |].
        now destruct (length _).
      * destruct (atlasproject.claimUnauthorized rest noMatch') as [rest' noMatch''] eqn:Hrest.
        destruct i as [| j]; simpl in *.
        -- injection Hi as <-. now rewrite Hc.
        -- rewrite Hc. simpl. specialize (IH noMatch' j s Hi). now rewrite Hrest in IH.
Qed.

Lemma claimUnauthorized_length (cpiStatuses : list status.CloudProviderIntegration) :
  forall noMatch : list mongodbatlas.CloudProviderAccessRole,
    length (fst (atlasproject.claimUnauthorized cpiStatuses noMatch)) = length cpiStatuses.
Proof.
  induction cpiStatuses as [| s0 rest IH]; intros noMatch; [reflexivity |].
  simpl. destruct (atlasproject.isConfigured s0).
  - specialize (IH noMatch).
    destruct (atlasproject.claimUnauthorized rest noMatch). simpl in *. now rewrite IH.
  - destruct noMatch as [| cpa noMatch']; [reflexivity |].
    specialize (IH noMatch').
    destruct (atlasproject.claimUnauthorized rest noMatch'). simpl in *. now rewrite IH.
Qed.

(** C6 (amended). In the matching step the roles offered to the statuses
    that are still unmatched after the exact-identifier pass are the remote
    roles with an empty assumed-role ARN in ascending order of role id; the
    [k]-th status that has no ARN or no role id yet, in the order of the
    declared items, takes the [k]-th of these roles, and is left as it is
    when there are fewer roles than that. *)
Theorem unmatched_items_take_roles_by_role_id
    (atlasCPAs : list mongodbatlas.CloudProviderAccessRole)
    (cpiStatuses : list status.CloudProviderIntegration) :
  let AWSRoles := atlasproject.sortAtlasCPAsByRoleID atlasCPAs in
  let matched := List.map (atlasproject.copyMatches AWSRoles) cpiStatuses in
  let noMatch := atlasproject.unauthorizedRoles AWSRoles in
  StronglySorted atlasproject.roleIDLe noMatch
  /\ (forall r, In r noMatch <-> In r atlasCPAs /\ mongodbatlas.IAMAssumedRoleARN r = "")
  /\ forall (i : nat) (s : status.CloudProviderIntegration),
       nth_error matched i = Some s ->
       nth_error (atlasproject.enrichStatuses cpiStatuses AWSRoles) i
       = Some (if atlasproject.isConfigured s then s
               else match nth_error noMatch
                            (length (List.filter (fun s => negb (atlasproject.isConfigured s))
                                       (firstn i matched))) with
                    | Some cpa => atlasproject.copyCloudProviderAccessData s cpa
                    | None => s
                    end).
Proof.
  intros AWSRoles matched noMatch. split; [| split].
  - apply filter_StronglySorted, sortAtlasCPAsByRoleID_sorted.
  - intros r. unfold noMatch, atlasproject.unauthorizedRoles.
    rewrite filter_In, String.eqb_eq.
    assert (Hperm : In r AWSRoles <-> In r atlasCPAs).
    { split; apply Permutation_in;
        [symmetry |]; apply sortSlice_Permutation. }
    now rewrite Hperm.
  - intros i s Hi. unfold atlasproject.enrichStatuses.
    fold matched. fold noMatch.
    pose proof (claimUnauthorized_nth matched noMatch i s Hi) as Hnth.
    pose proof (claimUnauthorized_length matched noMatch) as Hlen.
    destruct (atlasproject.claimUnauthorized matched noMatch) as [claimed left].
    simpl in Hnth, Hlen.
    rewrite nth_error_app1; [exact Hnth |].
    rewrite Hlen. apply nth_error_Some. congruence.
Qed.

(** C6 (as stated). Of two remote roles that are not yet authorized, ["b"]
    was created first and ["a"] has the smaller role id; the one declared
    item that is still unmatched is paired with ["a"], not with the
    earliest-created role. *)
Lemma earliest_created_role_first_counterexample :
  let AWSRoles := atlasproject.sortAtlasCPAsByRoleID [examples.roleB; examples.roleA] in
  let enriched :=
    atlasproject.enrichStatuses (atlasproject.initiateStatuses [examples.awsPending]) AWSRoles in
  String.ltb (mongodbatlas.CreatedDate examples.roleB)
             (mongodbatlas.CreatedDate examples.roleA) = true
  /\ List.map status.RoleID (firstn 1 enriched) = ["a"]
  /\ List.map status.CreatedDate (firstn 1 enriched) = ["2024-02-01T00:00:00Z"]
  /\ List.map status.RoleID (firstn 1 enriched) <> [mongodbatlas.RoleID examples.roleB].
Proof.
  cbv zeta. split; [| split; [| split]].
  - vm_compute. reflexivity.
  - vm_compute. reflexivity.
  - vm_compute. reflexivity.
  - vm_compute. discriminate.
Qed.

(** ** Private endpoints of a data federation *)

Lemma Difference_nil_r {A B : Type} `{set.Identifiable A} `{set.Identifiable B}
    `{set.Order A} (left : list A) :
  Permutation left (set.Difference left ([] : list B)).
Proof.
  unfold set.Difference.
  assert (Hall : List.filter (fun l : A => negb (set.matches ([] : list B) l)) left = left).
  { induction left as [| a rest IH]; [reflexivity |].
    simpl. unfold set.matches at 1. simpl. rewrite andb_false_r. simpl. now rewrite IH. }
  rewrite Hall. apply set.arrange_Permutation.
Qed.

Lemma filter_Permutation {A : Type} (f : A -> bool) (l l' : list A) :
  Permutation l l' -> Permutation (List.filter f l) (List.filter f l').
Proof.
  induction 1 as [| x l l' Hl IH | x y l | l l' l'' H1 IH1 H2 IH2]; simpl.
  - constructor.
  - destruct (f x); [now constructor | exact IH].
  - destruct (f x), (f y); try reflexivity. apply perm_swap.
  - now rewrite IH1.
Qed.

Lemma Difference_Permutation {A B : Type} `{set.Identifiable A} `{set.Identifiable B}
    `{set.Order A} (left left' : list A) (right right' : list B) :
  Permutation left left' -> Permutation right right' ->
  Permutation (set.Difference left right) (set.Difference left' right').
Proof.
  intros Hl Hr. unfold set.Difference.
  assert (Hext : forall l : A, negb (set.matches right l) = negb (set.matches right' l)).
  { intros l. f_equal. apply eq_true_iff_eq. rewrite !matches_true.
    split; intros [Hne [r [Hin Heq]]]; (split; [exact Hne |]); exists r; split; try assumption.
    - now apply (Permutation_in _ Hr).
    - now apply (Permutation_in _ (Permutation_sym Hr)). }
  rewrite (List.filter_ext _ _ Hext).
  rewrite <- !set.arrange_Permutation. now apply filter_Permutation.
Qed.

Lemma firstFailure_None (answers : list (option error)) :
  observed.firstFailure answers = None <-> Forall (fun answer => answer = None) answers.
Proof.
  induction answers as [| [err |] rest IH]; simpl.
  - split; [constructor | reflexivity].
  - split; [discriminate | inversion 1; discriminate].
  - destruct (observed.firstFailure rest) as [[i err] |].
    + split; [discriminate |]. intros Hall. inversion Hall as [| x l Hx Hrest]; subst.
      apply IH in Hrest. discriminate.
    + split; [| reflexivity]. intros _. constructor; [reflexivity | now apply IH].
Qed.

Section PrivateEndpoints.
Context {Atlas : Type}.
Context {order : set.Order mdbv1.DataFederationPE}.
Variable clientDF : atlasdatafederation.DataFederationServiceOp (Atlas := Atlas).

(** The first loop against the answers of the remote: it issues the create
    calls in order up to and including the first that fails, whose error it
    returns, and all of them when none fails. *)
Lemma createEndpoints_replay (projectID : string) (l : list mdbv1.DataFederationPE) :
  forall ctx : Context Atlas,
    let run := atlasdatafederation.createEndpoints clientDF projectID l ctx in
    let answers :=
      observed.replay (atlasdatafederation.doCreateOnePrivateEndpoint clientDF projectID)
        l (atlas ctx) in
    conditions (snd run) = conditions ctx
    /\ match observed.firstFailure (fst answers) with
       | Some (i, err) =>
           fst run = Some err
           /\ calls (snd run)
              = calls ctx ++ List.map (CreateOnePrivateEndpoint projectID) (firstn (S i) l)
       | None =>
           fst run = None
           /\ calls (snd run) = calls ctx ++ List.map (CreateOnePrivateEndpoint projectID) l
           /\ atlas (snd run) = snd answers
       end.
Proof.
  induction l as [| e rest IH]; intros ctx; cbv zeta.
  - simpl. now rewrite app_nil_r.
  - simpl. unfold bind, call.
    destruct (atlasdatafederation.doCreateOnePrivateEndpoint clientDF projectID e (atlas ctx))
      as [[err |] a'] eqn:Hcall.
    + destruct (observed.replay _ rest a') as [errs a'']. simpl. auto.
    + match goal with
      | |- context [atlasdatafederation.createEndpoints clientDF projectID rest ?c] =>
          destruct (IH c) as [Hcond Hrun]
      end.
      cbv zeta in *. simpl in Hcond, Hrun.
      destruct (observed.replay _ rest a') as [errs a'']. simpl in *.
      split; [exact Hcond |].
      destruct (observed.firstFailure errs) as [[i err] |].
      * destruct Hrun as [Hres Hcalls]. rewrite Hcalls, <- app_assoc. auto.
      * destruct Hrun as (Hres & Hcalls & Hatlas). rewrite Hcalls, <- app_assoc. auto.
Qed.

(** The second loop against the answers of the remote. *)
Lemma deleteEndpoints_replay (projectID : string) (l : list mdbv1.DataFederationPE) :
  forall ctx : Context Atlas,
    let run := atlasdatafederation.deleteEndpoints clientDF projectID l ctx in
    let answers :=
      observed.replay
        (fun e => atlasdatafederation.doDeleteOnePrivateEndpoint clientDF projectID
                    (mdbv1.EndpointID e))
        l (atlas ctx) in
    conditions (snd run) = conditions ctx
    /\ match observed.firstFailure (fst answers) with
       | Some (j, err) =>
           fst run = Some err
           /\ calls (snd run)
              = calls ctx
                ++ List.map (fun e => DeleteOnePrivateEndpoint projectID (mdbv1.EndpointID e))
                     (firstn (S j) l)
       | None =>
           fst run = None
           /\ calls (snd run)
              = calls ctx
                ++ List.map (fun e => DeleteOnePrivateEndpoint projectID (mdbv1.EndpointID e)) l
           /\ atlas (snd run) = snd answers
       end.
Proof.
  induction l as [| e rest IH]; intros ctx; cbv zeta.
  - simpl. now rewrite app_nil_r.
  - simpl. unfold bind, call.
    destruct (atlasdatafederation.doDeleteOnePrivateEndpoint clientDF projectID
                (mdbv1.EndpointID e) (atlas ctx)) as [[err |] a'] eqn:Hcall.
    + destruct (observed.replay _ rest a') as [errs a'']. simpl. auto.
    + match goal with
      | |- context [atlasdatafederation.deleteEndpoints clientDF projectID rest ?c] =>
          destruct (IH c) as [Hcond Hrun]
      end.
      cbv zeta in *. simpl in Hcond, Hrun.
      destruct (observed.replay _ rest a') as [errs a'']. simpl in *.
      split; [exact Hcond |].
      destruct (observed.firstFailure errs) as [[j err] |].
      * destruct Hrun as [Hres Hcalls]. rewrite Hcalls, <- app_assoc. auto.
      * destruct Hrun as (Hres & Hcalls & Hatlas). rewrite Hcalls, <- app_assoc. auto.
Qed.

(** When no call of the remote fails, no answer of a replay is an error. *)
Lemma replay_no_failure {E : Type} (op : E -> Atlas -> option error * Atlas)
    (l : list E) :
  (forall e a, fst (op e a) = None) ->
  forall a : Atlas, observed.firstFailure (fst (observed.replay op l a)) = None.
Proof.
  intros Hok. induction l as [| e rest IH]; intros a; [reflexivity |].
  simpl. pose proof (Hok e a) as He. destruct (op e a) as [err a']. simpl in He. subst err.
  specialize (IH a'). destruct (observed.replay op rest a') as [errs a'']. simpl in *.
  now rewrite IH.
Qed.

(** [syncPrivateEndpointsWithAtlas] against the answers of the remote. *)
Lemma syncPrivateEndpoints_replay (projectID : string)
    (specPEs atlasPEs : list mdbv1.DataFederationPE) (ctx : Context Atlas) :
  let endpointsToCreate := set.Difference specPEs atlasPEs in
  let endpointsToDelete := set.Difference atlasPEs specPEs in
  let run := atlasdatafederation.syncPrivateEndpointsWithAtlas clientDF projectID
               specPEs atlasPEs ctx in
  let created :=
    observed.replay (atlasdatafederation.doCreateOnePrivateEndpoint clientDF projectID)
      endpointsToCreate (atlas ctx) in
  let deleted :=
    observed.replay
      (fun e => atlasdatafederation.doDeleteOnePrivateEndpoint clientDF projectID
                  (mdbv1.EndpointID e))
      endpointsToDelete (snd created) in
  conditions (snd run) = conditions ctx
  /\ match observed.firstFailure (fst created) with
     | Some (i, err) =>
         fst run = Terminate Internal err
         /\ calls (snd run)
            = calls ctx
              ++ List.map (CreateOnePrivateEndpoint projectID) (firstn (S i) endpointsToCreate)
     | None =>
         match observed.firstFailure (fst deleted) with
         | Some (j, err) =>
             fst run = Terminate Internal err
             /\ calls (snd run)
                = calls ctx
                  ++ List.map (CreateOnePrivateEndpoint projectID) endpointsToCreate
                  ++ List.map
                       (fun e => DeleteOnePrivateEndpoint projectID (mdbv1.EndpointID e))
                       (firstn (S j) endpointsToDelete)
         | None =>
             fst run = OK
             /\ calls (snd run)
                = calls ctx
                  ++ List.map (CreateOnePrivateEndpoint projectID) endpointsToCreate
                  ++ List.map
                       (fun e => DeleteOnePrivateEndpoint projectID (mdbv1.EndpointID e))
                       endpointsToDelete
             /\ atlas (snd run) = snd deleted
         end
     end.
Proof.
  cbv zeta. unfold atlasdatafederation.syncPrivateEndpointsWithAtlas, bind.
  destruct (createEndpoints_replay projectID (set.Difference specPEs atlasPEs) ctx)
    as [Hcond Hcreate].
  cbv zeta in *.
  destruct (atlasdatafederation.createEndpoints clientDF projectID
              (set.Difference specPEs atlasPEs) ctx) as [res ctx1].
  simpl in Hcond, Hcreate.
  destruct (observed.firstFailure (fst (observed.replay _ (set.Difference specPEs atlasPEs) _)))
    as [[i err] |].
  - destruct Hcreate as [-> Hcalls]. simpl. auto.
  - destruct Hcreate as (-> & Hcalls & Hatlas). rewrite <- Hatlas.
    destruct (deleteEndpoints_replay projectID (set.Difference atlasPEs specPEs) ctx1)
      as [Hcond' Hdelete].
    cbv zeta in *.
    destruct (atlasdatafederation.deleteEndpoints clientDF projectID
                (set.Difference atlasPEs specPEs) ctx1) as [res ctx2].
    simpl in Hcond', Hdelete.
    destruct (observed.firstFailure (fst (observed.replay _ (set.Difference atlasPEs specPEs) _)))
      as [[j err] |].
    + destruct Hdelete as [-> Hcalls']. simpl. rewrite Hcalls', Hcalls, <- app_assoc.
      split; [congruence | auto].
    + destruct Hdelete as (-> & Hcalls' & Hatlas'). simpl.
      rewrite Hcalls', Hcalls, <- app_assoc. split; [congruence | auto].
Qed.

Lemma elem_of_endpointIdentifiers (l : list mdbv1.DataFederationPE) (x : string) :
  x ∈ spec.endpointIdentifiers l <-> exists e, In e l /\ mdbv1.EndpointID e = x.
Proof.
  unfold spec.endpointIdentifiers. rewrite elem_of_list_to_set, list_elem_of_fmap.
  split; intros [e [H1 H2]]; exists e.
  - apply list_elem_of_In in H2. auto.
  - split; [auto | now apply list_elem_of_In].
Qed.

(** The difference of two lists of endpoints that all have an identifier
    has the difference of their identifier sets as its identifier set. *)
Lemma Difference_endpointIdentifiers (left right : list mdbv1.DataFederationPE) :
  (forall e, In e left -> mdbv1.EndpointID e <> "") ->
  spec.endpointIdentifiers (set.Difference left right)
  = spec.endpointIdentifiers left ∖ spec.endpointIdentifiers right.
Proof.
  intros Hids. apply set_eq. intros x.
  rewrite elem_of_difference, !elem_of_endpointIdentifiers. split.
  - intros [e [He <-]]. apply In_Difference in He as [He Hn]. split; [eauto |].
    intros [r [Hr Heq]]. destruct Hn as [Hempty | Hn].
    + now apply (Hids e He).
    + exact (Hn r Hr Heq).
  - intros [[e [He <-]] Hout]. exists e. split; [| reflexivity].
    apply In_Difference. split; [exact He |]. right. intros r Hr Heq. apply Hout. eauto.
Qed.

(** C8. In [syncPrivateEndpointsWithAtlas] the endpoints to create are the
    declared endpoints that match no remote endpoint by identifier, and the
    endpoints to delete are the remote endpoints that match no declared
    endpoint, an endpoint without identifier matching none; when every
    endpoint has an identifier the two results have the identifier sets
    [D \ R] and [R \ D]; reordering the declared or the remote endpoints
    only reorders the two results; and when no call fails, the pass issues
    exactly a create call for each endpoint to create and then a delete call
    for each endpoint to delete. *)
Theorem diff_engine_is_set_difference (specPEs atlasPEs : list mdbv1.DataFederationPE) :
  let endpointsToCreate := set.Difference specPEs atlasPEs in
  let endpointsToDelete := set.Difference atlasPEs specPEs in
  (forall e, In e endpointsToCreate <->
             In e specPEs
             /\ (mdbv1.EndpointID e = ""
                 \/ ~ exists r, In r atlasPEs /\ mdbv1.EndpointID r = mdbv1.EndpointID e))
  /\ (forall e, In e endpointsToDelete <->
                In e atlasPEs
                /\ (mdbv1.EndpointID e = ""
                    \/ ~ exists d, In d specPEs /\ mdbv1.EndpointID d = mdbv1.EndpointID e))
  /\ ((forall e, In e (specPEs ++ atlasPEs) -> mdbv1.EndpointID e <> "") ->
      spec.endpointIdentifiers endpointsToCreate
      = spec.endpointIdentifiers specPEs ∖ spec.endpointIdentifiers atlasPEs
      /\ spec.endpointIdentifiers endpointsToDelete
         = spec.endpointIdentifiers atlasPEs ∖ spec.endpointIdentifiers specPEs)
  /\ (forall specPEs' atlasPEs',
         Permutation specPEs specPEs' -> Permutation atlasPEs atlasPEs' ->
         Permutation endpointsToCreate (set.Difference specPEs' atlasPEs')
         /\ Permutation endpointsToDelete (set.Difference atlasPEs' specPEs'))
  /\ (forall (projectID : string) (ctx : Context Atlas),
         (forall e a, fst (atlasdatafederation.doCreateOnePrivateEndpoint
                             clientDF projectID e a) = None) ->
         (forall id a, fst (atlasdatafederation.doDeleteOnePrivateEndpoint
                              clientDF projectID id a) = None) ->
         let run := atlasdatafederation.syncPrivateEndpointsWithAtlas clientDF projectID
                      specPEs atlasPEs ctx in
         fst run = OK
         /\ calls (snd run)
            = calls ctx
              ++ List.map (CreateOnePrivateEndpoint projectID) endpointsToCreate
              ++ List.map (fun e => DeleteOnePrivateEndpoint projectID (mdbv1.EndpointID e))
                   endpointsToDelete).
Proof.
  intros endpointsToCreate endpointsToDelete.
  assert (Hmem : forall (l r : list mdbv1.DataFederationPE) e,
             In e (set.Difference l r) <->
             In e l
             /\ (mdbv1.EndpointID e = ""
                 \/ ~ exists x, In x r /\ mdbv1.EndpointID x = mdbv1.EndpointID e)).
  { intros l r e. rewrite In_Difference.
    split; intros [Hin Hn]; (split; [exact Hin |]);
      (destruct Hn as [Hempty | Hn]; [now left | right]).
    - intros [x [Hx Heq]]. exact (Hn x Hx Heq).
    - intros x Hx Heq. apply Hn. eauto. }
  split; [apply Hmem |]. split; [apply Hmem |]. split; [| split].
  - intros Hids. split; apply Difference_endpointIdentifiers;
      intros e He; apply Hids, in_or_app; auto.
  - intros specPEs' atlasPEs' Hs Ha. split; now apply Difference_Permutation.
  - intros projectID ctx Hcreate Hdelete.
    destruct (syncPrivateEndpoints_replay projectID specPEs atlasPEs ctx) as [_ Hrun].
    cbv zeta in *.
    rewrite (replay_no_failure _ _ Hcreate) in Hrun.
    rewrite (replay_no_failure
               (fun e => atlasdatafederation.doDeleteOnePrivateEndpoint clientDF projectID
                           (mdbv1.EndpointID e)) _ (fun e a => Hdelete _ a)) in Hrun.
    destruct Hrun as (Hres & Hcalls & _). auto.
Qed.

(** C10. When the listing of the remote private endpoints fails, handing
    back no endpoint, the pass goes on as with an empty remote list: the
    endpoints to create are all the declared endpoints, each once; when no
    create call fails, every one of them is issued a create call and the
    result is [OK]; no delete call is issued in any case, every call after
    the listing being a create call for a declared endpoint; and a
    [Terminate] comes only from a create call that fails, with the error of
    that call, never from the error of the listing. *)
Theorem failed_listing_is_an_empty_remote (projectID : string)
    (specPEs : list mdbv1.DataFederationPE) (ctx : Context Atlas) (err : error) :
  fst (atlasdatafederation.doGetAllPrivateEndpoints clientDF projectID (atlas ctx))
  = (None, Some err) ->
  let run := atlasdatafederation.ensurePrivateEndpoints clientDF projectID specPEs ctx in
  let listed :=
    snd (atlasdatafederation.doGetAllPrivateEndpoints clientDF projectID (atlas ctx)) in
  exists endpointsToCreate : list mdbv1.DataFederationPE,
    Permutation specPEs endpointsToCreate
    /\ (let answers :=
          fst (observed.replay
                 (atlasdatafederation.doCreateOnePrivateEndpoint clientDF projectID)
                 endpointsToCreate listed) in
        (observed.firstFailure answers = None ->
         fst run = OK
         /\ calls (snd run)
            = calls ctx
              ++ GetAllPrivateEndpoints projectID
                 :: List.map (CreateOnePrivateEndpoint projectID) endpointsToCreate)
        /\ (forall i msg,
              observed.firstFailure answers = Some (i, msg) ->
              fst run = Terminate Internal msg
              /\ calls (snd run)
                 = calls ctx
                   ++ GetAllPrivateEndpoints projectID
                      :: List.map (CreateOnePrivateEndpoint projectID)
                           (firstn (S i) endpointsToCreate)))
    /\ (exists issued : list mdbv1.DataFederationPE,
          calls (snd run)
          = calls ctx
            ++ GetAllPrivateEndpoints projectID
               :: List.map (CreateOnePrivateEndpoint projectID) issued
          /\ incl issued specPEs)
    /\ ((forall e a, fst (atlasdatafederation.doCreateOnePrivateEndpoint
                            clientDF projectID e a) = None) ->
        fst run = OK
        /\ calls (snd run)
           = calls ctx
             ++ GetAllPrivateEndpoints projectID
                :: List.map (CreateOnePrivateEndpoint projectID) endpointsToCreate).
Proof.
  intros Hlist. cbv zeta.
  exists (set.Difference specPEs ([] : list mdbv1.DataFederationPE)).
  split; [apply Difference_nil_r |].
  unfold atlasdatafederation.ensurePrivateEndpoints,
    atlasdatafederation.getAllDataFederationPEs, bind, call.
  destruct (atlasdatafederation.doGetAllPrivateEndpoints clientDF projectID (atlas ctx))
    as [res a']. simpl in Hlist. subst res. simpl.
  match goal with
  | |- context [atlasdatafederation.syncPrivateEndpointsWithAtlas clientDF projectID
                  specPEs [] ?c] =>
      destruct (syncPrivateEndpoints_replay projectID specPEs [] c) as [_ Hrun];
      destruct (atlasdatafederation.syncPrivateEndpointsWithAtlas clientDF projectID
                  specPEs [] c) as [result ctx2]
  end.
  cbv zeta in Hrun. simpl in Hrun.
  assert (Hdel : set.Difference ([] : list mdbv1.DataFederationPE) specPEs = []).
  { apply Difference_nil. intros e []. }
  rewrite Hdel in Hrun. simpl in Hrun.
  set (endpointsToCreate := set.Difference specPEs ([] : list mdbv1.DataFederationPE)) in *.
  assert (Hincl : forall n, incl (firstn n endpointsToCreate) specPEs).
  { intros n e He.
    apply (Permutation_in _
             (Permutation_sym (Difference_nil_r (B := mdbv1.DataFederationPE) specPEs))).
    fold endpointsToCreate. rewrite <- (firstn_skipn n endpointsToCreate).
    apply in_or_app. now left. }
  destruct (observed.firstFailure
              (fst (observed.replay
                      (atlasdatafederation.doCreateOnePrivateEndpoint clientDF projectID)
                      endpointsToCreate a'))) as [[i msg] |] eqn:Hfirst.
  - destruct Hrun as [-> Hcalls]. simpl. rewrite Hcalls, <- app_assoc. simpl.
    split; [split; [discriminate |] |]; [| split].
    + intros i' msg' [= <- <-]. auto.
    + eexists. split; [reflexivity | apply Hincl].
    + intros Hok. rewrite (replay_no_failure _ _ Hok) in Hfirst. discriminate.
  - destruct Hrun as (-> & Hcalls & _). simpl. rewrite Hcalls, app_nil_r, <- app_assoc. simpl.
    split; [split; [auto | discriminate] |]; split.
    + exists endpointsToCreate. split; [reflexivity |].
      rewrite <- (firstn_all endpointsToCreate). apply Hincl.
    + auto.
Qed.

End PrivateEndpoints.

(** *** Examples for the private endpoints *)

Lemma diff_engine_is_set_difference_witness :
  Permutation
    (set.Difference [fake.pe "vpce-1"; fake.pe "vpce-2"] [fake.pe "vpce-2"; fake.pe "vpce-3"])
    (set.Difference [fake.pe "vpce-2"; fake.pe "vpce-1"] [fake.pe "vpce-3"; fake.pe "vpce-2"])
  /\ spec.endpointIdentifiers
       (set.Difference [fake.pe "vpce-1"; fake.pe "vpce-2"]
          [fake.pe "vpce-2"; fake.pe "vpce-3"])
     = spec.endpointIdentifiers [fake.pe "vpce-1"; fake.pe "vpce-2"]
       ∖ spec.endpointIdentifiers [fake.pe "vpce-2"; fake.pe "vpce-3"]
  /\ fst (atlasdatafederation.syncPrivateEndpointsWithAtlas (fake.clientDF []) "project-1"
            [fake.pe "vpce-1"; fake.pe "vpce-2"] [fake.pe "vpce-2"; fake.pe "vpce-3"]
            (workflow.start {| fake.endpoints := [fake.pe "vpce-2"; fake.pe "vpce-3"];
                           fake.getAllError := None |}))
     = OK.
Proof.
  destruct (diff_engine_is_set_difference (fake.clientDF [])
              [fake.pe "vpce-1"; fake.pe "vpce-2"] [fake.pe "vpce-2"; fake.pe "vpce-3"])
    as (_ & _ & Hsets & Hperm & Hcalls).
  split; [| split].
  - apply (Hperm [fake.pe "vpce-2"; fake.pe "vpce-1"] [fake.pe "vpce-3"; fake.pe "vpce-2"]);
      apply perm_swap.
  - assert (Hids : forall e,
               In e ([fake.pe "vpce-1"; fake.pe "vpce-2"]
                     ++ [fake.pe "vpce-2"; fake.pe "vpce-3"]) ->
               mdbv1.EndpointID e <> "").
    { intros e He. simpl in He.
      destruct He as [<- | [<- | [<- | [<- | []]]]]; discriminate. }
    exact (proj1 (Hsets Hids)).
  - apply (Hcalls "project-1"); intros; reflexivity.
Defined.

Lemma failed_listing_is_an_empty_remote_witness :
  fst (atlasdatafederation.ensurePrivateEndpoints (fake.clientDF []) "project-1"
         examples.declaredPEs (workflow.start examples.remoteListingFails))
  = OK
  /\ exists endpointsToCreate : list mdbv1.DataFederationPE,
       Permutation examples.declaredPEs endpointsToCreate
       /\ calls (snd (atlasdatafederation.ensurePrivateEndpoints (fake.clientDF []) "project-1"
                        examples.declaredPEs (workflow.start examples.remoteListingFails)))
          = [] ++ GetAllPrivateEndpoints "project-1"
               :: List.map (CreateOnePrivateEndpoint "project-1") endpointsToCreate.
Proof.
  assert (Hlist : fst (atlasdatafederation.doGetAllPrivateEndpoints (fake.clientDF [])
                         "project-1" (atlas (workflow.start examples.remoteListingFails)))
                  = (None, Some "service unavailable")) by reflexivity.
  destruct (failed_listing_is_an_empty_remote (fake.clientDF []) "project-1"
              examples.declaredPEs (workflow.start examples.remoteListingFails)
              "service unavailable" Hlist)
    as (endpointsToCreate & Hperm & _ & _ & Hok).
  destruct Hok as [Hresult Hcalls]; [intros e a; reflexivity |].
  split; [exact Hresult |]. exists endpointsToCreate. split; [exact Hperm | exact Hcalls].
Defined.

(** ** Two passes in a row *)
Section TwoPasses.
Context {Atlas : Type}.
Context {order : set.Order atlasproject.CloudProviderIntegrationIdentifiable}.
Variable Client : atlasproject.CloudProviderAccessService (Atlas := Atlas).


(** With nothing declared and no status, the pass registers no status and
    makes no create, authorize or deauthorize call. *)
Lemma ensure_nothing_to_synchronize (project : mdbv1.AtlasProject) (protected : bool)
    (ctx : Context Atlas) :
  Nat.eqb (length (atlasproject.getCloudProviderIntegrations (mdbv1.Spec project))) 0
  && Nat.eqb (length (mdbv1.StatusCloudProviderIntegrations (mdbv1.Status project))) 0
  = true ->
  let run := atlasproject.ensureCloudProviderIntegration Client project protected ctx in
  cloudIntegrationsOption (snd run) = cloudIntegrationsOption ctx
  /\ mutations (calls (snd run)) = mutations (calls ctx).
Proof.
  intros Hguard. cbv zeta.
  unfold atlasproject.ensureCloudProviderIntegration, bind.
  destruct (atlasproject.canCloudProviderIntegrationReconcile Client protected project ctx)
    as [[canReconcile err] ctx1] eqn:Hcan.
  destruct (canReconcile_effects _ _ _ _ _ _ Hcan) as [_ [Hopt Hcalls]].
  assert (Hmut : mutations (calls ctx1) = mutations (calls ctx)).
  { destruct Hcalls as [-> | [-> _]]; [apply mutations_ListRoles | reflexivity]. }
  destruct err as [err |]; [simpl; auto |].
  destruct canReconcile; simpl; [| auto].
  rewrite Hguard. simpl. auto.
Qed.


End TwoPasses.

(** *** Examples for two passes *)


Lemma unmatched_items_take_roles_by_role_id_witness :
  nth_error
    (atlasproject.enrichStatuses (atlasproject.initiateStatuses [examples.awsPending])
       (atlasproject.sortAtlasCPAsByRoleID [examples.roleB; examples.roleA]))
    0
  = Some (atlasproject.copyCloudProviderAccessData
            (status.NewCloudProviderIntegration "AWS" "") examples.roleA).
Proof.
  destruct (unmatched_items_take_roles_by_role_id [examples.roleB; examples.roleA]
              (atlasproject.initiateStatuses [examples.awsPending]))
    as (_ & _ & Hnth).
  exact (Hnth 0 (status.NewCloudProviderIntegration "AWS" "") eq_refl).
Defined.

(** * Further properties of the cloud provider integration pass *)

(** ** What matching keeps *)

Lemma copyMatches_keeps (atlasCPAs : list mongodbatlas.CloudProviderAccessRole) :
  forall cpiStatus : status.CloudProviderIntegration,
    let matched := atlasproject.copyMatches atlasCPAs cpiStatus in
    status.ProviderName matched = status.ProviderName cpiStatus
    /\ status.IamAssumedRoleArn matched = status.IamAssumedRoleArn cpiStatus
    /\ status.ErrorMessage matched = status.ErrorMessage cpiStatus
    /\ (status.Status matched = status.Status cpiStatus
        \/ status.Status matched = status.CloudProviderIntegrationStatusCreated
        \/ status.Status matched = status.CloudProviderIntegrationStatusAuthorized).
Proof.
  unfold atlasproject.copyMatches.
  induction atlasCPAs as [| cpa rest IH]; intros cpiStatus; cbv zeta; simpl; [auto |].
  destruct (atlasproject.isMatch cpiStatus cpa).
  - destruct (IH (atlasproject.copyCloudProviderAccessData cpiStatus cpa))
      as (Hp & Ha & He & Hs).
    cbv zeta in *. simpl in *. repeat split; try assumption.
    destruct Hs as [Hs | Hs]; [| now right].
    right. rewrite Hs. destruct (nonEmpty _); auto.
  - apply IH.
Qed.

Lemma claimUnauthorized_pointwise (cpiStatuses : list status.CloudProviderIntegration) :
  forall noMatch : list mongodbatlas.CloudProviderAccessRole,
    Forall2
      (fun s s' => s' = s \/ exists cpa, s' = atlasproject.copyCloudProviderAccessData s cpa)
      cpiStatuses (fst (atlasproject.claimUnauthorized cpiStatuses noMatch)).
Proof.
  induction cpiStatuses as [| s rest IH]; intros noMatch; simpl; [constructor |].
  destruct (atlasproject.isConfigured s).
  - specialize (IH noMatch).
    destruct (atlasproject.claimUnauthorized rest noMatch). simpl in *.
    constructor; auto.
  - destruct noMatch as [| cpa noMatch'].
    + simpl. constructor; [auto |].
      clear. induction rest; constructor; auto.
    + specialize (IH noMatch').
      destruct (atlasproject.claimUnauthorized rest noMatch'). simpl in *.
      constructor; eauto.
Qed.

(** X3. In the statuses that [enrichStatuses] builds for the declared
    items, the [i]-th status stands for the [i]-th declared item: it has
    that item's provider name and ARN, no error message, and a phase among
    [New], [Created] and [Authorized]. *)
Theorem enriched_status_stands_for_declared_item
    (cpiSpecs : list mdbv1.CloudProviderIntegration)
    (atlasCPAs : list mongodbatlas.CloudProviderAccessRole)
    (i : nat) (cpiSpec : mdbv1.CloudProviderIntegration) :
  nth_error cpiSpecs i = Some cpiSpec ->
  exists cpiStatus : status.CloudProviderIntegration,
    nth_error (atlasproject.enrichStatuses (atlasproject.initiateStatuses cpiSpecs) atlasCPAs) i
    = Some cpiStatus
    /\ observed.declares cpiSpec cpiStatus
    /\ status.ErrorMessage cpiStatus = ""
    /\ (status.Status cpiStatus = status.CloudProviderIntegrationStatusNew
        \/ status.Status cpiStatus = status.CloudProviderIntegrationStatusCreated
        \/ status.Status cpiStatus = status.CloudProviderIntegrationStatusAuthorized).
Proof.
  intros Hi.
  set (matched := List.map (atlasproject.copyMatches atlasCPAs)
                    (atlasproject.initiateStatuses cpiSpecs)).
  assert (Hm : nth_error matched i
               = Some (atlasproject.copyMatches atlasCPAs
                         (status.NewCloudProviderIntegration
                            (mdbv1.ProviderName cpiSpec) (mdbv1.IamAssumedRoleArn cpiSpec)))).
  { unfold matched, atlasproject.initiateStatuses.
    rewrite List.map_map. now rewrite (List.map_nth_error _ _ _ Hi). }
  destruct (copyMatches_keeps atlasCPAs
              (status.NewCloudProviderIntegration
                 (mdbv1.ProviderName cpiSpec) (mdbv1.IamAssumedRoleArn cpiSpec)))
    as (Hp & Ha & He & Hs).
  cbv zeta in *. simpl in Hp, Ha, He, Hs.
  pose proof (claimUnauthorized_nth matched (atlasproject.unauthorizedRoles atlasCPAs) i _ Hm)
    as Hnth.
  pose proof (claimUnauthorized_length matched (atlasproject.unauthorizedRoles atlasCPAs))
    as Hlen.
  unfold atlasproject.enrichStatuses. fold matched.
  destruct (atlasproject.claimUnauthorized matched (atlasproject.unauthorizedRoles atlasCPAs))
    as [claimed left].
  simpl in Hnth, Hlen.
  rewrite nth_error_app1 by (rewrite Hlen; apply nth_error_Some; congruence).
  rewrite Hnth. eexists. split; [reflexivity |].
  unfold observed.declares.
  destruct (atlasproject.isConfigured _);
    [exact (conj (conj Hp Ha) (conj He Hs)) |].
  destruct (nth_error (atlasproject.unauthorizedRoles atlasCPAs) _) as [cpa |];
    [| exact (conj (conj Hp Ha) (conj He Hs))].
  simpl. repeat split; try assumption.
  right. destruct (nonEmpty _); auto.
Qed.

(** ** What matching schedules for removal *)

Lemma Forall2_nth_error {A B : Type} (R : A -> B -> Prop) (l : list A) (l' : list B) :
  Forall2 R l l' ->
  forall (i : nat) (a : A) (b : B),
    nth_error l i = Some a -> nth_error l' i = Some b -> R a b.
Proof.
  induction 1 as [| x y l l' Hxy HF IH]; intros [| i] a b Ha Hb; simpl in *;
    try discriminate.
  - injection Ha as <-. injection Hb as <-. exact Hxy.
  - eauto.
Qed.

(** A key is in [cpiStatusesMap] exactly when a status with an ARN has it. *)
Lemma cpiStatusesMapOf_lookup (cpiStatuses : list status.CloudProviderIntegration)
    (k : string) :
  atlasproject.cpiStatusesMapOf cpiStatuses !! k = None <->
  forall s, In s cpiStatuses -> nonEmpty (status.IamAssumedRoleArn s) = true ->
            atlasproject.cpiKey (status.ProviderName s) (status.IamAssumedRoleArn s) <> k.
Proof.
  unfold atlasproject.cpiStatusesMapOf.
  assert (G : forall (l : list status.CloudProviderIntegration)
                     (m : gmap string status.CloudProviderIntegration),
             fold_left
               (fun m cpiStatus =>
                  if nonEmpty (status.IamAssumedRoleArn cpiStatus)
                  then <[atlasproject.cpiKey (status.ProviderName cpiStatus)
                           (status.IamAssumedRoleArn cpiStatus) := cpiStatus]> m
                  else m) l m !! k = None <->
             m !! k = None
             /\ forall s, In s l -> nonEmpty (status.IamAssumedRoleArn s) = true ->
                          atlasproject.cpiKey (status.ProviderName s)
                            (status.IamAssumedRoleArn s) <> k).
  { induction l as [| s rest IH]; intros m; simpl.
    - split; [intros Hm; split; [exact Hm | intros s []] | tauto].
    - rewrite IH. destruct (nonEmpty (status.IamAssumedRoleArn s)) eqn:Hs.
      + split.
        * intros [Hins Hrest]. apply lookup_insert_None in Hins as [Hm Hne].
          split; [exact Hm |]. intros s' [<- | Hin] Hs'; [exact Hne | now apply Hrest].
        * intros [Hm Hall]. split.
          -- apply lookup_insert_None. split; [exact Hm |]. apply Hall; [now left | exact Hs].
          -- intros s' Hin. apply Hall. now right.
      + split.
        * intros [Hm Hrest]. split; [exact Hm |].
          intros s' [<- | Hin] Hs'; [congruence | now apply Hrest].
        * intros [Hm Hall]. split; [exact Hm |]. intros s' Hin. apply Hall. now right. }
  rewrite G. split; [tauto |]. intros Hall. split; [apply lookup_empty | exact Hall].
Qed.

(** What the third loop leaves of [noMatch]: every status that is not
    configured takes one role, as long as there are roles. *)
Lemma claimUnauthorized_leftover (cpiStatuses : list status.CloudProviderIntegration) :
  forall noMatch : list mongodbatlas.CloudProviderAccessRole,
    snd (atlasproject.claimUnauthorized cpiStatuses noMatch)
    = skipn (length (List.filter (fun s => negb (atlasproject.isConfigured s)) cpiStatuses))
        noMatch.
Proof.
  induction cpiStatuses as [| s rest IH]; intros noMatch; simpl; [reflexivity |].
  destruct (atlasproject.isConfigured s); simpl.
  - specialize (IH noMatch).
    destruct (atlasproject.claimUnauthorized rest noMatch). exact IH.
  - destruct noMatch as [| cpa noMatch']; [reflexivity |].
    specialize (IH noMatch').
    destruct (atlasproject.claimUnauthorized rest noMatch'). exact IH.
Qed.

(** The statuses after the first three loops stand, one by one, for the
    declared items. *)
Lemma claimed_declares (cpiSpecs : list mdbv1.CloudProviderIntegration)
    (atlasCPAs noMatch : list mongodbatlas.CloudProviderAccessRole) :
  Forall2 observed.declares cpiSpecs
    (fst (atlasproject.claimUnauthorized
            (List.map (atlasproject.copyMatches atlasCPAs)
               (atlasproject.initiateStatuses cpiSpecs)) noMatch)).
Proof.
  pose proof (claimUnauthorized_pointwise
                (List.map (atlasproject.copyMatches atlasCPAs)
                   (atlasproject.initiateStatuses cpiSpecs)) noMatch) as Hpw.
  remember (fst (atlasproject.claimUnauthorized _ noMatch)) as claimed eqn:E. clear E.
  revert claimed Hpw.
  induction cpiSpecs as [| cpiSpec rest IH]; intros claimed Hpw; simpl in Hpw.
  - inversion Hpw. constructor.
  - inversion Hpw as [| s s' l l' Hs Hl]; subst. constructor; [| now apply IH].
    destruct (copyMatches_keeps atlasCPAs
                (status.NewCloudProviderIntegration
                   (mdbv1.ProviderName cpiSpec) (mdbv1.IamAssumedRoleArn cpiSpec)))
      as (Hp & Ha & _).
    cbv zeta in *. simpl in Hp, Ha.
    unfold observed.declares.
    destruct Hs as [-> | [cpa ->]]; simpl; auto.
Qed.

(** X4. Beyond the statuses of the declared items, [enrichStatuses]
    appends exactly the statuses synthesized for removal: first, in the order
    of the remote list, one for each role that has an ARN whose key
    [provider.arn] no declared item with an ARN has; then one for each role
    without an ARN that no status took in the third loop. *)
Theorem enriched_tail_is_the_removals
    (cpiSpecs : list mdbv1.CloudProviderIntegration)
    (atlasCPAs : list mongodbatlas.CloudProviderAccessRole) :
  let matched :=
    List.map (atlasproject.copyMatches atlasCPAs) (atlasproject.initiateStatuses cpiSpecs) in
  skipn (length cpiSpecs)
    (atlasproject.enrichStatuses (atlasproject.initiateStatuses cpiSpecs) atlasCPAs)
  = List.map atlasproject.deleteStatusOf
      (List.filter (observed.undeclared cpiSpecs) atlasCPAs
       ++ skipn (length (List.filter (fun s => negb (atlasproject.isConfigured s)) matched))
            (atlasproject.unauthorizedRoles atlasCPAs)).
Proof.
  intros matched. unfold atlasproject.enrichStatuses. fold matched.
  pose proof (claimUnauthorized_length matched (atlasproject.unauthorizedRoles atlasCPAs))
    as Hlen.
  pose proof (claimUnauthorized_leftover matched (atlasproject.unauthorizedRoles atlasCPAs))
    as Hleft.
  pose proof (claimed_declares cpiSpecs atlasCPAs (atlasproject.unauthorizedRoles atlasCPAs))
    as Hdecl.
  fold matched in Hdecl.
  destruct (atlasproject.claimUnauthorized matched (atlasproject.unauthorizedRoles atlasCPAs))
    as [claimed left].
  simpl in Hlen, Hleft, Hdecl. subst left.
  assert (Hn : length cpiSpecs = length claimed).
  { rewrite Hlen. unfold matched, atlasproject.initiateStatuses.
    now rewrite !length_map. }
  rewrite Hn, skipn_app, skipn_all, Nat.sub_diag, List.skipn_O. simpl.
  rewrite List.map_app. f_equal.
  unfold atlasproject.removals. f_equal.
  apply List.filter_ext. intros cpa. unfold observed.undeclared. f_equal.
  set (k := atlasproject.cpiKey (mongodbatlas.ProviderName cpa)
              (mongodbatlas.IAMAssumedRoleARN cpa)).
  destruct (existsb _ cpiSpecs) eqn:Hex; simpl.
  - apply existsb_exists in Hex as [cpiSpec [Hin Hk]].
    apply andb_true_iff in Hk as [Harn Hk]. apply String.eqb_eq in Hk.
    destruct (atlasproject.cpiStatusesMapOf claimed !! k) eqn:Hlook; [reflexivity |].
    exfalso. rewrite cpiStatusesMapOf_lookup in Hlook.
    apply In_nth_error in Hin as [i Hi].
    destruct (nth_error claimed i) as [s |] eqn:Hs.
    + destruct (Forall2_nth_error _ _ _ Hdecl i _ _ Hi Hs) as [Hp Ha].
      apply (Hlook s); [eapply nth_error_In; eauto | now rewrite Ha |].
      now rewrite Hp, Ha.
    + apply nth_error_None in Hs. assert (i < length cpiSpecs) by (apply nth_error_Some; congruence).
      lia.
  - destruct (atlasproject.cpiStatusesMapOf claimed !! k) eqn:Hlook; [| reflexivity].
    exfalso. assert (Hnone : atlasproject.cpiStatusesMapOf claimed !! k = None); [| congruence].
    apply cpiStatusesMapOf_lookup. intros s Hin Harn Hk.
    apply In_nth_error in Hin as [i Hi].
    destruct (nth_error cpiSpecs i) as [cpiSpec |] eqn:Hs.
    + destruct (Forall2_nth_error _ _ _ Hdecl i _ _ Hs Hi) as [Hp Ha].
      assert (Hf : existsb
                     (fun cpiSpec =>
                        nonEmpty (mdbv1.IamAssumedRoleArn cpiSpec)
                        && String.eqb
                             (atlasproject.cpiKey (mdbv1.ProviderName cpiSpec)
                                (mdbv1.IamAssumedRoleArn cpiSpec)) k) cpiSpecs = true).
      { apply existsb_exists. exists cpiSpec. split; [eapply nth_error_In; eauto |].
        rewrite <- Hp, <- Ha, Harn. simpl. now apply String.eqb_eq. }
      congruence.
    + apply nth_error_None in Hs. assert (i < length claimed) by (apply nth_error_Some; congruence).
      lia.
Qed.

(** ** The calls of the loop *)
Section LoopCalls.
Context {Atlas : Type}.
Variable Client : atlasproject.CloudProviderAccessService (Atlas := Atlas).

Lemma syncItem_effects (projectID : string) (cpiStatus : status.CloudProviderIntegration)
    (ctx : Context Atlas) :
  let ctx' := snd (atlasproject.syncItem Client projectID cpiStatus ctx) in
  calls ctx' = calls ctx ++ observed.callsFor projectID cpiStatus
  /\ conditions ctx' = conditions ctx
  /\ cloudIntegrationsOption ctx' = cloudIntegrationsOption ctx.
Proof.
  cbv zeta.
  unfold atlasproject.syncItem, atlasproject.createCloudProviderAccess,
    atlasproject.authorizeCloudProviderAccess, atlasproject.deleteCloudProviderAccess,
    observed.callsFor.
  destruct (status.Status cpiStatus); run;
    try (destruct (nonEmpty (status.IamAssumedRoleArn cpiStatus)); run);
    try (destruct (atlasproject.doCreateRole _ _ _ _) as [[err | cpa] a']);
    try (destruct (atlasproject.doAuthorizeRole _ _ _ _ _ _) as [[err | cpa] a']);
    try (destruct (atlasproject.doDeauthorizeRole _ _ _ _ _) as [[err |] a']);
    simpl; rewrite ?app_nil_r; auto.
Qed.

Lemma syncLoop_effects (projectID : string)
    (cpiStatuses : list status.CloudProviderIntegration) :
  forall (toUpdate : list status.CloudProviderIntegration) (withError : bool)
         (ctx : Context Atlas),
    let ctx' := snd (atlasproject.syncLoop Client projectID cpiStatuses toUpdate withError ctx) in
    calls ctx' = calls ctx ++ flat_map (observed.callsFor projectID) cpiStatuses
    /\ conditions ctx' = conditions ctx
    /\ cloudIntegrationsOption ctx' = cloudIntegrationsOption ctx.
Proof.
  induction cpiStatuses as [| s rest IH]; intros toUpdate withError ctx; cbv zeta.
  - simpl. now rewrite app_nil_r.
  - rewrite syncLoop_cons.
    destruct (syncItem_effects projectID s ctx) as (Hc & Hcond & Hopt). cbv zeta in *.
    destruct (atlasproject.syncItem Client projectID s ctx) as [[s' appended] ctx1].
    simpl in Hc, Hcond, Hopt.
    match goal with
    | |- context [atlasproject.syncLoop Client projectID rest ?u ?e ctx1] =>
        destruct (IH u e ctx1) as (Hc' & Hcond' & Hopt');
        destruct (atlasproject.syncLoop Client projectID rest u e ctx1)
          as [[[rest' toUpdate'] withError'] ctx2]
    end.
    cbv zeta in *. simpl in *.
    rewrite Hc', Hc, Hcond', Hcond, Hopt', Hopt, <- app_assoc. auto.
Qed.

(** X5. Once the roles are listed, [syncCloudProviderIntegration] makes,
    for each status in turn, the one call that the phase of the status at the
    entry of the loop asks for, or none: the calls are fixed before the
    first is answered, so a call that fails holds back none of the calls
    after it. *)
Theorem sync_calls_follow_entry_phases (projectID : string)
    (cpaSpecs : list mdbv1.CloudProviderIntegration) (ctx : Context Atlas)
    (atlasCPAs : mongodbatlas.CloudProviderAccessRoles) :
  fst (atlasproject.doListRoles Client projectID (atlas ctx)) = inr atlasCPAs ->
  calls (snd (atlasproject.syncCloudProviderIntegration Client projectID cpaSpecs ctx))
  = calls ctx
    ++ ListRoles projectID
       :: flat_map (observed.callsFor projectID)
            (atlasproject.enrichStatuses (atlasproject.initiateStatuses cpaSpecs)
               (atlasproject.sortAtlasCPAsByRoleID (mongodbatlas.AWSIAMRoles atlasCPAs))).
Proof.
  intros Hlist.
  unfold atlasproject.syncCloudProviderIntegration, bind, call.
  destruct (atlasproject.doListRoles Client projectID (atlas ctx)) as [res a'].
  simpl in Hlist. subst res.
  match goal with
  | |- context [atlasproject.syncLoop Client projectID ?l ?u ?e ?c] =>
      destruct (syncLoop_effects projectID l u e c) as (Hc & _ & _);
      destruct (atlasproject.syncLoop Client projectID l u e c)
        as [[[items toUpdate] withError] ctx3]
  end.
  cbv zeta in Hc. simpl in Hc.
  unfold EnsureStatusOption, ret. destruct withError; simpl;
    rewrite Hc, <- app_assoc; reflexivity.
Qed.

Lemma enrichStatuses_nil_remote (cpiStatuses : list status.CloudProviderIntegration) :
  atlasproject.enrichStatuses cpiStatuses [] = cpiStatuses.
Proof.
  unfold atlasproject.enrichStatuses. simpl.
  assert (Hmap : List.map (atlasproject.copyMatches []) cpiStatuses = cpiStatuses).
  { induction cpiStatuses as [| s rest IH]; simpl; [reflexivity | now rewrite IH]. }
  rewrite Hmap.
  assert (Hclaim : atlasproject.claimUnauthorized cpiStatuses [] = (cpiStatuses, [])).
  { clear Hmap. induction cpiStatuses as [| s rest IH]; simpl; [reflexivity |].
    destruct (atlasproject.isConfigured s); [| reflexivity].
    now rewrite IH. }
  rewrite Hclaim. simpl. now rewrite app_nil_r.
Qed.

(** X6. When the remote lists no role, the pass over the declared items
    asks for one role to be created per declared item, in the order
    declared, with the item's provider name, and for nothing else. *)
Theorem sync_on_empty_remote_creates_each_item (projectID : string)
    (cpaSpecs : list mdbv1.CloudProviderIntegration) (ctx : Context Atlas) :
  fst (atlasproject.doListRoles Client projectID (atlas ctx))
  = inr {| mongodbatlas.AWSIAMRoles := [] |} ->
  calls (snd (atlasproject.syncCloudProviderIntegration Client projectID cpaSpecs ctx))
  = calls ctx
    ++ ListRoles projectID
       :: List.map (fun cpaSpec => CreateRole projectID (mdbv1.ProviderName cpaSpec)) cpaSpecs.
Proof.
  intros Hlist.
  unfold atlasproject.syncCloudProviderIntegration, bind, call.
  destruct (atlasproject.doListRoles Client projectID (atlas ctx)) as [res a'].
  simpl in Hlist. subst res. simpl mongodbatlas.AWSIAMRoles.
  change (atlasproject.sortAtlasCPAsByRoleID []) with (@nil mongodbatlas.CloudProviderAccessRole).
  rewrite enrichStatuses_nil_remote.
  match goal with
  | |- context [atlasproject.syncLoop Client projectID ?l ?u ?e ?c] =>
      destruct (syncLoop_effects projectID l u e c) as (Hc & _ & _);
      destruct (atlasproject.syncLoop Client projectID l u e c)
        as [[[items toUpdate] withError] ctx3]
  end.
  cbv zeta in Hc. simpl in Hc.
  assert (Hcreate : flat_map (observed.callsFor projectID)
                      (atlasproject.initiateStatuses cpaSpecs)
                    = List.map (fun cpaSpec => CreateRole projectID (mdbv1.ProviderName cpaSpec))
                        cpaSpecs).
  { clear. induction cpaSpecs as [| c rest IH]; simpl; [reflexivity | now rewrite IH]. }
  unfold EnsureStatusOption, ret. destruct withError; simpl;
    rewrite Hc, Hcreate, <- app_assoc; reflexivity.
Qed.

(** X7. When the create call fails for an item in phase [New] or
    [FailedToCreate], the item is kept for persisting with phase
    [FailedToCreate] and the error message; a non-empty message sets
    [withError]; and the loop goes on to the items after it. *)
Theorem failed_create_is_persisted (projectID : string)
    (cpiStatus : status.CloudProviderIntegration)
    (rest toUpdate : list status.CloudProviderIntegration) (withError : bool)
    (ctx : Context Atlas) (err : error) :
  status.Status cpiStatus = status.CloudProviderIntegrationStatusNew
  \/ status.Status cpiStatus = status.CloudProviderIntegrationStatusFailedToCreate ->
  fst (atlasproject.doCreateRole Client projectID (status.ProviderName cpiStatus) (atlas ctx))
  = inl err ->
  let failed :=
    atlasproject.withFailure cpiStatus status.CloudProviderIntegrationStatusFailedToCreate err in
  forall (items toUpdate' : list status.CloudProviderIntegration) (withError' : bool)
         (ctx' : Context Atlas),
    atlasproject.syncLoop Client projectID (cpiStatus :: rest) toUpdate withError ctx
    = ((items, toUpdate', withError'), ctx') ->
    hd_error items = Some failed
    /\ length items = S (length rest)
    /\ (exists more, toUpdate' = toUpdate ++ failed :: more)
    /\ (err <> "" -> withError' = true).
Proof.
  intros Hphase Hcall failed items toUpdate' withError' ctx' Hloop.
  assert (Hitem : fst (atlasproject.syncItem Client projectID cpiStatus ctx) = (failed, true)).
  { unfold atlasproject.syncItem, atlasproject.createCloudProviderAccess.
    destruct Hphase as [-> | ->]; run;
      destruct (atlasproject.doCreateRole _ _ _ _) as [res a']; simpl in Hcall;
      subst res; reflexivity. }
  destruct (syncLoop_outcome _ _ _ _ _ _ _ _ _ _ Hloop) as [Hu [He Hl]].
  rewrite syncLoop_cons in Hloop.
  destruct (atlasproject.syncItem Client projectID cpiStatus ctx)
    as [[cpiStatus' appended] ctx1].
  simpl in Hitem. injection Hitem as -> ->.
  destruct (atlasproject.syncLoop _ _ _ _ _ _) as [[[rest' toUpdate1] withError1] ctx2].
  injection Hloop as <- <- <- <-.
  split; [reflexivity |]. split; [exact Hl |]. split.
  - rewrite Hu. simpl. unfold spec.pendingRemoval at 1. simpl. eauto.
  - intros Hne. rewrite He. simpl. unfold spec.hasError at 1. simpl.
    apply nonEmpty_true in Hne. rewrite Hne. now rewrite orb_true_r.
Qed.

(** X8. When the authorize call fails for an item in phase [Created] or
    [FailedToAuthorize] that has an ARN, the item is kept for persisting with
    phase [FailedToAuthorize] and the error message; a non-empty message
    sets [withError]; and the loop goes on to the items after it. *)
Theorem failed_authorize_is_persisted (projectID : string)
    (cpiStatus : status.CloudProviderIntegration)
    (rest toUpdate : list status.CloudProviderIntegration) (withError : bool)
    (ctx : Context Atlas) (err : error) :
  status.Status cpiStatus = status.CloudProviderIntegrationStatusCreated
  \/ status.Status cpiStatus = status.CloudProviderIntegrationStatusFailedToAuthorize ->
  status.IamAssumedRoleArn cpiStatus <> "" ->
  fst (atlasproject.doAuthorizeRole Client projectID (status.RoleID cpiStatus)
         (status.ProviderName cpiStatus) (status.IamAssumedRoleArn cpiStatus) (atlas ctx))
  = inl err ->
  let failed :=
    atlasproject.withFailure cpiStatus
      status.CloudProviderIntegrationStatusFailedToAuthorize err in
  forall (items toUpdate' : list status.CloudProviderIntegration) (withError' : bool)
         (ctx' : Context Atlas),
    atlasproject.syncLoop Client projectID (cpiStatus :: rest) toUpdate withError ctx
    = ((items, toUpdate', withError'), ctx') ->
    hd_error items = Some failed
    /\ length items = S (length rest)
    /\ (exists more, toUpdate' = toUpdate ++ failed :: more)
    /\ (err <> "" -> withError' = true).
Proof.
  intros Hphase Harn Hcall failed items toUpdate' withError' ctx' Hloop.
  apply nonEmpty_true in Harn.
  assert (Hitem : fst (atlasproject.syncItem Client projectID cpiStatus ctx) = (failed, true)).
  { unfold atlasproject.syncItem, atlasproject.authorizeCloudProviderAccess.
    destruct Hphase as [-> | ->]; rewrite Harn; run;
      destruct (atlasproject.doAuthorizeRole _ _ _ _ _ _) as [res a']; simpl in Hcall;
      subst res; reflexivity. }
  destruct (syncLoop_outcome _ _ _ _ _ _ _ _ _ _ Hloop) as [Hu [He Hl]].
  rewrite syncLoop_cons in Hloop.
  destruct (atlasproject.syncItem Client projectID cpiStatus ctx)
    as [[cpiStatus' appended] ctx1].
  simpl in Hitem. injection Hitem as -> ->.
  destruct (atlasproject.syncLoop _ _ _ _ _ _) as [[[rest' toUpdate1] withError1] ctx2].
  injection Hloop as <- <- <- <-.
  split; [reflexivity |]. split; [exact Hl |]. split.
  - rewrite Hu. simpl. unfold spec.pendingRemoval at 1. simpl. eauto.
  - intros Hne. rewrite He. simpl. unfold spec.hasError at 1. simpl.
    apply nonEmpty_true in Hne. rewrite Hne. now rewrite orb_true_r.
Qed.

End LoopCalls.

(** ** The outcomes of the pass *)
Section PassOutcomes.
Context {Atlas : Type}.
Context {order : set.Order atlasproject.CloudProviderIntegrationIdentifiable}.
Variable Client : atlasproject.CloudProviderAccessService (Atlas := Atlas).

Lemma sync_conditions (projectID : string) (cpaSpecs : list mdbv1.CloudProviderIntegration)
    (ctx : Context Atlas) :
  conditions (snd (atlasproject.syncCloudProviderIntegration Client projectID cpaSpecs ctx))
  = conditions ctx.
Proof.
  unfold atlasproject.syncCloudProviderIntegration, bind, call.
  destruct (atlasproject.doListRoles Client projectID (atlas ctx)) as [[err | atlasCPAs] a'];
    [reflexivity |].
  match goal with
  | |- context [atlasproject.syncLoop Client projectID ?l ?u ?e ?c] =>
      destruct (syncLoop_effects Client projectID l u e c) as (_ & Hcond & _);
      destruct (atlasproject.syncLoop Client projectID l u e c)
        as [[[items toUpdate] withError] ctx3]
  end.
  cbv zeta in Hcond. simpl in Hcond.
  unfold EnsureStatusOption, ret. now destruct withError.
Qed.

(** X9. Every pass updates the condition of the cloud provider
    integrations exactly once, and the update goes with the result: a
    [Terminate] is published as it is, an [InProgress] sets the condition to
    false, and [OK] removes the condition when there was nothing to
    synchronize and otherwise, after a synchronization, sets it to true,
    with the deprecation warning as its message exactly when the project
    declares its items under the deprecated field. *)
Theorem pass_updates_condition_once (project : mdbv1.AtlasProject) (protected : bool)
    (ctx : Context Atlas) :
  let run := atlasproject.ensureCloudProviderIntegration Client project protected ctx in
  exists u : ConditionUpdate,
    conditions (snd run) = conditions ctx ++ [u] /\ observed.mirrors project (fst run) u.
Proof.
  cbv zeta. unfold atlasproject.ensureCloudProviderIntegration, bind.
  destruct (atlasproject.canCloudProviderIntegrationReconcile Client protected project ctx)
    as [[canReconcile err] ctx1] eqn:Hcan.
  destruct (canReconcile_effects _ _ _ _ _ _ Hcan) as [Hcond _].
  destruct err as [err |].
  { simpl. rewrite Hcond. eexists. split; reflexivity. }
  destruct canReconcile; simpl;
    [| rewrite Hcond; eexists; split; reflexivity].
  pose proof (nothingToSynchronize_guard project) as Hguard.
  destruct (Nat.eqb _ 0 && Nat.eqb _ 0).
  { simpl. rewrite Hcond. eexists. split; [reflexivity |]. left. split; [| reflexivity].
    now apply Hguard. }
  assert (Hsome : ~ spec.nothingToSynchronize project).
  { intros Hn. apply Hguard in Hn. discriminate. }
  pose proof (sync_conditions (mdbv1.ID project)
                (atlasproject.getCloudProviderIntegrations (mdbv1.Spec project)) ctx1) as Hsync.
  destruct (atlasproject.syncCloudProviderIntegration Client (mdbv1.ID project)
              (atlasproject.getCloudProviderIntegrations (mdbv1.Spec project)) ctx1)
    as [[authorized err] ctx2].
  simpl in Hsync.
  destruct err as [err |]; simpl.
  { rewrite Hsync, Hcond. eexists. split; reflexivity. }
  destruct authorized; simpl; rewrite Hsync, Hcond; eexists; split; try reflexivity.
  right. split; [exact Hsome |].
  now destruct (mdbv1.CloudProviderAccessRoles (mdbv1.Spec project)).
Qed.

(** X10. When the resolver fails (the last-applied snapshot does not
    decode, or the roles cannot be listed), the pass ends with a [Terminate]
    of reason [Internal] whose message is "unable to resolve ownership for
    deletion protection: " followed by the error; it makes no further remote
    call and registers no status. *)
Theorem resolver_error_ends_pass (project : mdbv1.AtlasProject) (protected : bool)
    (ctx ctx1 : Context Atlas) (verdict : bool) (err : error) :
  atlasproject.canCloudProviderIntegrationReconcile Client protected project ctx
  = ((verdict, Some err), ctx1) ->
  let run := atlasproject.ensureCloudProviderIntegration Client project protected ctx in
  fst run
  = Terminate Internal ("unable to resolve ownership for deletion protection: " ++ err)%string
  /\ calls (snd run) = calls ctx1
  /\ mutations (calls (snd run)) = mutations (calls ctx)
  /\ cloudIntegrationsOption (snd run) = cloudIntegrationsOption ctx.
Proof.
  intros Hcan. cbv zeta.
  destruct (canReconcile_effects _ _ _ _ _ _ Hcan) as [_ [Hopt Hcalls]].
  unfold atlasproject.ensureCloudProviderIntegration, bind. rewrite Hcan. simpl.
  repeat split; [| exact Hopt].
  destruct Hcalls as [-> | [-> _]]; [apply mutations_ListRoles | reflexivity].
Qed.

(** X11. The resolver returns an error exactly for a protected resource
    whose last-applied snapshot does not decode or, the snapshot decoding,
    whose roles cannot be listed; its verdict is then "not permitted". *)
Theorem resolver_errs_iff (project : mdbv1.AtlasProject) (protected : bool)
    (ctx : Context Atlas) (err : error) :
  let outcome :=
    fst (atlasproject.canCloudProviderIntegrationReconcile Client protected project ctx) in
  snd outcome = Some err <->
  protected = true
  /\ (atlasproject.unmarshalLastApplied project = inl err
      \/ (exists latestConfig, atlasproject.unmarshalLastApplied project = inr latestConfig)
         /\ fst (atlasproject.doListRoles Client (mdbv1.ID project) (atlas ctx)) = inl err).
Proof.
  cbv zeta. unfold atlasproject.canCloudProviderIntegrationReconcile.
  destruct protected; simpl.
  - destruct (atlasproject.unmarshalLastApplied project) as [e | latestConfig]; run.
    + split.
      * intros [= ->]. auto.
      * intros [_ [[= ->] | [[l Hl] _]]]; [reflexivity | discriminate].
    + destruct (atlasproject.doListRoles Client (mdbv1.ID project) (atlas ctx))
        as [[e | list_] a']; simpl.
      * split.
        -- intros [= ->]. split; [reflexivity |]. right. eauto.
        -- intros [_ [Hd | [_ [= ->]]]]; [discriminate | reflexivity].
      * repeat match goal with
               | |- context [if Nat.eqb ?n 0 then _ else _] => destruct (Nat.eqb n 0)
               end; simpl;
          (split; [discriminate | intros [_ [Hd | [_ Hl]]]; discriminate]).
  - split; [discriminate | intros [Hp _]; discriminate].
Qed.

(** X12. When the resolver permits, there is something to synchronize,
    and the listing of the roles made by the synchronization fails, the pass
    ends with a [Terminate] whose message is "unable to fetch cloud provider
    access from Atlas: " followed by the error; it makes no create, authorize
    or deauthorize call and registers no status. *)
Theorem fetch_failure_ends_pass (project : mdbv1.AtlasProject) (protected : bool)
    (ctx ctx1 : Context Atlas) (err : error) :
  atlasproject.canCloudProviderIntegrationReconcile Client protected project ctx
  = ((true, None), ctx1) ->
  atlasproject.getCloudProviderIntegrations (mdbv1.Spec project) <> []
  \/ mdbv1.StatusCloudProviderIntegrations (mdbv1.Status project) <> [] ->
  fst (atlasproject.doListRoles Client (mdbv1.ID project) (atlas ctx1)) = inl err ->
  let run := atlasproject.ensureCloudProviderIntegration Client project protected ctx in
  fst run
  = Terminate ProjectCloudIntegrationsIsNotReadyInAtlas
      ("unable to fetch cloud provider access from Atlas: " ++ err)%string
  /\ mutations (calls (snd run)) = mutations (calls ctx)
  /\ cloudIntegrationsOption (snd run) = cloudIntegrationsOption ctx.
Proof.
  intros Hcan Hsome Hlist. cbv zeta.
  destruct (canReconcile_effects _ _ _ _ _ _ Hcan) as [_ [Hopt Hcalls]].
  assert (Hmut : mutations (calls ctx1) = mutations (calls ctx)).
  { destruct Hcalls as [-> | [-> _]]; [apply mutations_ListRoles | reflexivity]. }
  unfold atlasproject.ensureCloudProviderIntegration, bind. rewrite Hcan. simpl.
  assert (Hguard : Nat.eqb (length (atlasproject.getCloudProviderIntegrations
                                      (mdbv1.Spec project))) 0
                   && Nat.eqb (length (mdbv1.StatusCloudProviderIntegrations
                                         (mdbv1.Status project))) 0 = false).
  { apply andb_false_iff.
    destruct Hsome as [Hs | Hs]; [left | right];
      apply not_true_iff_false; intros E; apply length_eqb_0 in E; contradiction. }
  rewrite Hguard.
  unfold atlasproject.syncCloudProviderIntegration, bind, call.
  destruct (atlasproject.doListRoles Client (mdbv1.ID project) (atlas ctx1)) as [res a'].
  simpl in Hlist. subst res. simpl.
  rewrite mutations_ListRoles. auto.
Qed.

(** X13. With nothing declared and no status persisted, a pass that the
    resolver permits ends with [OK] after removing the condition; it makes no
    call besides the resolver's, so the roles that the remote may hold are
    left as they are. *)
Theorem nothing_declared_nothing_done (project : mdbv1.AtlasProject) (protected : bool)
    (ctx ctx1 : Context Atlas) :
  atlasproject.canCloudProviderIntegrationReconcile Client protected project ctx
  = ((true, None), ctx1) ->
  atlasproject.getCloudProviderIntegrations (mdbv1.Spec project) = [] ->
  mdbv1.StatusCloudProviderIntegrations (mdbv1.Status project) = [] ->
  atlasproject.ensureCloudProviderIntegration Client project protected ctx
  = (OK,
     {| atlas := atlas ctx1;
        calls := calls ctx1;
        conditions :=
          conditions ctx1 ++ [UnsetCondition status.CloudProviderIntegrationReadyType];
        cloudIntegrationsOption := cloudIntegrationsOption ctx1 |}).
Proof.
  intros Hcan Hspecs Hstatus.
  unfold atlasproject.ensureCloudProviderIntegration, bind. rewrite Hcan. simpl.
  now rewrite Hspecs, Hstatus.
Qed.

(** X14. When every listed role that has an ARN is, by provider name and
    ARN, an item of the last-applied configuration, the resolver permits,
    whatever the current desired configuration holds. *)
Theorem known_remote_is_permitted (project : mdbv1.AtlasProject) (protected : bool)
    (ctx : Context Atlas) (latestConfig : mdbv1.AtlasProjectSpec)
    (list_ : mongodbatlas.CloudProviderAccessRoles) :
  atlasproject.unmarshalLastApplied project = inr latestConfig ->
  fst (atlasproject.doListRoles Client (mdbv1.ID project) (atlas ctx)) = inr list_ ->
  (forall r, In r (mongodbatlas.AWSIAMRoles list_) ->
             mongodbatlas.IAMAssumedRoleARN r <> "" ->
             exists item, In item (atlasproject.getCloudProviderIntegrations latestConfig)
                          /\ mdbv1.ProviderName item = mongodbatlas.ProviderName r
                          /\ mdbv1.IamAssumedRoleArn item = mongodbatlas.IAMAssumedRoleARN r) ->
  fst (atlasproject.canCloudProviderIntegrationReconcile Client protected project ctx)
  = (true, None).
Proof.
  intros Hdec Hlist Hknown. destruct protected; [| reflexivity].
  rewrite (canReconcile_listed _ _ _ _ _ Hdec Hlist). cbv zeta.
  destruct (Nat.eqb (length (atlasproject.atlasListOf (mongodbatlas.AWSIAMRoles list_))) 0);
    [reflexivity |].
  assert (Hdiff : set.Difference (atlasproject.atlasListOf (mongodbatlas.AWSIAMRoles list_))
                    (atlasproject.getCloudProviderIntegrations latestConfig) = []).
  { apply Difference_nil. intros a Ha.
    unfold atlasproject.atlasListOf in Ha. apply in_map_iff in Ha as [r [<- Hr]].
    apply filter_In in Hr as [Hr Harn]. apply nonEmpty_true in Harn.
    destruct (Hknown r Hr Harn) as [item [Hin [Hp Ha]]].
    split; [apply Identifier_nonEmpty |].
    exists item. split; [exact Hin |].
    unfold set.Identifier, atlasproject.CloudProviderIntegrationIdentifiable_Identifiable.
    simpl. now rewrite Hp, Ha. }
  unfold atlasproject.CloudProviderIntegrationIdentifiable in *.
  now rewrite Hdiff.
Qed.

(** X15. While the deprecated [CloudProviderAccessRoles] of a project are
    not empty, its [CloudProviderIntegrations] play no part: two projects
    that differ only there go through the same pass. *)
Theorem deprecated_roles_shadow_integrations (project : mdbv1.AtlasProject)
    (integrations : list mdbv1.CloudProviderIntegration) (protected : bool)
    (ctx : Context Atlas) :
  mdbv1.CloudProviderAccessRoles (mdbv1.Spec project) <> [] ->
  atlasproject.ensureCloudProviderIntegration Client
    {| mdbv1.ID := mdbv1.ID project;
       mdbv1.AnnotationLastAppliedConfiguration :=
         mdbv1.AnnotationLastAppliedConfiguration project;
       mdbv1.Spec :=
         {| mdbv1.CloudProviderAccessRoles := mdbv1.CloudProviderAccessRoles (mdbv1.Spec project);
            mdbv1.CloudProviderIntegrations := integrations |};
       mdbv1.Status := mdbv1.Status project |}
    protected ctx
  = atlasproject.ensureCloudProviderIntegration Client project protected ctx.
Proof.
  destruct project as [id ann [roles current] st]. simpl. intros Hroles.
  destruct roles as [| role roles]; [contradiction |].
  reflexivity.
Qed.

End PassOutcomes.

(** ** Sorting and the exact-identifier pass *)

(** X1. [sortAtlasCPAsByRoleID] returns the roles it is given, each as
    often as given, in ascending order of role id. *)
Theorem sortAtlasCPAsByRoleID_orders_the_roles
    (atlasCPAs : list mongodbatlas.CloudProviderAccessRole) :
  Permutation atlasCPAs (atlasproject.sortAtlasCPAsByRoleID atlasCPAs)
  /\ StronglySorted atlasproject.roleIDLe (atlasproject.sortAtlasCPAsByRoleID atlasCPAs).
Proof.
  split; [apply sortSlice_Permutation | apply sortAtlasCPAsByRoleID_sorted].
Qed.

Lemma copyCloudProviderAccessData_twice (cpiStatus : status.CloudProviderIntegration)
    (atlasCPA : mongodbatlas.CloudProviderAccessRole) :
  atlasproject.copyCloudProviderAccessData
    (atlasproject.copyCloudProviderAccessData cpiStatus atlasCPA) atlasCPA
  = atlasproject.copyCloudProviderAccessData cpiStatus atlasCPA.
Proof.
  unfold atlasproject.copyCloudProviderAccessData. simpl.
  destruct (Nat.ltb 0 (length (mongodbatlas.FeatureUsages atlasCPA))); reflexivity.
Qed.

(** When all the roles that match a status are one role, the first loop
    leaves the status with the data of that role. *)
Lemma copyMatches_single (atlasCPAs : list mongodbatlas.CloudProviderAccessRole)
    (r : mongodbatlas.CloudProviderAccessRole) :
  forall cpiStatus : status.CloudProviderIntegration,
    (forall r', In r' atlasCPAs -> atlasproject.isMatch cpiStatus r' = true -> r' = r) ->
    atlasproject.copyMatches atlasCPAs cpiStatus
    = if existsb (atlasproject.isMatch cpiStatus) atlasCPAs
      then atlasproject.copyCloudProviderAccessData cpiStatus r
      else cpiStatus.
Proof.
  unfold atlasproject.copyMatches.
  induction atlasCPAs as [| cpa rest IH]; intros cpiStatus Hone; simpl; [reflexivity |].
  destruct (atlasproject.isMatch cpiStatus cpa) eqn:Hm; simpl.
  - assert (cpa = r) by (apply Hone; [now left | exact Hm]). subst cpa.
    rewrite IH.
    + rewrite copyCloudProviderAccessData_twice. now destruct (existsb _ rest).
    + intros r' Hin Hm'. apply Hone; [now right | exact Hm'].
  - apply IH. intros r' Hin. apply Hone. now right.
Qed.

(** X2. A declared item that has an ARN, and whose provider name and
    ARN exactly one listed role has, takes the data of that role (role id,
    dates, Atlas account, feature usages, and the phase [Authorized] or
    [Created] by the role's authorized date) and, that role having a role
    id, keeps it through the rest of the matching. *)
Theorem declared_item_takes_its_role
    (cpiSpecs : list mdbv1.CloudProviderIntegration)
    (atlasCPAs : list mongodbatlas.CloudProviderAccessRole)
    (i : nat) (cpiSpec : mdbv1.CloudProviderIntegration)
    (r : mongodbatlas.CloudProviderAccessRole) :
  nth_error cpiSpecs i = Some cpiSpec ->
  In r atlasCPAs ->
  mdbv1.IamAssumedRoleArn cpiSpec <> "" ->
  mongodbatlas.RoleID r <> "" ->
  (forall r', In r' atlasCPAs ->
              (mongodbatlas.ProviderName r' = mdbv1.ProviderName cpiSpec
               /\ mongodbatlas.IAMAssumedRoleARN r' = mdbv1.IamAssumedRoleArn cpiSpec)
              <-> r' = r) ->
  nth_error
    (atlasproject.enrichStatuses (atlasproject.initiateStatuses cpiSpecs)
       (atlasproject.sortAtlasCPAsByRoleID atlasCPAs)) i
  = Some (atlasproject.copyCloudProviderAccessData
            (status.NewCloudProviderIntegration
               (mdbv1.ProviderName cpiSpec) (mdbv1.IamAssumedRoleArn cpiSpec)) r).
Proof.
  intros Hi Hr Harn Hid Hone.
  set (AWSRoles := atlasproject.sortAtlasCPAsByRoleID atlasCPAs).
  set (new := status.NewCloudProviderIntegration
                (mdbv1.ProviderName cpiSpec) (mdbv1.IamAssumedRoleArn cpiSpec)).
  assert (Hperm : forall x, In x AWSRoles <-> In x atlasCPAs).
  { intros x. split; apply Permutation_in; [symmetry |]; apply sortSlice_Permutation. }
  assert (Hmatch : forall r', In r' AWSRoles ->
                     (atlasproject.isMatch new r' = true <-> r' = r)).
  { intros r' Hin. apply Hperm in Hin. rewrite <- (Hone r' Hin).
    unfold atlasproject.isMatch, new. simpl.
    rewrite !andb_true_iff, !String.eqb_eq, !nonEmpty_true. split.
    - tauto.
    - intros [Hp Ha]. repeat split; congruence. }
  assert (Hcopy : atlasproject.copyMatches AWSRoles new
                  = atlasproject.copyCloudProviderAccessData new r).
  { rewrite (copyMatches_single AWSRoles r).
    - assert (Hex : existsb (atlasproject.isMatch new) AWSRoles = true).
      { apply existsb_exists. exists r. split; [now apply Hperm |].
        apply Hmatch; [now apply Hperm | reflexivity]. }
      now rewrite Hex.
    - intros r' Hin Hm. now apply (Hmatch r' Hin). }
  set (matched := List.map (atlasproject.copyMatches AWSRoles)
                    (atlasproject.initiateStatuses cpiSpecs)).
  assert (Hm : nth_error matched i = Some (atlasproject.copyCloudProviderAccessData new r)).
  { unfold matched, atlasproject.initiateStatuses.
    rewrite List.map_map, (List.map_nth_error _ _ _ Hi). now rewrite <- Hcopy. }
  pose proof (claimUnauthorized_nth matched (atlasproject.unauthorizedRoles AWSRoles) i _ Hm)
    as Hnth.
  pose proof (claimUnauthorized_length matched (atlasproject.unauthorizedRoles AWSRoles))
    as Hlen.
  unfold atlasproject.enrichStatuses. fold matched.
  destruct (atlasproject.claimUnauthorized matched (atlasproject.unauthorizedRoles AWSRoles))
    as [claimed left].
  simpl in Hnth, Hlen.
  rewrite nth_error_app1 by (rewrite Hlen; apply nth_error_Some; congruence).
  rewrite Hnth. f_equal.
  assert (Hconf : atlasproject.isConfigured (atlasproject.copyCloudProviderAccessData new r)
                  = true).
  { unfold atlasproject.isConfigured. simpl.
    apply nonEmpty_true in Harn, Hid. now rewrite Harn, Hid. }
  now rewrite Hconf.
Qed.

(** * Further properties of the private endpoint pass *)
Section PrivateEndpointPass.
Context {Atlas : Type}.
Context {order : set.Order mdbv1.DataFederationPE}.
Variable clientDF : atlasdatafederation.DataFederationServiceOp (Atlas := Atlas).

Lemma syncPrivateEndpoints_conditions (projectID : string)
    (specPEs atlasPEs : list mdbv1.DataFederationPE) (ctx : Context Atlas) :
  conditions (snd (atlasdatafederation.syncPrivateEndpointsWithAtlas clientDF projectID
                     specPEs atlasPEs ctx))
  = conditions ctx.
Proof.
  exact (proj1 (syncPrivateEndpoints_replay clientDF projectID specPEs atlasPEs ctx)).
Qed.

(** X16. [syncPrivateEndpointsWithAtlas], against the answers that the
    remote gives to the create calls for the endpoints to create and then,
    from the state these leave, to the delete calls for the endpoints to
    delete. When a create call fails, the pass ends with a [Terminate] of
    reason [Internal] carrying the error of the first that fails, after the
    create calls up to that one and without any delete call. When no create
    call fails, all create calls are issued and then the delete calls, up to
    the first that fails, whose error is returned in the same way; [OK] is
    returned only after all calls of both kinds were issued and none failed.
    No condition is updated. *)
Theorem sync_creates_before_it_deletes (projectID : string)
    (specPEs atlasPEs : list mdbv1.DataFederationPE) (ctx : Context Atlas) :
  let endpointsToCreate := set.Difference specPEs atlasPEs in
  let endpointsToDelete := set.Difference atlasPEs specPEs in
  let run := atlasdatafederation.syncPrivateEndpointsWithAtlas clientDF projectID
               specPEs atlasPEs ctx in
  let created :=
    observed.replay (atlasdatafederation.doCreateOnePrivateEndpoint clientDF projectID)
      endpointsToCreate (atlas ctx) in
  let deleted :=
    observed.replay
      (fun e => atlasdatafederation.doDeleteOnePrivateEndpoint clientDF projectID
                  (mdbv1.EndpointID e))
      endpointsToDelete (snd created) in
  let creates := List.map (CreateOnePrivateEndpoint projectID) in
  let deletes :=
    List.map (fun e => DeleteOnePrivateEndpoint projectID (mdbv1.EndpointID e)) in
  conditions (snd run) = conditions ctx
  /\ (forall i err,
        observed.firstFailure (fst created) = Some (i, err) ->
        fst run = Terminate Internal err
        /\ calls (snd run) = calls ctx ++ creates (firstn (S i) endpointsToCreate))
  /\ (Forall (fun answer => answer = None) (fst created) ->
      (forall j err,
         observed.firstFailure (fst deleted) = Some (j, err) ->
         fst run = Terminate Internal err
         /\ calls (snd run)
            = calls ctx ++ creates endpointsToCreate
              ++ deletes (firstn (S j) endpointsToDelete))
      /\ (Forall (fun answer => answer = None) (fst deleted) ->
          fst run = OK
          /\ calls (snd run)
             = calls ctx ++ creates endpointsToCreate ++ deletes endpointsToDelete
          /\ atlas (snd run) = snd deleted))
  /\ (fst run = OK ->
      Forall (fun answer => answer = None) (fst created)
      /\ Forall (fun answer => answer = None) (fst deleted))
  /\ ((exists e, In (DeleteOnePrivateEndpoint projectID e) (calls (snd run))
                 /\ ~ In (DeleteOnePrivateEndpoint projectID e) (calls ctx)) ->
      Forall (fun answer => answer = None) (fst created)).
Proof.
  cbv zeta.
  destruct (syncPrivateEndpoints_replay clientDF projectID specPEs atlasPEs ctx)
    as [Hcond Hrun].
  cbv zeta in Hrun.
  split; [exact Hcond |].
  destruct (observed.firstFailure
              (fst (observed.replay
                      (atlasdatafederation.doCreateOnePrivateEndpoint clientDF projectID)
                      (set.Difference specPEs atlasPEs) (atlas ctx))))
    as [[i err] |] eqn:Hfirst.
  - destruct Hrun as [Hres Hcalls].
    split; [intros i' err' [= <- <-]; auto |].
    split; [intros Hall; apply firstFailure_None in Hall; congruence |].
    split; [intros Hok; congruence |].
    intros [e [Hin Hnew]]. exfalso. rewrite Hcalls in Hin.
    apply in_app_or in Hin as [Hin | Hin]; [contradiction |].
    apply in_map_iff in Hin as [x [Hx _]]. discriminate.
  - apply firstFailure_None in Hfirst.
    split; [congruence |].
    destruct (observed.firstFailure
                (fst (observed.replay
                        (fun e => atlasdatafederation.doDeleteOnePrivateEndpoint clientDF
                                    projectID (mdbv1.EndpointID e))
                        (set.Difference atlasPEs specPEs) _)))
      as [[j err] |] eqn:Hsecond.
    + destruct Hrun as [Hres Hcalls].
      split; [| split; [intros Hok; congruence | auto]].
      intros _. split; [intros j' err' [= <- <-]; auto |].
      intros Hall. apply firstFailure_None in Hall. congruence.
    + apply firstFailure_None in Hsecond.
      split; [| split; [auto | auto]].
      intros _. split; [congruence | auto].
Qed.

(** X17. When the declared private endpoints all have an identifier and
    the declared and the remote private endpoints have the same identifiers,
    [syncPrivateEndpointsWithAtlas] returns [OK] and does nothing: no call,
    no change of the context. *)
Theorem sync_in_step_does_nothing (projectID : string)
    (specPEs atlasPEs : list mdbv1.DataFederationPE) (ctx : Context Atlas) :
  (forall e, In e specPEs ->
             mdbv1.EndpointID e <> ""
             /\ exists r, In r atlasPEs /\ mdbv1.EndpointID r = mdbv1.EndpointID e) ->
  (forall r, In r atlasPEs ->
             exists e, In e specPEs /\ mdbv1.EndpointID e = mdbv1.EndpointID r) ->
  atlasdatafederation.syncPrivateEndpointsWithAtlas clientDF projectID specPEs atlasPEs ctx
  = (OK, ctx).
Proof.
  intros Hspec Hatlas.
  unfold atlasdatafederation.syncPrivateEndpointsWithAtlas.
  assert (Hcreate : set.Difference specPEs atlasPEs = []) by now apply Difference_nil.
  assert (Hdelete : set.Difference atlasPEs specPEs = []).
  { apply Difference_nil. intros r Hr. destruct (Hatlas r Hr) as [e [He Heq]].
    split; [| eauto]. change (mdbv1.EndpointID r <> ""). rewrite <- Heq.
    now apply (Hspec e He). }
  rewrite Hcreate, Hdelete. reflexivity.
Qed.

(** X18. [ensurePrivateEndpoints] updates the condition of the private
    endpoints only when the synchronization does not end with [OK], and then
    once, from the result it returns; a pass that ends with [OK] leaves the
    conditions as they were. *)
Theorem ensure_publishes_failures_only (projectID : string)
    (specPEs : list mdbv1.DataFederationPE) (ctx : Context Atlas) :
  let run := atlasdatafederation.ensurePrivateEndpoints clientDF projectID specPEs ctx in
  (fst run = OK -> conditions (snd run) = conditions ctx)
  /\ (fst run <> OK ->
      conditions (snd run)
      = conditions ctx ++ [SetConditionFromResult status.DataFederationPEReadyType (fst run)]).
Proof.
  cbv zeta.
  unfold atlasdatafederation.ensurePrivateEndpoints,
    atlasdatafederation.getAllDataFederationPEs, bind, call.
  destruct (atlasdatafederation.doGetAllPrivateEndpoints clientDF projectID (atlas ctx))
    as [[endpoints err] a']. simpl.
  match goal with
  | |- context [atlasdatafederation.syncPrivateEndpointsWithAtlas clientDF projectID
                  specPEs ?l ?c] =>
      pose proof (syncPrivateEndpoints_conditions projectID specPEs l c) as Hcond;
      destruct (atlasdatafederation.syncPrivateEndpointsWithAtlas clientDF projectID
                  specPEs l c) as [result ctx2]
  end.
  simpl in Hcond. destruct result; simpl; rewrite ?Hcond; split; congruence.
Qed.

End PrivateEndpointPass.

(** * Properties of the federated authentication controller *)

Ltac not_in_steps :=
  let H := fresh "H" in
  intros H; cbn in H; repeat (destruct H as [H | H]; [discriminate H |]); exact H.

Ltac in_steps := cbn; repeat (first [left; reflexivity | right]).

Ltac gate_closed :=
  let G := fresh "G" in
  split;
  [split; [intros G; exfalso; revert G; not_in_steps
          | intros G; decompose [and] G; discriminate]
  | intros G; decompose [and] G; discriminate].

(** X19. A run of [Reconcile] invokes [ensureFederatedAuth] exactly when
    the resource is prepared, reconciliation is not skipped, the resource
    version is valid, the resource is supported, the SDK client is obtained,
    and the ownership check answers "owner" without error. The run then
    returns the result of [ensureFederatedAuth], publishes it on the
    conditions [FederatedAuthReadyType] and [ReadyType], in this order, and
    ends with the status update. *)
Theorem reconcile_reaches_ensure_iff (a : atlasfederatedauth.Answers) :
  let gates :=
    atlasfederatedauth.IsOk (atlasfederatedauth.prepareResource a) = true
    /\ atlasfederatedauth.reconciliationShouldBeSkipped a = false
    /\ atlasfederatedauth.IsOk (atlasfederatedauth.validateResourceVersion a) = true
    /\ atlasfederatedauth.isResourceSupported a = true
    /\ atlasfederatedauth.sdkClient a = None
    /\ atlasfederatedauth.isOwner a = (true, None) in
  let run := atlasfederatedauth.Reconcile a in
  (In atlasfederatedauth.EnsureFederatedAuth (snd run) <-> gates)
  /\ (gates ->
      fst run = atlasfederatedauth.ensureFederatedAuth a
      /\ exists before,
           snd run
           = before
             ++ [atlasfederatedauth.EnsureFederatedAuth;
                 atlasfederatedauth.SetConditionFromResult
                   atlasfederatedauth.FederatedAuthReadyType (fst run);
                 atlasfederatedauth.SetConditionFromResult
                   atlasfederatedauth.ReadyType (fst run);
                 atlasfederatedauth.StatusUpdate]
           /\ ~ In atlasfederatedauth.EnsureFederatedAuth before).
Proof.
  cbv zeta. unfold atlasfederatedauth.Reconcile.
  destruct a as [prep skip zero fin ver sup sdk [owner oerr] ens]. cbn.
  destruct (atlasfederatedauth.IsOk prep); cbn; [| gate_closed].
  destruct skip; cbn.
  { destruct zero; cbn; [| destruct fin; cbn]; gate_closed. }
  destruct (atlasfederatedauth.IsOk ver); cbn; [| gate_closed].
  destruct sup; cbn; [| gate_closed].
  destruct sdk as [err |]; cbn; [gate_closed |].
  destruct owner, oerr as [err |]; cbn; [gate_closed | | gate_closed | gate_closed].
  split.
  - split; [auto 10 | intros _; auto 10].
  - intros _. split; [reflexivity |].
    exists [atlasfederatedauth.PrepareResource; atlasfederatedauth.MarkReconciliationStarted;
            atlasfederatedauth.ValidateResourceVersion; atlasfederatedauth.IsResourceSupported;
            atlasfederatedauth.SdkClient; atlasfederatedauth.IsOwner].
    split; [reflexivity | not_in_steps].
Qed.

Ltac steps_end_with_update :=
  match goal with
  | |- exists before, ?l = _ /\ _ =>
      exists (removelast l); split; [reflexivity | not_in_steps]
  end.

Ltac never_started :=
  let G := fresh "G" in
  split; [| split];
  [ split; [intros G; exfalso; revert G; not_in_steps
           | intros G; decompose [and] G; discriminate]
  | split; [intros G; exfalso; revert G; not_in_steps
           | intros G; decompose [and] G; discriminate]
  | intros G; decompose [and] G; discriminate ].

Ltac started_and_updated :=
  split; [| split];
  [ split; [auto | intros _; in_steps]
  | split; [auto | intros _; in_steps]
  | intros _; steps_end_with_update ].

(** X20. The deferred status update of [Reconcile] runs exactly in the
    runs that start the reconciliation (the resource is prepared and the
    reconciliation is not skipped); it is then the last step of the run and
    happens once. *)
Theorem reconcile_updates_status_iff_started (a : atlasfederatedauth.Answers) :
  let steps := snd (atlasfederatedauth.Reconcile a) in
  let started :=
    atlasfederatedauth.IsOk (atlasfederatedauth.prepareResource a) = true
    /\ atlasfederatedauth.reconciliationShouldBeSkipped a = false in
  (In atlasfederatedauth.StatusUpdate steps <-> started)
  /\ (In atlasfederatedauth.MarkReconciliationStarted steps <-> started)
  /\ (started ->
      exists before,
        steps = before ++ [atlasfederatedauth.StatusUpdate]
        /\ ~ In atlasfederatedauth.StatusUpdate before).
Proof.
  cbv zeta. unfold atlasfederatedauth.Reconcile.
  destruct a as [prep skip zero fin ver sup sdk [owner oerr] ens]. cbn.
  destruct (atlasfederatedauth.IsOk prep); cbn; [| never_started].
  destruct skip; cbn.
  { destruct zero; cbn; [| destruct fin; cbn]; never_started. }
  destruct (atlasfederatedauth.IsOk ver); cbn; [| started_and_updated].
  destruct sup; cbn; [| started_and_updated].
  destruct sdk as [err |]; cbn; [started_and_updated |].
  destruct owner, oerr as [err |]; cbn; started_and_updated.
Qed.

(** X21. A run of [Reconcile] on a prepared resource whose
    reconciliation is to be skipped does nothing but remove the finalizer,
    and that exactly when the resource is being deleted: no condition is set,
    no status is updated, [ensureFederatedAuth] is not invoked. It returns
    [OK], unless the removal of the finalizer fails, which gives a
    [Terminate] of reason [Internal] with the error. *)
Theorem skipped_reconcile_only_removes_finalizer (a : atlasfederatedauth.Answers) :
  atlasfederatedauth.IsOk (atlasfederatedauth.prepareResource a) = true ->
  atlasfederatedauth.reconciliationShouldBeSkipped a = true ->
  let run := atlasfederatedauth.Reconcile a in
  (In atlasfederatedauth.ManageFinalizerUnset (snd run)
   <-> atlasfederatedauth.deletionTimestampIsZero a = false)
  /\ (forall step, In step (snd run) ->
                   step = atlasfederatedauth.PrepareResource
                   \/ step = atlasfederatedauth.ManageFinalizerUnset)
  /\ fst run
     = match atlasfederatedauth.deletionTimestampIsZero a,
             atlasfederatedauth.manageFinalizer a with
       | false, Some err => atlasfederatedauth.terminate atlasfederatedauth.Internal err
       | _, _ => atlasfederatedauth.ok
       end.
Proof.
  unfold atlasfederatedauth.Reconcile.
  destruct a as [prep skip zero fin ver sup sdk [owner oerr] ens]. cbn.
  intros -> ->. cbn.
  destruct zero; cbn; [| destruct fin; cbn];
    (split; [| split]; [| | reflexivity]);
    try (split; [intros G; exfalso; revert G; not_in_steps | discriminate]);
    try (split; [reflexivity | intros _; in_steps]);
    intros step H; cbn in H; intuition.
Qed.

Section ManagedByAtlasFacts.
Context {Atlas FederationSettings ConnectedOrgConfig ProjectList FederatedAuthSpec : Type}.
Variable GetId : FederationSettings -> string.
Variable GetIdentityProviderId : ConnectedOrgConfig -> string.
Variable ToAtlas :
  FederatedAuthSpec -> string -> string -> ProjectList -> error + ConnectedOrgConfig.
Variable federatedSettingsAreEqual : ConnectedOrgConfig -> ConnectedOrgConfig -> bool.
Variable atlasClient :
  atlasfederatedauth.FederatedAuthenticationApi
    (Atlas := Atlas) (FederationSettings := FederationSettings)
    (ConnectedOrgConfig := ConnectedOrgConfig) (ProjectList := ProjectList).

(** X22. The checker of [managedByAtlas] answers without error exactly
    when the resource is an [AtlasFederatedAuth], the three lookups succeed
    in turn (federation settings, connected organisation configuration of
    these settings, project list) and the spec converts; it then answers
    "managed" exactly when the converted spec and the remote configuration
    are not equal. With an error the answer is "not managed"; when the
    first lookup fails its error is returned and no other lookup is made. *)
Theorem managedByAtlas_answers (orgID : string)
    (resource : atlasfederatedauth.AtlasCustomResource (FederatedAuthSpec := FederatedAuthSpec))
    (a : Atlas) :
  let run :=
    atlasfederatedauth.managedByAtlas GetId GetIdentityProviderId ToAtlas
      federatedSettingsAreEqual atlasClient orgID resource a in
  let managed := fst (fst (fst run)) in
  let err := snd (fst (fst run)) in
  let made := snd run in
  (err <> None -> managed = false)
  /\ (err = None <->
      exists fedauthSpec settings config projects converted a1 a2 a3,
        resource = atlasfederatedauth.AtlasFederatedAuth fedauthSpec
        /\ atlasfederatedauth.doGetFederationSettings atlasClient orgID a = (inr settings, a1)
        /\ atlasfederatedauth.doGetConnectedOrgConfig atlasClient (GetId settings) orgID a1
           = (inr config, a2)
        /\ atlasfederatedauth.doPrepareProjectList atlasClient a2 = (inr projects, a3)
        /\ ToAtlas fedauthSpec orgID (GetIdentityProviderId config) projects = inr converted
        /\ managed = negb (federatedSettingsAreEqual converted config)
        /\ made = [atlasfederatedauth.GetFederationSettings orgID;
                   atlasfederatedauth.GetConnectedOrgConfig (GetId settings) orgID;
                   atlasfederatedauth.PrepareProjectList])
  /\ (forall fedauthSpec e,
         resource = atlasfederatedauth.AtlasFederatedAuth fedauthSpec ->
         fst (atlasfederatedauth.doGetFederationSettings atlasClient orgID a) = inl e ->
         err = Some e /\ made = [atlasfederatedauth.GetFederationSettings orgID]).
Proof.
  cbv zeta. unfold atlasfederatedauth.managedByAtlas.
  destruct resource as [fedauthSpec |]; cbn.
  2: { split; [reflexivity |]. split.
       - split; [discriminate |]. intros (? & ? & ? & ? & ? & ? & ? & ? & H & _). discriminate.
       - intros ? ? H. discriminate. }
  destruct (atlasfederatedauth.doGetFederationSettings atlasClient orgID a)
    as [[e | settings] a1] eqn:H1; cbn.
  { split; [reflexivity |]. split.
    - split; [discriminate |].
      intros (? & ? & ? & ? & ? & ? & ? & ? & _ & H & _). discriminate.
    - intros ? e' _ [= <-]. auto. }
  destruct (atlasfederatedauth.doGetConnectedOrgConfig atlasClient (GetId settings) orgID a1)
    as [[e | config] a2] eqn:H2; cbn.
  { split; [reflexivity |]. split.
    - split; [discriminate |].
      intros (? & ? & ? & ? & ? & ? & ? & ? & _ & [= <- <-] & H & _).
      rewrite H2 in H. discriminate.
    - intros ? e' _ H. discriminate. }
  destruct (atlasfederatedauth.doPrepareProjectList atlasClient a2)
    as [[e | projects] a3] eqn:H3; cbn.
  { split; [reflexivity |]. split.
    - split; [discriminate |].
      intros (? & ? & ? & ? & ? & ? & ? & ? & _ & [= <- <-] & H & H' & _).
      rewrite H2 in H. injection H as <- <-. rewrite H3 in H'. discriminate.
    - intros ? e' _ H. discriminate. }
  destruct (ToAtlas fedauthSpec orgID (GetIdentityProviderId config) projects)
    as [e | converted] eqn:H4; cbn.
  { split; [reflexivity |]. split.
    - split; [discriminate |].
      intros (? & ? & ? & ? & ? & ? & ? & ? & [= <-] & [= <- <-] & H & H' & H'' & _).
      rewrite H2 in H. injection H as <- <-. rewrite H3 in H'. injection H' as <- <-.
      rewrite H4 in H''. discriminate.
    - intros ? e' _ H. discriminate. }
  split; [congruence |]. split.
  - split; [| reflexivity]. intros _.
    exists fedauthSpec, settings, config, projects, converted, a1, a2, a3.
    repeat split; assumption.
  - intros ? e' _ H. discriminate.
Qed.

End ManagedByAtlasFacts.

(** * Passes over a project that declares nothing *)
Section NothingDeclared.
Context {Atlas : Type}.
Context {order : set.Order atlasproject.CloudProviderIntegrationIdentifiable}.
Variable Client : atlasproject.CloudProviderAccessService (Atlas := Atlas).

Lemma syncLoop_keeps_removals_out (projectID : string)
    (cpiStatuses : list status.CloudProviderIntegration) :
  Forall (fun s => spec.pendingRemoval s = true) cpiStatuses ->
  forall (toUpdate : list status.CloudProviderIntegration) (withError : bool)
         (ctx : Context Atlas),
    snd (fst (fst (atlasproject.syncLoop Client projectID cpiStatuses toUpdate withError ctx)))
    = toUpdate.
Proof.
  induction 1 as [| s rest Hs _ IH]; intros toUpdate withError ctx; [reflexivity |].
  rewrite syncLoop_cons.
  assert (Hitem : snd (fst (atlasproject.syncItem Client projectID s ctx)) = false).
  { unfold atlasproject.syncItem, atlasproject.deleteCloudProviderAccess.
    unfold spec.pendingRemoval in Hs.
    destruct (status.Status s); try discriminate; run;
      destruct (atlasproject.doDeauthorizeRole _ _ _ _ _) as [[err |] a']; reflexivity. }
  destruct (atlasproject.syncItem Client projectID s ctx) as [[s' appended] ctx1].
  simpl in Hitem. subst appended.
  specialize (IH toUpdate (if nonEmpty (status.ErrorMessage s') then true else withError) ctx1).
  destruct (atlasproject.syncLoop _ _ _ _ _ _) as [[[rest' toUpdate'] withError'] ctx2].
  exact IH.
Qed.

Lemma enrichStatuses_nothing_declared
    (atlasCPAs : list mongodbatlas.CloudProviderAccessRole) :
  Forall (fun s => spec.pendingRemoval s = true)
    (atlasproject.enrichStatuses (atlasproject.initiateStatuses []) atlasCPAs).
Proof.
  unfold atlasproject.enrichStatuses, atlasproject.removals. simpl.
  apply Forall_app. split; apply List.Forall_forall; intros s Hs;
    apply in_map_iff in Hs as [cpa [<- _]]; reflexivity.
Qed.

Lemma ensure_nothing_declared_option (project : mdbv1.AtlasProject) (protected : bool)
    (ctx : Context Atlas) :
  atlasproject.getCloudProviderIntegrations (mdbv1.Spec project) = [] ->
  let run := atlasproject.ensureCloudProviderIntegration Client project protected ctx in
  cloudIntegrationsOption (snd run) = cloudIntegrationsOption ctx
  \/ cloudIntegrationsOption (snd run) = Some [].
Proof.
  intros Hspecs. cbv zeta.
  unfold atlasproject.ensureCloudProviderIntegration, bind.
  destruct (atlasproject.canCloudProviderIntegrationReconcile Client protected project ctx)
    as [[canReconcile err] ctx1] eqn:Hcan.
  destruct (canReconcile_effects _ _ _ _ _ _ Hcan) as [_ [Hopt _]].
  destruct err as [err |]; [simpl; auto |].
  destruct canReconcile; simpl; [| auto].
  rewrite Hspecs. simpl.
  destruct (Nat.eqb _ 0); [simpl; auto |].
  unfold atlasproject.syncCloudProviderIntegration, bind, call.
  destruct (atlasproject.doListRoles Client (mdbv1.ID project) (atlas ctx1))
    as [[err | atlasCPAs] a']; [simpl; auto |].
  match goal with
  | |- context [atlasproject.syncLoop Client ?p ?l ?u ?e ?c] =>
      pose proof (syncLoop_keeps_removals_out p l
                    (enrichStatuses_nothing_declared _) u e c) as Hkeep;
      destruct (atlasproject.syncLoop Client p l u e c)
        as [[[items toUpdate] withError] ctx3]
  end.
  simpl in Hkeep. subst toUpdate.
  unfold EnsureStatusOption, ret.
  right. destruct withError; reflexivity.
Qed.

(** X23. For a project that declares nothing, the removal of the roles
    that the remote holds is tried in one pass only: a pass that registers
    statuses registers none (the statuses of removals are not persisted,
    whether the removal succeeded or failed), and the pass after it, finding
    nothing declared and no status, makes no create, authorize or
    deauthorize call, whatever the remote still holds. *)
Theorem undeclared_removals_are_tried_once (protected : bool)
    (project : mdbv1.AtlasProject) (a : Atlas) :
  atlasproject.getCloudProviderIntegrations (mdbv1.Spec project) = [] ->
  let first := atlasproject.reconcile Client protected project a in
  let second :=
    atlasproject.reconcile Client protected (snd (fst first)) (atlas (snd first)) in
  cloudIntegrationsOption (snd first) <> None ->
  mdbv1.StatusCloudProviderIntegrations (mdbv1.Status (snd (fst first))) = []
  /\ mutations (calls (snd second)) = []
  /\ cloudIntegrationsOption (snd second) = None.
Proof.
  intros Hspecs. cbv zeta. unfold atlasproject.reconcile.
  pose proof (ensure_nothing_declared_option project protected (start a) Hspecs) as Hopt.
  cbv zeta in Hopt.
  destruct (atlasproject.ensureCloudProviderIntegration Client project protected (start a))
    as [r1 c1].
  simpl in *. intros Hsome.
  destruct Hopt as [Hopt | Hopt]; [congruence |].
  set (p1 := atlasproject.persistStatus project c1).
  assert (Hstatus : mdbv1.StatusCloudProviderIntegrations (mdbv1.Status p1) = []).
  { unfold p1, atlasproject.persistStatus. simpl. now rewrite Hopt. }
  split; [exact Hstatus |].
  pose proof (ensure_nothing_to_synchronize Client p1 protected (start (atlas c1))) as Hnothing.
  cbv zeta in Hnothing.
  destruct (atlasproject.ensureCloudProviderIntegration Client p1 protected (start (atlas c1)))
    as [r2 c2].
  simpl in *. apply and_comm. apply Hnothing.
  now rewrite Hopt, Hspecs.
Qed.

End NothingDeclared.

(** * Passes over a remote on which every item is authorized *)







Section Converged.
Context {Atlas : Type}.
Context {order : set.Order atlasproject.CloudProviderIntegrationIdentifiable}.
Variable Client : atlasproject.CloudProviderAccessService (Atlas := Atlas).






End Converged.

(** * Examples for the further properties *)

Lemma enriched_status_stands_for_declared_item_witness :
  exists cpiStatus : status.CloudProviderIntegration,
    nth_error
      (atlasproject.enrichStatuses (atlasproject.initiateStatuses [fake.aws examples.arn1])
         (fake.roles examples.remoteB)) 0
    = Some cpiStatus
    /\ observed.declares (fake.aws examples.arn1) cpiStatus
    /\ status.ErrorMessage cpiStatus = ""
    /\ (status.Status cpiStatus = status.CloudProviderIntegrationStatusNew
        \/ status.Status cpiStatus = status.CloudProviderIntegrationStatusCreated
        \/ status.Status cpiStatus = status.CloudProviderIntegrationStatusAuthorized).
Proof.
  apply (enriched_status_stands_for_declared_item [fake.aws examples.arn1]
           (fake.roles examples.remoteB) 0 (fake.aws examples.arn1)).
  reflexivity.
Defined.

Lemma sync_calls_follow_entry_phases_witness :
  calls (snd (atlasproject.syncCloudProviderIntegration fake.Client "project-1"
                [fake.aws examples.arn1] (start examples.remoteB)))
  = [ListRoles "project-1"; DeauthorizeRole "AWS" "project-1" "r2"].
Proof.
  rewrite (sync_calls_follow_entry_phases fake.Client "project-1" [fake.aws examples.arn1]
             (start examples.remoteB)
             {| mongodbatlas.AWSIAMRoles := fake.roles examples.remoteB |} eq_refl).
  vm_compute. reflexivity.
Defined.

Lemma sync_on_empty_remote_creates_each_item_witness :
  calls (snd (atlasproject.syncCloudProviderIntegration fake.Client "project-1"
                [fake.aws examples.arn1; fake.aws examples.arn2] (start examples.remoteEmpty)))
  = [ListRoles "project-1"; CreateRole "project-1" "AWS"; CreateRole "project-1" "AWS"].
Proof.
  apply (sync_on_empty_remote_creates_each_item fake.Client "project-1"
           [fake.aws examples.arn1; fake.aws examples.arn2] (start examples.remoteEmpty)).
  reflexivity.
Defined.

Lemma failed_create_is_persisted_witness :
  fst (fst (fst (atlasproject.syncLoop fake.Client "project-1" [scenarios.newItem] [] false
                   (start scenarios.remoteFailingCreate))))
  = [atlasproject.withFailure scenarios.newItem
       status.CloudProviderIntegrationStatusFailedToCreate "service unavailable"].
Proof.
  destruct (atlasproject.syncLoop fake.Client "project-1" [scenarios.newItem] [] false
              (start scenarios.remoteFailingCreate))
    as [[[items toUpdate] withError] ctx'] eqn:Hloop.
  destruct (failed_create_is_persisted fake.Client "project-1" scenarios.newItem [] [] false
              (start scenarios.remoteFailingCreate) "service unavailable"
              (or_introl eq_refl) eq_refl items toUpdate withError ctx' Hloop)
    as (Hhd & Hlen & _).
  simpl. destruct items as [| item [| item' items]]; try discriminate.
  simpl in Hhd. now injection Hhd as ->.
Defined.

Lemma failed_authorize_is_persisted_witness :
  fst (fst (fst (atlasproject.syncLoop fake.Client "project-1" [scenarios.createdItem] [] false
                   (start scenarios.remoteFailingAuthorize))))
  = [atlasproject.withFailure scenarios.createdItem
       status.CloudProviderIntegrationStatusFailedToAuthorize "service unavailable"].
Proof.
  destruct (atlasproject.syncLoop fake.Client "project-1" [scenarios.createdItem] [] false
              (start scenarios.remoteFailingAuthorize))
    as [[[items toUpdate] withError] ctx'] eqn:Hloop.
  destruct (failed_authorize_is_persisted fake.Client "project-1" scenarios.createdItem
              [] [] false (start scenarios.remoteFailingAuthorize) "service unavailable"
              (or_introl eq_refl) ltac:(discriminate) eq_refl
              items toUpdate withError ctx' Hloop)
    as (Hhd & Hlen & _).
  simpl. destruct items as [| item [| item' items]]; try discriminate.
  simpl in Hhd. now injection Hhd as ->.
Defined.

Lemma resolver_error_ends_pass_witness :
  fst (atlasproject.ensureCloudProviderIntegration fake.Client examples.projectMalformed true
         (start examples.remoteEmpty))
  = Terminate Internal
      "unable to resolve ownership for deletion protection: unexpected end of JSON input".
Proof.
  destruct (resolver_error_ends_pass fake.Client examples.projectMalformed true
              (start examples.remoteEmpty) (start examples.remoteEmpty) false
              "unexpected end of JSON input" eq_refl)
    as [Hresult _].
  cbv zeta in Hresult. rewrite Hresult. reflexivity.
Defined.

Lemma fetch_failure_ends_pass_witness :
  fst (atlasproject.ensureCloudProviderIntegration fake.Client examples.projectFresh false
         (start scenarios.remoteFailingList))
  = Terminate ProjectCloudIntegrationsIsNotReadyInAtlas
      "unable to fetch cloud provider access from Atlas: service unavailable".
Proof.
  assert (Hcan : atlasproject.canCloudProviderIntegrationReconcile fake.Client false
                   examples.projectFresh (start scenarios.remoteFailingList)
                 = ((true, None), start scenarios.remoteFailingList)) by reflexivity.
  assert (Hsome : atlasproject.getCloudProviderIntegrations (mdbv1.Spec examples.projectFresh)
                  <> []
                  \/ mdbv1.StatusCloudProviderIntegrations (mdbv1.Status examples.projectFresh)
                     <> []) by (left; discriminate).
  assert (Hlist : fst (atlasproject.doListRoles fake.Client (mdbv1.ID examples.projectFresh)
                         (atlas (start scenarios.remoteFailingList)))
                  = inl "service unavailable") by reflexivity.
  destruct (fetch_failure_ends_pass fake.Client examples.projectFresh false
              (start scenarios.remoteFailingList) (start scenarios.remoteFailingList)
              "service unavailable" Hcan Hsome Hlist)
    as [Hresult _].
  cbv zeta in Hresult. rewrite Hresult. reflexivity.
Defined.

Lemma nothing_declared_nothing_done_witness :
  fst (atlasproject.ensureCloudProviderIntegration fake.Client scenarios.projectEmpty false
         (start examples.remoteB))
  = OK
  /\ calls (snd (atlasproject.ensureCloudProviderIntegration fake.Client
                   scenarios.projectEmpty false (start examples.remoteB)))
     = [].
Proof.
  rewrite (nothing_declared_nothing_done fake.Client scenarios.projectEmpty false
             (start examples.remoteB) (start examples.remoteB) eq_refl eq_refl eq_refl).
  split; reflexivity.
Defined.

Lemma known_remote_is_permitted_witness :
  fst (atlasproject.canCloudProviderIntegrationReconcile fake.Client true
         scenarios.projectRedeclared (start examples.remoteB))
  = (true, None).
Proof.
  apply (known_remote_is_permitted fake.Client scenarios.projectRedeclared true
           (start examples.remoteB)
           {| mdbv1.CloudProviderAccessRoles := [];
              mdbv1.CloudProviderIntegrations :=
                [fake.aws examples.arn1; fake.aws examples.arn2] |}
           {| mongodbatlas.AWSIAMRoles := fake.roles examples.remoteB |}
           eq_refl eq_refl).
  intros r [<- | [<- | []]] _.
  - exists (fake.aws examples.arn1). split; [now left | split; reflexivity].
  - exists (fake.aws examples.arn2). split; [right; now left | split; reflexivity].
Defined.

Lemma deprecated_roles_shadow_integrations_witness :
  atlasproject.ensureCloudProviderIntegration fake.Client
    {| mdbv1.ID := mdbv1.ID scenarios.projectDeprecated;
       mdbv1.AnnotationLastAppliedConfiguration :=
         mdbv1.AnnotationLastAppliedConfiguration scenarios.projectDeprecated;
       mdbv1.Spec :=
         {| mdbv1.CloudProviderAccessRoles :=
              mdbv1.CloudProviderAccessRoles (mdbv1.Spec scenarios.projectDeprecated);
            mdbv1.CloudProviderIntegrations := [] |};
       mdbv1.Status := mdbv1.Status scenarios.projectDeprecated |}
    false (start examples.remoteEmpty)
  = atlasproject.ensureCloudProviderIntegration fake.Client scenarios.projectDeprecated
      false (start examples.remoteEmpty).
Proof.
  apply (deprecated_roles_shadow_integrations fake.Client scenarios.projectDeprecated []
           false (start examples.remoteEmpty)).
  discriminate.
Defined.

Lemma declared_item_takes_its_role_witness :
  nth_error
    (atlasproject.enrichStatuses (atlasproject.initiateStatuses [fake.aws examples.arn1])
       (atlasproject.sortAtlasCPAsByRoleID (fake.roles examples.remoteB))) 0
  = Some (atlasproject.copyCloudProviderAccessData scenarios.newItem
            (fake.awsRole "r1" examples.arn1)).
Proof.
  apply (declared_item_takes_its_role [fake.aws examples.arn1] (fake.roles examples.remoteB)
           0 (fake.aws examples.arn1) (fake.awsRole "r1" examples.arn1)).
  - reflexivity.
  - now left.
  - discriminate.
  - discriminate.
  - intros r' [<- | [<- | []]]; split.
    + reflexivity.
    + intros _. split; reflexivity.
    + intros [_ H]. discriminate.
    + discriminate.
Defined.

Lemma sync_in_step_does_nothing_witness :
  atlasdatafederation.syncPrivateEndpointsWithAtlas (fake.clientDF []) "project-1"
    [fake.pe "vpce-1"; fake.pe "vpce-2"] [fake.pe "vpce-2"; fake.pe "vpce-1"]
    (start examples.remoteListingFails)
  = (OK, start examples.remoteListingFails).
Proof.
  apply (sync_in_step_does_nothing (fake.clientDF []) "project-1"
           [fake.pe "vpce-1"; fake.pe "vpce-2"] [fake.pe "vpce-2"; fake.pe "vpce-1"]).
  - intros e [<- | [<- | []]]; (split; [discriminate |]); eexists;
      (split; [| reflexivity]); simpl; auto.
  - intros e [<- | [<- | []]]; eexists; (split; [| reflexivity]); simpl; auto.
Defined.

Lemma skipped_reconcile_only_removes_finalizer_witness :
  fst (atlasfederatedauth.Reconcile scenarios.skippedRun)
  = atlasfederatedauth.terminate atlasfederatedauth.Internal "conflict".
Proof.
  destruct (skipped_reconcile_only_removes_finalizer scenarios.skippedRun eq_refl eq_refl)
    as (_ & _ & Hresult).
  cbv zeta in Hresult. rewrite Hresult. reflexivity.
Defined.


Lemma undeclared_removals_are_tried_once_witness :
  let first := atlasproject.reconcile fake.Client false scenarios.projectUndeclared
                 examples.remoteFailingDeauthorize in
  let second :=
    atlasproject.reconcile fake.Client false (snd (fst first)) (atlas (snd first)) in
  calls (snd first) = [ListRoles "project-1"; DeauthorizeRole "AWS" "project-1" "r9"]
  /\ fake.roles (atlas (snd second)) = [fake.awsRole "r9" examples.arn9]
  /\ mutations (calls (snd second)) = [].
Proof.
  cbv zeta.
  assert (Hsome : cloudIntegrationsOption
                    (snd (atlasproject.reconcile fake.Client false scenarios.projectUndeclared
                            examples.remoteFailingDeauthorize)) <> None)
    by (vm_compute; discriminate).
  destruct (undeclared_removals_are_tried_once fake.Client false scenarios.projectUndeclared
              examples.remoteFailingDeauthorize eq_refl Hsome) as (_ & Hcalls & _).
  split; [vm_compute; reflexivity |]. split; [vm_compute; reflexivity | exact Hcalls].
Defined.
